(** * my-pytorch-bert: the pre-training example pipeline

    A shallow embedding of [mptb/utils.py] (truncate_seq_pair) and of
    [mptb/pretrain_dataset.py] (OneSegmentDataset, PretrainDataset,
    PreTensorPretrainDataset), and the properties of the pipeline that the
    specification states about them; then of [utils.to_bert_ids] and of the
    vocabulary of [mptb/tokenization_juman.py], with further properties
    that the code shows.

    Conventions.
    - Python lists are [list]; token ids and Python integers that may be
      negative are [Z]; list positions and lengths are [nat].
    - A Python exception is a value of [exn]; a computation that may raise
      returns a [result].
    - The module-level random state (random.random, randint, randrange,
      shuffle, numpy.random.geometric) is an explicit tape of draws that is
      threaded through every function that consumes randomness. *)

From Stdlib Require Import ZArith Lia String Ascii.
From stdpp Require Import base list.
From Equations Require Import Equations.

Local Open Scope Z_scope.

(** ** Exceptions and results *)

Inductive exn : Type :=
| ValueError
| TypeError
| IndexError
| AssertionError
| AttributeError
| NameError
| ZeroDivisionError
| FileNotFoundError
| EOFError.

Inductive result (A : Type) : Type :=
| Ok (a : A)
| Err (e : exn).
Arguments Ok {A} a.
Arguments Err {A} e.

Definition is_ok {A} (r : result A) : bool :=
  match r with Ok _ => true | Err _ => false end.

#[global] Instance result_ret : MRet result := λ A a, Ok a.
#[global] Instance result_bind : MBind result :=
  λ A B f r, match r with Ok a => f a | Err e => Err e end.

(** ** The random state

    A tape is the sequence of raw draws still to come.  Every primitive of
    the [random] module (and numpy's [geometric]) takes the next raw draw
    and reduces it to its own range, so any behaviour of the generator is
    the reading of some tape. *)

Definition tape : Type := nat → Z.

Definition Rand (A : Type) : Type := tape → result (A * tape).

#[global] Instance rand_ret : MRet Rand := λ A a t, Ok (a, t).
#[global] Instance rand_bind : MBind Rand :=
  λ A B f m t, match m t with Ok (a, t') => f a t' | Err e => Err e end.

Definition raise {A} (e : exn) : Rand A := λ _, Err e.

Definition lift {A} (r : result A) : Rand A :=
  λ t, match r with Ok a => Ok (a, t) | Err e => Err e end.

Definition draw : Rand Z := λ t, Ok (t 0%nat, λ n, t (S n)).

Module Random.

(** [random()]: a double in [0, 1), always a multiple of 2^-53.  The value
    returned is the numerator k of k / 2^53. *)
Definition random : Rand Z := k ← draw; mret (k mod 2 ^ 53).

(** Comparisons of [random()] with the literals of the source, each literal
    being the double nearest to it:
      0.8 = 7205759403792794 / 2^53,  0.5 = 2^52 / 2^53,
      0.1 = 7205759403792794 / 2^56. *)
Definition lt_0_8 (k : Z) : bool := k <? 7205759403792794.
Definition lt_0_5 (k : Z) : bool := k <? 2 ^ 52.
Definition gt_0_5 (k : Z) : bool := 2 ^ 52 <? k.
Definition lt_0_1 (k : Z) : bool := 8 * k <? 7205759403792794.

(** [randint(a, b)]: an integer in [a, b]; ValueError on an empty range. *)
Definition randint (a b : Z) : Rand Z :=
  if b <? a then raise ValueError
  else k ← draw; mret (a + k mod (b - a + 1)).

(** [randrange(n)]: an integer in [0, n); ValueError when n <= 0. *)
Definition randrange (n : Z) : Rand Z :=
  if n <=? 0 then raise ValueError
  else k ← draw; mret (k mod n).

(** [x[i], x[j] = x[j], x[i]] *)
Definition swap {A} (i j : nat) (x : list A) : list A :=
  match x !! i, x !! j with
  | Some a, Some b => <[i:=b]> (<[j:=a]> x)
  | _, _ => x
  end.

(** [shuffle(x)]:
      for i in reversed(range(1, len(x))):
          j = randbelow(i + 1); x[i], x[j] = x[j], x[i]
    [shuffle_from n x] runs the iterations i = n, n-1, ..., 1. *)
Fixpoint shuffle_from {A} (i : nat) (x : list A) : Rand (list A) :=
  match i with
  | O => mret x
  | S i' =>
      j ← randrange (Z.of_nat i + 1);
      shuffle_from i' (swap i (Z.to_nat j) x)
  end.

Definition shuffle {A} (x : list A) : Rand (list A) :=
  shuffle_from (length x - 1) x.

(** [numpy.random.geometric(p)]: a positive integer. *)
Definition geometric : Rand Z := k ← draw; mret (1 + k mod (2 ^ 63 - 1)).

End Random.

(** ** Python and NumPy library functions used by the datasets *)

Module Py.

(** Rounding to a double, as done by [float(n)] and by the product of two
    doubles: for a non-negative integer N (the exact value in some fixed
    binary unit), the nearest integer with at most 53 significant bits,
    ties to even.  Overflow and subnormal values do not occur for the
    lengths of lists. *)
Definition fl53 (N : Z) : Z :=
  let e := Z.log2 N + 1 - 53 in
  if e <=? 0 then N
  else
    let q := N / 2 ^ e in
    let r := N mod 2 ^ e in
    let h := 2 ^ (e - 1) in
    (if (h <? r) || ((r =? h) && Z.odd q) then q + 1 else q) * 2 ^ e.

(** [round(A / D)] on an exact value: nearest integer, ties to even. *)
Definition round_half_even (A D : Z) : Z :=
  let k := A / D in
  let r := A mod D in
  if (D <? 2 * r) || ((2 * r =? D) && Z.odd k) then k + 1 else k.

(** The double written [0.15] is 5404319552844595 / 2^55. *)
Definition c_0_15 : Z := 5404319552844595.

(** [int(round(n * 0.15))] for a length n: n is converted to a double, the
    product is rounded to a double, and [round] rounds that to an integer. *)
Definition round_times_0_15 (n : nat) : nat :=
  Z.to_nat (round_half_even (fl53 (fl53 (Z.of_nat n) * c_0_15)) (2 ^ 55)).

(** Consecutive slices of the given sizes. *)
Fixpoint slices {A} (sizes : list nat) (ary : list A) : list (list A) :=
  match sizes with
  | [] => []
  | n :: sizes' => take n ary :: slices sizes' (drop n ary)
  end.

(** [numpy.array_split(ary, n)]: ValueError unless n > 0; otherwise
    len(ary) % n slices of size len(ary) // n + 1 followed by the others of
    size len(ary) // n. *)
Definition array_split {A} (ary : list A) (sections : Z) : result (list (list A)) :=
  if sections <=? 0 then Err ValueError
  else
    let n := Z.to_nat sections in
    let each := (length ary / n)%nat in
    let extras := (length ary mod n)%nat in
    Ok (slices (replicate extras (S each) ++ replicate (n - extras) each) ary).

(** A [dict] keeps its keys in insertion order; setting a key that is
    already present keeps its position. *)
Definition dict (K V : Type) : Type := list (K * V).

Fixpoint dict_set {K V} `{EqDecision K} (d : dict K V) (k : K) (v : V) : dict K V :=
  match d with
  | [] => [(k, v)]
  | (k', v') :: d' =>
      if decide (k = k') then (k', v) :: d' else (k', v') :: dict_set d' k v
  end.

(** [dict.fromkeys(keys)], from a dict that holds some keys already, and
    [list(d)]. *)
Definition fromkeys_from {K} `{EqDecision K} (d : dict K unit) (keys : list K)
  : dict K unit :=
  foldl (λ d k, dict_set d k ()) d keys.

Definition fromkeys {K} `{EqDecision K} (keys : list K) : dict K unit :=
  fromkeys_from [] keys.

Definition keys {K V} (d : dict K V) : list K := d.*1.

(** [l[i]] for a Python integer i: negative indices count from the end. *)
Definition getitem {A} (l : list A) (i : Z) : result A :=
  let j := if i <? 0 then i + Z.of_nat (length l) else i in
  if j <? 0 then Err IndexError
  else match l !! Z.to_nat j with
       | Some a => Ok a
       | None => Err IndexError
       end.

(** [l[i] = v] for a position i >= 0: IndexError out of range. *)
Definition setitem {A} (l : list A) (i : nat) (v : A) : result (list A) :=
  if decide (i < length l)%nat then Ok (<[i:=v]> l) else Err IndexError.

(** [l[n:]] and [l[:n]] for a non-negative n. *)
Definition slice_from {A} (l : list A) (n : nat) : list A := drop n l.
Definition slice_to {A} (l : list A) (n : nat) : list A := take n l.

(** [[i for i, x in enumerate(l) if p x]] *)
Definition positions {A} (p : A → bool) (l : list A) : list nat :=
  (filter (λ ix, p ix.2 = true) (imap (λ i x, (i, x)) l)).*1.

End Py.

(** ** utils.truncate_seq_pair *)

Module Utils.

(** [l.pop()] on a non-empty list [l]. *)
Definition pop {A} (l : list A) : list A := take (length l - 1) l.

(** The [while True] loop of truncate_seq_pair.  The two lists are mutated in
    place by the source; the embedding returns their final contents.  The
    loop is defined by well-founded recursion on the total length, so it is a
    total function: [Err IndexError] is the exception of [tokens_b.pop()]
    on an empty list, not a lack of fuel ([tokens_a.pop()] is only reached
    when [tokens_a] is the longer list, hence not empty). *)
Equations? truncate_seq_pair (tokens_a tokens_b : list Z) (max_length : Z)
  : result (list Z * list Z)
  by wf (length tokens_a + length tokens_b)%nat lt :=
  truncate_seq_pair tokens_a tokens_b max_length
    with Z_le_dec (Z.of_nat (length tokens_a + length tokens_b)) max_length => {
    | left _ => Ok (tokens_a, tokens_b)
    | right _ with lt_dec (length tokens_b) (length tokens_a) => {
      | left _ => truncate_seq_pair (pop tokens_a) tokens_b max_length
      | right _ with tokens_b => {
        | [] => Err IndexError
        | x :: tl => truncate_seq_pair tokens_a (pop (x :: tl)) max_length
        }
      }
    }.
Proof.
  - unfold pop. rewrite length_take. lia.
  - unfold pop. rewrite length_take. simpl. lia.
Qed.

End Utils.

(** ** The tokenizer adapter

    The datasets use a tokenizer only through these methods
    (tokenization_juman.FullTokenizer and its siblings). *)

Record Tokenizer : Type := {
  tokenize : string → list string;
  convert_tokens_to_ids : list string → list Z;
  get_random_token_id : Rand Z;
}.

(** [tokenizer.convert_tokens_to_ids([name])[0]] *)
Definition reserved_id (tokenizer : Tokenizer) (name : string) : result Z :=
  Py.getitem (convert_tokens_to_ids tokenizer [name]) 0.

(** tokenization_juman.FullTokenizer.get_random_token_id:
    [randint(self.control_len + 1, len(self.inv_vocab) - 1)] *)
Definition juman_get_random_token_id (control_len inv_vocab_len : Z) : Rand Z :=
  Random.randint (control_len + 1) (inv_vocab_len - 1).

(** ** Files

    What the datasets read: pickled document lists, pickled index lists
    (the [.index] sidecar), text files as their lines, and epoch caches as
    their sequence of pickled records.  [gzip.open] and [open] read the same
    content, so the choice on [endswith("gz")] does not show here.  A path
    that maps to [None] does not exist. *)

Record FileSystem (R : Type) : Type := {
  pickled_documents : string → option (list (list Z));
  pickled_indices : string → option (list nat);
  text_lines : string → option (list string);
  pickled_records : string → option (list R);
}.
Arguments pickled_documents {R}.
Arguments pickled_indices {R}.
Arguments text_lines {R}.
Arguments pickled_records {R}.

Definition open_file {A} (content : option A) : result A :=
  match content with Some a => Ok a | None => Err FileNotFoundError end.

(** [pickle.dump(content, f)] on the index file at [path]. *)
Definition write_indices {R} (fs : FileSystem R) (path : string) (content : list nat)
  : FileSystem R :=
  {| pickled_documents := pickled_documents fs;
     pickled_indices := λ p, if String.eqb p path then Some content else pickled_indices fs p;
     text_lines := text_lines fs;
     pickled_records := pickled_records fs |}.

(** ** Features *)

(** The list returned by convert_example_to_features.  [is_next_label] is
    [None] where OneSegmentDataset returns an empty list in that slot. *)
Record Feature : Type := {
  input_ids : list Z;
  segment_ids : list Z;
  input_mask : list Z;
  is_next_label : option Z;
  label_ids : list Z;
}.

(** What the masking step worked on: the sequence with its special tokens
    before any substitution, and the positions it visited, in order. *)
Record Trace : Type := {
  tr_tokens : list Z;
  tr_selected : list nat;
}.

(** The 80% / 10% / 10% rule at one position:
      if random() < 0.8: tokens[pos] = mask_id
      elif random() < 0.5: tokens[pos] = get_random_token_id() *)
Definition substitute (tokenizer : Tokenizer) (mask_id : Z) (tokens : list Z) (pos : nat)
  : Rand (list Z) :=
  r ← Random.random;
  if Random.lt_0_8 r then lift (Py.setitem tokens pos mask_id)
  else
    r' ← Random.random;
    if Random.lt_0_5 r' then
      id ← get_random_token_id tokenizer;
      lift (Py.setitem tokens pos id)
    else mret tokens.

Definition not_special (cls_id sep_id : Z) (token : Z) : bool :=
  negb (token =? cls_id) && negb (token =? sep_id).

(** [[i for i, token in enumerate(tokens)
      if token != self.cls_id and token != self.sep_id]] *)
Definition mask_candidate_pos (cls_id sep_id : Z) (tokens : list Z) : list nat :=
  Py.positions (not_special cls_id sep_id) tokens.

(** [l.extend([x] * n)] for a Python integer n: nothing when n <= 0. *)
Definition pad_to {A} (l : list A) (x : A) (n : Z) : list A :=
  l ++ replicate (Z.to_nat n) x.

(** ** pretrain_dataset.OneSegmentDataset *)

Module OneSegmentDataset.

Record t : Type := {
  tokenizer : Tokenizer;
  max_pos : Z;
  dataset_path : option string;
  pad_id : Z;
  cls_id : Z;
  sep_id : Z;
  mask_id : Z;
  sentence_stack : bool;
  max_words_length : Z;
  all_documents : list (list Z);
  indices : list nat;
  (** [None]: the attribute is not set *)
  last_indices_path : option string;
}.

Section Loading.

(** [str.strip] *)
Variable strip : string → string.
Context {R : Type}.
Variable fs : FileSystem R.

(** _load_text, on the pair of [self.all_documents] and the stack. *)
Definition _load_text (tok : Tokenizer) (max_pos : Z) (sentence_stack : bool)
    (st : list (list Z) * list string) (text : string)
  : list (list Z) * list string :=
  let '(all_documents, stack) := st in
  let text := strip text in
  if String.eqb text "" then
    if decide (0 < length stack)%nat
    then (all_documents ++ [convert_tokens_to_ids tok stack], [])
    else (all_documents, stack)
  else if sentence_stack then
    let tokens := tokenize tok text in
    if max_pos - 2 <? Z.of_nat (length stack) + Z.of_nat (length tokens)
    then (all_documents ++ [convert_tokens_to_ids tok stack], [])
    else (all_documents, stack ++ tokens)
  else
    let tokens := tokenize tok text in
    (all_documents ++ [convert_tokens_to_ids tok tokens], stack).

(** The order built on the pickle route: a shuffled full range, put after
    the content of the sidecar file when there is one, duplicates removed
    by [dict.fromkeys]. *)
Definition resume_indices (last_indices : option (list nat)) (shuffled : list nat)
  : list nat :=
  match last_indices with
  | Some last => Py.keys (Py.fromkeys (last ++ shuffled))
  | None => shuffled
  end.

Definition __init__ (tok : Tokenizer) (max_pos : Z) (dataset_path : option string)
    (documents : list string) (sentence_stack : bool) (pickle_path : option string)
    (max_words_length : Z) : Rand t :=
  pad ← lift (reserved_id tok "[PAD]");
  cls ← lift (reserved_id tok "[CLS]");
  sep ← lift (reserved_id tok "[SEP]");
  mask ← lift (reserved_id tok "[MASK]");
  let self all_documents indices last_indices_path :=
    {| tokenizer := tok; max_pos := max_pos; dataset_path := dataset_path;
       pad_id := pad; cls_id := cls; sep_id := sep; mask_id := mask;
       sentence_stack := sentence_stack; max_words_length := max_words_length;
       all_documents := all_documents; indices := indices;
       last_indices_path := last_indices_path |} in
  match pickle_path with
  | Some pickle_path =>
      all_documents ← lift (open_file (pickled_documents fs pickle_path));
      shuffled ← Random.shuffle (seq 0 (length all_documents));
      let last_indices_path := String.append pickle_path ".index" in
      mret (self all_documents
              (resume_indices (pickled_indices fs last_indices_path) shuffled)
              (Some last_indices_path))
  | None =>
      loaded ←
        (if decide (0 < length documents)%nat then
           mret (foldl (_load_text tok max_pos sentence_stack) ([], []) documents)
         else match dataset_path with
              | Some path =>
                  lines ← lift (open_file (text_lines fs path));
                  mret (foldl (_load_text tok max_pos sentence_stack) ([], []) lines)
              | None => mret ([], [])
              end);
      let '(all_documents, stack) := loaded in
      let all_documents :=
        if decide (0 < length stack)%nat
        then all_documents ++ [convert_tokens_to_ids tok stack]
        else all_documents in
      if decide (length all_documents = 0%nat) then
        (* raise ValueError(dataset_path + '...'): the concatenation itself
           raises TypeError when dataset_path is None *)
        match dataset_path with
        | Some _ => raise ValueError
        | None => raise TypeError
        end
      else mret (self all_documents (seq 0 (length all_documents)) None)
  end.

(** dump_last_indices: the file system after the call. *)
Definition dump_last_indices (self : t) (steps : Z) : result (FileSystem R) :=
  match last_indices_path self with
  | Some path =>
      if decide (length (indices self) = 0%nat) then Err ZeroDivisionError
      else
        let last_indices := Z.to_nat (steps mod Z.of_nat (length (indices self))) in
        Ok (write_indices fs path (Py.slice_from (indices self) last_indices))
  | None => Ok fs
  end.

End Loading.

Definition __len__ (self : t) : nat := length (indices self).

Section Features.

Variable self : t.

(** The clamps on the span length drawn from the geometric distribution. *)
Definition clamp_mask_length (mask_length : Z) (mask_prediction : nat) : Z :=
  let mask_length :=
    if max_words_length self <? mask_length then max_words_length self else mask_length in
  if Z.of_nat mask_prediction <? mask_length then Z.of_nat mask_prediction else mask_length.

(** [int(len(mask_candidate_pos) / mask_length)] for a positive
    mask_length: the quotient of two small non-negative integers, whose
    truncation is the integer quotient. *)
Definition sections (mask_candidate_pos : list nat) (mask_length : Z) : Z :=
  Z.of_nat (length mask_candidate_pos) / mask_length.

(** The inner loop [for pos in words], from the current [masked]; the
    result carries the positions visited. *)
Fixpoint mask_words (mask_prediction : nat) (words : list nat)
    (st : list Z * nat * list nat) : Rand (list Z * nat * list nat) :=
  match words with
  | [] => mret st
  | pos :: words' =>
      let '(tokens, masked, selected) := st in
      let masked := S masked in
      tokens ← substitute (tokenizer self) (mask_id self) tokens pos;
      let st := (tokens, masked, selected ++ [pos]) in
      if decide (masked = mask_prediction) then mret st
      else mask_words mask_prediction words' st
  end.

(** The outer loop [for words in mask_candidate_words]. *)
Fixpoint mask_chunks (mask_prediction : nat) (chunks : list (list nat))
    (st : list Z * nat * list nat) : Rand (list Z * nat * list nat) :=
  match chunks with
  | [] => mret st
  | words :: chunks' =>
      st ← mask_words mask_prediction words st;
      if decide (st.1.2 = mask_prediction) then mret st
      else mask_chunks mask_prediction chunks' st
  end.

Definition convert_example_to_features_trace (tokens_a : list Z) (max_pos : Z)
  : Rand (Feature * Trace) :=
  let target_max_pos := max_pos - 2 in
  r ← Random.random;
  target_max_pos ←
    (if Random.lt_0_1 r then Random.randint 2 target_max_pos else mret target_max_pos);
  truncated ← lift (Utils.truncate_seq_pair tokens_a [] target_max_pos);
  let tokens_a_ids := [cls_id self] ++ truncated.1 ++ [sep_id self] in
  let tokens := tokens_a_ids in
  let mask_prediction := Py.round_times_0_15 (length tokens) in
  let candidates := mask_candidate_pos (cls_id self) (sep_id self) tokens in
  mask_length ← Random.geometric;
  let mask_length := clamp_mask_length mask_length mask_prediction in
  masked ←
    (if 0 <? mask_length then
       mask_candidate_words ← lift (Py.array_split candidates (sections candidates mask_length));
       mask_candidate_words ← Random.shuffle mask_candidate_words;
       mask_chunks mask_prediction mask_candidate_words (tokens, 0%nat, [])
     else mret (tokens, 0%nat, []));
  let input_ids := masked.1.1 in
  let label_ids := tokens_a_ids in
  let num_zero_pad := max_pos - Z.of_nat (length input_ids) in
  mret ({| input_ids := pad_to input_ids (pad_id self) num_zero_pad;
           segment_ids := [];
           input_mask := [];
           is_next_label := None;
           label_ids := pad_to label_ids (pad_id self) num_zero_pad |},
        {| tr_tokens := tokens; tr_selected := masked.2 |}).

Definition convert_example_to_features (tokens_a : list Z) (max_pos : Z) : Rand Feature :=
  ft ← convert_example_to_features_trace tokens_a max_pos; mret ft.1.

(** __getitem__, before the conversion of the lists to tensors. *)
Definition __getitem__ (item : Z) : Rand Feature :=
  index ← lift (Py.getitem (indices self) item);
  tokens_a ← lift (Py.getitem (all_documents self) (Z.of_nat index));
  convert_example_to_features tokens_a (max_pos self).

End Features.

(** What one of the two masking loops guarantees between the state it
    starts from and the state it returns. *)
Definition mask_step_post (mask_prediction : nat)
    (st st' : list Z * nat * list nat) : Prop :=
  length st'.1.1 = length st.1.1 ∧
  ((st.1.2 < mask_prediction)%nat → (st'.1.2 ≤ mask_prediction)%nat) ∧
  (length st'.2 + st.1.2 = length st.2 + st'.1.2)%nat ∧
  (st.1.2 ≤ st'.1.2)%nat ∧
  (∀ i, i ∈ st.2 → i ∈ st'.2) ∧
  (∀ i, i ∉ st'.2 → st'.1.1 !! i = st.1.1 !! i).

End OneSegmentDataset.

(** ** pretrain_dataset.PretrainDataset *)

Module PretrainDataset.

(** [{"doc_id": ..., "line": ...}] *)
Record Sample : Type := { doc_id : nat; line : nat }.

Record t : Type := {
  tokenizer : Tokenizer;
  max_pos : Z;
  dataset_path : option string;
  on_memory : bool;
  current_doc : nat;
  current_random_doc : nat;
  sample_to_doc : list Sample;
  pad_id : Z;
  cls_id : Z;
  sep_id : Z;
  mask_id : Z;
  corpus_lines : nat;
  all_documents : list (list (list Z));
  num_docs : nat;
}.

(** What _load_text updates on [self]. *)
Record Loader : Type := {
  l_all_documents : list (list (list Z));
  l_sample_to_doc : list Sample;
  l_corpus_lines : nat;
}.

Section Loading.

(** [str.strip] *)
Variable strip : string → string.
Context {R : Type}.
Variable fs : FileSystem R.

(** [self.sample_to_doc.pop()] *)
Definition pop_sample (l : list Sample) : result (list Sample) :=
  match l with
  | [] => Err IndexError
  | _ => Ok (Utils.pop l)
  end.

(** The commit of an open document: it is appended to all_documents and
    the sample added for its last line is removed. *)
Definition close_doc (st : Loader) (doc : list (list Z)) : result Loader :=
  samples ← pop_sample (l_sample_to_doc st);
  mret {| l_all_documents := l_all_documents st ++ [doc];
          l_sample_to_doc := samples;
          l_corpus_lines := l_corpus_lines st |}.

Definition _load_text (tok : Tokenizer) (st : Loader * list (list Z)) (text : string)
  : result (Loader * list (list Z)) :=
  let '(self, doc) := st in
  let text := strip text in
  if String.eqb text "" then
    if decide (0 < length doc)%nat then
      self ← close_doc self doc; mret (self, [])
    else mret (self, doc)
  else
    let sample := {| doc_id := length (l_all_documents self); line := length doc |} in
    let tokens := tokenize tok text in
    mret ({| l_all_documents := l_all_documents self;
             l_sample_to_doc := l_sample_to_doc self ++ [sample];
             l_corpus_lines := S (l_corpus_lines self) |},
          doc ++ [convert_tokens_to_ids tok tokens]).

(** [for text in ...: doc = self._load_text(doc, text)] *)
Fixpoint load_lines (tok : Tokenizer) (st : Loader * list (list Z)) (lines : list string)
  : result (Loader * list (list Z)) :=
  match lines with
  | [] => mret st
  | text :: lines' => st ← _load_text tok st text; load_lines tok st lines'
  end.

(** The lazy branch of __init__ counts lines with [self.num_docs += 1]
    although [num_docs] is only ever assigned on the in-memory branch: the
    first blank line raises AttributeError, and so does the check after the
    loop when the last line is not blank.  On an empty file that check reads
    the unbound loop variable (NameError). *)
Fixpoint lazy_count (corpus_lines : nat) (lines : list string) : result nat :=
  match lines with
  | [] => Ok corpus_lines
  | line :: lines' =>
      if String.eqb (strip line) "" then Err AttributeError
      else lazy_count (S corpus_lines) lines'
  end.

Definition lazy_scan (lines : list string) : result nat :=
  corpus_lines ← lazy_count 0 lines;
  match last lines with
  | None => Err NameError
  | Some line =>
      if String.eqb (strip line) "" then Ok corpus_lines else Err AttributeError
  end.

Definition __init__ (tok : Tokenizer) (max_pos : Z) (dataset_path : option string)
    (documents : list string) (on_memory : bool) : result t :=
  _ ← (if decide (dataset_path = None ∧ length documents = 0%nat)
       then Err ValueError else Ok ());
  pad ← reserved_id tok "[PAD]";
  cls ← reserved_id tok "[CLS]";
  sep ← reserved_id tok "[SEP]";
  mask ← reserved_id tok "[MASK]";
  let self corpus_lines sample_to_doc all_documents num_docs :=
    {| tokenizer := tok; max_pos := max_pos; dataset_path := dataset_path;
       on_memory := on_memory; current_doc := 0; current_random_doc := 0;
       sample_to_doc := sample_to_doc;
       pad_id := pad; cls_id := cls; sep_id := sep; mask_id := mask;
       corpus_lines := corpus_lines; all_documents := all_documents;
       num_docs := num_docs |} in
  if decide ((0 < length documents)%nat ∨ on_memory = true) then
    lines ← (if decide (0 < length documents)%nat then Ok documents
             else match dataset_path with
                  | Some path => open_file (text_lines fs path)
                  | None => Err TypeError
                  end);
    st ← load_lines tok ({| l_all_documents := []; l_sample_to_doc := [];
                            l_corpus_lines := 0 |}, []) lines;
    let '(loader, doc) := st in
    loader ← (if decide (0 < length doc)%nat then close_doc loader doc else Ok loader);
    let num_docs := length (l_all_documents loader) in
    if decide (length (l_all_documents loader) = 0%nat) then
      (* raise ValueError(dataset_path + '...'): the concatenation itself
         raises TypeError when dataset_path is None *)
      match dataset_path with
      | Some _ => Err ValueError
      | None => Err TypeError
      end
    else Ok (self (l_corpus_lines loader) (l_sample_to_doc loader)
               (l_all_documents loader) num_docs)
  else
    match dataset_path with
    | Some path =>
        lines ← open_file (text_lines fs path);
        corpus_lines ← lazy_scan lines;
        Ok (self corpus_lines [] [] 0%nat)
    | None => Err TypeError
    end.

End Loading.

Definition __len__ (self : t) : Z :=
  Z.of_nat (corpus_lines self) - Z.of_nat (num_docs self) - 1.

(** get_corpus_line: the pair of lines and [self] after the call.  An object
    that is not on_memory has no [file] attribute (see [__init__]), so the
    lazy branch raises AttributeError at its first read. *)
Definition get_corpus_line (self : t) (item : Z) : result (list Z * list Z * t) :=
  if negb (item <? Z.of_nat (corpus_lines self)) then Err AssertionError
  else if on_memory self then
    sample ← Py.getitem (sample_to_doc self) item;
    doc ← Py.getitem (all_documents self) (Z.of_nat (doc_id sample));
    t1 ← Py.getitem doc (Z.of_nat (line sample));
    t2 ← Py.getitem doc (Z.of_nat (line sample) + 1);
    Ok (t1, t2,
        {| tokenizer := tokenizer self; max_pos := max_pos self;
           dataset_path := dataset_path self; on_memory := on_memory self;
           current_doc := doc_id sample;
           current_random_doc := current_random_doc self;
           sample_to_doc := sample_to_doc self;
           pad_id := pad_id self; cls_id := cls_id self; sep_id := sep_id self;
           mask_id := mask_id self; corpus_lines := corpus_lines self;
           all_documents := all_documents self; num_docs := num_docs self |})
  else Err AttributeError.

(** One pass of the body of the retry loop of get_random_line, up to the
    test.  In memory: a random document, then a random line of it.  Not in
    memory: [randint] then get_next_line, which reads the [random_file]
    attribute that no constructed object has. *)
Definition draw_random_line (self : t) : Rand (list Z) :=
  if on_memory self then
    rand_doc_idx ← Random.randrange (Z.of_nat (length (all_documents self)));
    rand_doc ← lift (Py.getitem (all_documents self) rand_doc_idx);
    i ← Random.randrange (Z.of_nat (length rand_doc));
    lift (Py.getitem rand_doc i)
  else
    _ ← Random.randint 1 (if Z.of_nat (corpus_lines self) <? 1000
                          then Z.of_nat (corpus_lines self) else 1000);
    raise AttributeError.

(** [for _ in range(more + 1)]: draw; break when
    [self.current_random_doc != self.current_doc]. *)
Fixpoint random_line_loop (self : t) (more : nat) : Rand (list Z) :=
  line ← draw_random_line self;
  if decide (current_random_doc self ≠ current_doc self) then mret line
  else match more with
       | O => mret line
       | S more' => random_line_loop self more'
       end.

Definition get_random_line (self : t) : Rand (list Z) := random_line_loop self 9.

Definition random_sent (self : t) (index : Z) : Rand (list Z * list Z * Z * t) :=
  pair ← lift (get_corpus_line self index);
  let '(t1, t2, self) := pair in
  r ← Random.random;
  if Random.gt_0_5 r then mret (t1, t2, 0, self)
  else
    t2 ← get_random_line self;
    mret (t1, t2, 1, self).

Section Features.

Variable self : t.

(** [for pos in mask_candidate_pos[:mask_prediction]] *)
Fixpoint mask_positions (selected : list nat) (tokens : list Z) : Rand (list Z) :=
  match selected with
  | [] => mret tokens
  | pos :: selected' =>
      tokens ← substitute (tokenizer self) (mask_id self) tokens pos;
      mask_positions selected' tokens
  end.

Definition convert_example_to_features_trace (tokens_a tokens_b : list Z)
    (is_next_label : Z) (max_pos : Z) : Rand (Feature * Trace) :=
  let target_max_pos :=
    if decide (tokens_b ≠ []) then max_pos - 3 else max_pos - 2 in
  r ← Random.random;
  target_max_pos ←
    (if Random.lt_0_1 r then Random.randint 2 target_max_pos else mret target_max_pos);
  truncated ← lift (Utils.truncate_seq_pair tokens_a tokens_b target_max_pos);
  let tokens_a_ids := cls_id self :: truncated.1 in
  let tokens_b_ids := truncated.2 ++ [sep_id self] in
  let tokens_b_ids :=
    if decide (length tokens_b_ids ≠ 0%nat) then tokens_b_ids ++ [sep_id self] else [] in
  let tokens := tokens_a_ids ++ tokens_b_ids in
  let segment_ids :=
    replicate (length tokens_a_ids) 0 ++ replicate (length tokens_b_ids) 1 in
  let mask_prediction := Py.round_times_0_15 (length tokens) in
  let candidates := mask_candidate_pos (cls_id self) (sep_id self) tokens in
  candidates ← Random.shuffle candidates;
  let selected := Py.slice_to candidates mask_prediction in
  masked ← mask_positions selected tokens;
  let input_ids := masked in
  let input_mask := replicate (length input_ids) 1 in
  let label_ids := tokens_a_ids ++ tokens_b_ids in
  let num_zero_pad := max_pos - Z.of_nat (length input_ids) in
  mret ({| input_ids := pad_to input_ids (pad_id self) num_zero_pad;
           segment_ids := pad_to segment_ids 0 num_zero_pad;
           input_mask := pad_to input_mask 0 num_zero_pad;
           is_next_label := Some is_next_label;
           label_ids := pad_to label_ids (pad_id self) num_zero_pad |},
        {| tr_tokens := tokens; tr_selected := selected |}).

Definition convert_example_to_features (tokens_a tokens_b : list Z)
    (is_next_label : Z) (max_pos : Z) : Rand Feature :=
  ft ← convert_example_to_features_trace tokens_a tokens_b is_next_label max_pos;
  mret ft.1.

End Features.

(** *** Vocabulary of the statements about the document store *)

(** [n] draws in a row, keeping only the last one. *)
Fixpoint draws (self : t) (n : nat) : Rand (list Z) :=
  match n with
  | O => draw_random_line self
  | S n' => _ ← draw_random_line self; draws self n'
  end.

(** Every line adds a sample and every closed document removes one. *)
Definition counted (st : Loader) : Prop :=
  (length (l_sample_to_doc st) + length (l_all_documents st))%nat = l_corpus_lines st.

(** A sample of a committed document points at a line that has a
    successor. *)
Definition sample_ok (docs : list (list (list Z))) (s : Sample) : Prop :=
  ∃ doc, docs !! doc_id s = Some doc ∧ (S (line s) < length doc)%nat.

(** The samples of the first [n] lines of the document numbered [d]. *)
Definition open_samples (d n : nat) : list Sample :=
  (λ i, {| doc_id := d; line := i |}) <$> seq 0 n.

(** While loading: the table holds samples of committed documents, then one
    sample for each line of the open document. *)
Definition loading (st : Loader * list (list Z)) : Prop :=
  ∃ closed,
    l_sample_to_doc st.1
      = closed ++ open_samples (length (l_all_documents st.1)) (length st.2) ∧
    Forall (sample_ok (l_all_documents st.1)) closed.

End PretrainDataset.

(** ** pretrain_dataset.PreTensorPretrainDataset *)

Module PreTensorPretrainDataset.

(** A pickled batch: the five tensors of a Feature, each with a leading
    batch dimension. *)
Definition tensor : Type := list Z.
Definition batch : Type := list (list tensor).

(** [self.file] is the sequence of records not read yet. *)
Record t : Type := {
  file : list batch;
  length : Z;
}.

(** [pickle.load(self.file)] *)
Definition pickle_load (f : list batch) : result (batch * list batch) :=
  match f with
  | [] => Err EOFError
  | r :: f' => Ok (r, f')
  end.

(** [for i in range(n): _ = pickle.load(self.file)] *)
Fixpoint skip (n : nat) (f : list batch) : result (list batch) :=
  match n with
  | O => Ok f
  | S n' => rf ← pickle_load f; skip n' rf.2
  end.

Definition __init__ (fs : FileSystem batch) (dataset_path : option string)
    (length last_step : Z) : result t :=
  if length <? 0 then Err ValueError
  else
    match dataset_path with
    | None => Err AttributeError
    | Some path =>
        f ← open_file (pickled_records fs path);
        let self := {| file := f; length := length |} in
        if 0 <? last_step then
          f ← skip (Z.to_nat last_step) (file self);
          (* [self.length - last_step] is evaluated and dropped *)
          let _ := PreTensorPretrainDataset.length self - last_step in
          Ok {| file := f; length := PreTensorPretrainDataset.length self |}
        else Ok self
    end.

Definition __len__ (self : t) : Z := length self.

(** [pretensor[i][0]] *)
Definition first_row (pretensor : batch) (i : Z) : result tensor :=
  column ← Py.getitem pretensor i; Py.getitem column 0.

Definition __getitem__ (self : t) (item : Z)
  : result (tensor * tensor * tensor * tensor * tensor * t) :=
  rf ← pickle_load (file self);
  let self' := {| file := rf.2; length := length self |} in
  x0 ← first_row rf.1 0;
  x1 ← first_row rf.1 1;
  x2 ← first_row rf.1 2;
  x3 ← first_row rf.1 3;
  x4 ← first_row rf.1 4;
  Ok (x0, x1, x2, x3, x4, self').

(** The number of records a sequence of reads can still obtain. *)
Fixpoint readable (n : nat) (f : list batch) : nat :=
  match n with
  | O => 0
  | S n' => match pickle_load f with
            | Ok rf => S (readable n' rf.2)
            | Err _ => 0
            end
  end.

End PreTensorPretrainDataset.

(** The words of the specification for the order after a resume:
    duplicates are removed while preserving first occurrence. *)
Fixpoint remove_duplicates_keeping_first (l : list nat) : list nat :=
  match l with
  | [] => []
  | x :: l' => x :: filter (λ y, y ≠ x) (remove_duplicates_keeping_first l')
  end.

(** A line that [_load_text] takes for a document boundary. *)
Definition blank (strip : string → string) (text : string) : Prop :=
  strip text = ""%string.

(** ** Concrete tokenizer, corpus and tapes used in the examples *)

Module Fixture.

(** [str.strip] on ASCII text. *)
Definition is_space (c : ascii) : bool :=
  let n := nat_of_ascii c in
  ((9 <=? n) && (n <=? 13) || (28 <=? n) && (n <=? 32))%nat.

Fixpoint lstrip (s : string) : string :=
  match s with
  | EmptyString => EmptyString
  | String c s' => if is_space c then lstrip s' else s
  end.

Fixpoint reverse_string (acc s : string) : string :=
  match s with
  | EmptyString => acc
  | String c s' => reverse_string (String c acc) s'
  end.

Definition strip (s : string) : string :=
  reverse_string EmptyString (lstrip (reverse_string EmptyString (lstrip s))).

(** A vocabulary whose first five entries are the control tokens; any other
    token is numbered from the code of its first character. *)
Definition token_id (token : string) : Z :=
  if String.eqb token "[PAD]" then 0
  else if String.eqb token "[UNK]" then 1
  else if String.eqb token "[CLS]" then 2
  else if String.eqb token "[SEP]" then 3
  else if String.eqb token "[MASK]" then 4
  else match token with
       | EmptyString => 1
       | String c _ => 100 + Z.of_nat (nat_of_ascii c)
       end.

(** One token per line. *)
Definition tokenizer : Tokenizer :=
  {| tokenize := λ text, [text];
     convert_tokens_to_ids := λ tokens, token_id <$> tokens;
     get_random_token_id := juman_get_random_token_id 5 356 |}.

Definition no_files : FileSystem PreTensorPretrainDataset.batch :=
  {| pickled_documents := λ _, None;
     pickled_indices := λ _, None;
     text_lines := λ _, None;
     pickled_records := λ _, None |}.

(** A pickled list of four documents at "docs", without a sidecar file. *)
Definition pickle_files : FileSystem PreTensorPretrainDataset.batch :=
  {| pickled_documents := λ p,
       if String.eqb p "docs" then Some [[197]; [198; 199]; [200]; [201; 202]] else None;
     pickled_indices := λ _, None;
     text_lines := λ _, None;
     pickled_records := λ _, None |}.

(** An empty pickled list of documents at "empty". *)
Definition empty_pickle : FileSystem PreTensorPretrainDataset.batch :=
  {| pickled_documents := λ p, if String.eqb p "empty" then Some [] else None;
     pickled_indices := λ _, None;
     text_lines := λ _, None;
     pickled_records := λ _, None |}.

(** The tape that replays the given draws and then draws 0 for ever. *)
Definition tape_of (draws : list Z) : tape := λ n, default 0 (draws !! n).

(** [2^53 - 1]: the draw for which [random()] is the largest double below 1,
    so that every test [random() < p] fails. *)
Definition high : Z := 2 ^ 53 - 1.

Definition one_segment : OneSegmentDataset.t :=
  {| OneSegmentDataset.tokenizer := tokenizer;
     OneSegmentDataset.max_pos := 8;
     OneSegmentDataset.dataset_path := None;
     OneSegmentDataset.pad_id := 0;
     OneSegmentDataset.cls_id := 2;
     OneSegmentDataset.sep_id := 3;
     OneSegmentDataset.mask_id := 4;
     OneSegmentDataset.sentence_stack := true;
     OneSegmentDataset.max_words_length := 10;
     OneSegmentDataset.all_documents := [[197; 198; 199]];
     OneSegmentDataset.indices := [0%nat];
     OneSegmentDataset.last_indices_path := None |}.

(** The dataset loaded from [pickle_files] when the shuffle of the range
    gives [3; 0; 2; 1], and the files after it has dumped the suffix that
    six steps leave. *)
Definition one_segment_pickled : OneSegmentDataset.t :=
  {| OneSegmentDataset.tokenizer := tokenizer;
     OneSegmentDataset.max_pos := 8;
     OneSegmentDataset.dataset_path := None;
     OneSegmentDataset.pad_id := 0;
     OneSegmentDataset.cls_id := 2;
     OneSegmentDataset.sep_id := 3;
     OneSegmentDataset.mask_id := 4;
     OneSegmentDataset.sentence_stack := true;
     OneSegmentDataset.max_words_length := 10;
     OneSegmentDataset.all_documents := [[197]; [198; 199]; [200]; [201; 202]];
     OneSegmentDataset.indices := [3; 0; 2; 1]%nat;
     OneSegmentDataset.last_indices_path := Some "docs.index"%string |}.

Definition pickle_files_after : FileSystem PreTensorPretrainDataset.batch :=
  write_indices pickle_files "docs.index" [2; 1]%nat.

(** Two documents of two lines each. *)
Definition corpus : list string := ["a"; "b"; ""; "c"; "d"]%string.

(** The dataset that [PretrainDataset.__init__] builds in memory from
    [corpus], with [max_pos = 12]. *)
Definition pretrain : PretrainDataset.t :=
  {| PretrainDataset.tokenizer := tokenizer;
     PretrainDataset.max_pos := 12;
     PretrainDataset.dataset_path := None;
     PretrainDataset.on_memory := true;
     PretrainDataset.current_doc := 0;
     PretrainDataset.current_random_doc := 0;
     PretrainDataset.sample_to_doc :=
       [{| PretrainDataset.doc_id := 0; PretrainDataset.line := 0 |};
        {| PretrainDataset.doc_id := 1; PretrainDataset.line := 0 |}];
     PretrainDataset.pad_id := 0;
     PretrainDataset.cls_id := 2;
     PretrainDataset.sep_id := 3;
     PretrainDataset.mask_id := 4;
     PretrainDataset.corpus_lines := 4;
     PretrainDataset.all_documents := [[[197]; [198]]; [[199]; [200]]];
     PretrainDataset.num_docs := 2 |}.

(** A cache file of five records, and the dataset that resumes it after
    two steps. *)
Definition record (x : Z) : PreTensorPretrainDataset.batch :=
  [[[x]]; [[0]]; [[1]]; [[0]]; [[x]]].

Definition cache : FileSystem PreTensorPretrainDataset.batch :=
  {| pickled_documents := λ _, None;
     pickled_indices := λ _, None;
     text_lines := λ _, None;
     pickled_records := λ p,
       if String.eqb p "epoch_0.pickle"
       then Some [record 10; record 11; record 12; record 13; record 14]
       else None |}.

Definition resumed : PreTensorPretrainDataset.t :=
  {| PreTensorPretrainDataset.file := [record 12; record 13; record 14];
     PreTensorPretrainDataset.length := 5 |}.

End Fixture.

(** ** Vocabulary of the further properties *)

(** The lines that a dataset loads in memory: the documents argument when
    it is not empty, the lines of the file at dataset_path otherwise. *)
Definition source_lines {R} (fs : FileSystem R) (dataset_path : option string)
    (documents : list string) : option (list string) :=
  if decide (0 < length documents)%nat then Some documents
  else match dataset_path with
       | Some path => text_lines fs path
       | None => None
       end.

(** A line that is not a document boundary, and what a document stores for
    it: [tokenizer.convert_tokens_to_ids(tokenizer.tokenize(text.strip()))]. *)
Definition nonblank (strip : string → string) (text : string) : Prop :=
  String.eqb (strip text) "" = false.

#[global] Instance nonblank_dec (strip : string → string) (text : string) :
  Decision (nonblank strip text) :=
  decide (String.eqb (strip text) "" = false).

Definition encode_line (strip : string → string) (tok : Tokenizer) (text : string)
  : list Z :=
  convert_tokens_to_ids tok (tokenize tok (strip text)).

(** All the lines held by a loader and its open document, in order. *)
Definition stored_lines (st : PretrainDataset.Loader * list (list Z)) : list (list Z) :=
  concat (PretrainDataset.l_all_documents st.1) ++ st.2.

(** Every document of the store is non-empty, and the line counter is the
    number of stored lines. *)
Definition well_stored (st : PretrainDataset.Loader * list (list Z)) : Prop :=
  Forall (λ doc, doc ≠ []) (PretrainDataset.l_all_documents st.1) ∧
  PretrainDataset.l_corpus_lines st.1 = length (stored_lines st).

(** The computation [m] returns from the tape [tp], with a value that
    satisfies [P]. *)
Definition returns {A} (P : A → Prop) (m : Rand A) (tp : tape) : Prop :=
  ∃ a tp', m tp = Ok (a, tp') ∧ P a.

(** ** OneSegmentDataset.dump_ids_documents *)

(** [pickle.dump(content, f)] on the document file at [path]. *)
Definition write_documents {R} (fs : FileSystem R) (path : string)
    (content : list (list Z)) : FileSystem R :=
  {| pickled_documents := λ p,
       if String.eqb p path then Some content else pickled_documents fs p;
     pickled_indices := pickled_indices fs;
     text_lines := text_lines fs;
     pickled_records := pickled_records fs |}.

(** [s.endswith(suffix)] *)
Fixpoint endswith (s suffix : string) : bool :=
  String.eqb s suffix ||
  match s with
  | EmptyString => false
  | String _ s' => endswith s' suffix
  end.

(** dump_ids_documents: the file system after the call.  With is_gzip the
    file is written compressed at [output_path + '.gz']. *)
Definition dump_ids_documents {R} (fs : FileSystem R) (self : OneSegmentDataset.t)
    (output_path : string) (is_gzip : bool) : FileSystem R :=
  if is_gzip
  then write_documents fs (String.append output_path ".gz")
         (OneSegmentDataset.all_documents self)
  else write_documents fs output_path (OneSegmentDataset.all_documents self).

(** ** Successive reads of an epoch cache *)

(** [[dataset[item] for item in items]] on a PreTensorPretrainDataset: the
    tuples read and the dataset after the reads. *)
Fixpoint getitems (self : PreTensorPretrainDataset.t) (items : list Z)
  : result (list (PreTensorPretrainDataset.tensor * PreTensorPretrainDataset.tensor *
                  PreTensorPretrainDataset.tensor * PreTensorPretrainDataset.tensor *
                  PreTensorPretrainDataset.tensor) * PreTensorPretrainDataset.t) :=
  match items with
  | [] => Ok ([], self)
  | item :: items' =>
      r ← PreTensorPretrainDataset.__getitem__ self item;
      rs ← getitems r.2 items';
      Ok (r.1 :: rs.1, rs.2)
  end.

(** A batch of batch size one as PretrainDataGeneration.generate pickles
    it: the five lists of a Feature, each under a leading dimension. *)
Definition batch_of (x0 x1 x2 x3 x4 : PreTensorPretrainDataset.tensor)
  : PreTensorPretrainDataset.batch :=
  [[x0]; [x1]; [x2]; [x3]; [x4]].

Definition batch_of_tuple
    (x : PreTensorPretrainDataset.tensor * PreTensorPretrainDataset.tensor *
         PreTensorPretrainDataset.tensor * PreTensorPretrainDataset.tensor *
         PreTensorPretrainDataset.tensor) : PreTensorPretrainDataset.batch :=
  let '(x0, x1, x2, x3, x4) := x in batch_of x0 x1 x2 x3 x4.

(** The dataset that [OneSegmentDataset.__init__] stacks from five lines of
    one token with [max_pos = 5]: the fourth line overflows the stack and
    closes the first document. *)
Definition stacked : OneSegmentDataset.t :=
  {| OneSegmentDataset.tokenizer := Fixture.tokenizer;
     OneSegmentDataset.max_pos := 5;
     OneSegmentDataset.dataset_path := None;
     OneSegmentDataset.pad_id := 0;
     OneSegmentDataset.cls_id := 2;
     OneSegmentDataset.sep_id := 3;
     OneSegmentDataset.mask_id := 4;
     OneSegmentDataset.sentence_stack := true;
     OneSegmentDataset.max_words_length := 10;
     OneSegmentDataset.all_documents := [[197; 198; 199]; [201]];
     OneSegmentDataset.indices := [0; 1]%nat;
     OneSegmentDataset.last_indices_path := None |}.

(** ** utils.to_bert_ids *)

Module BertIds.

(** truncate_seq_pair on the token strings of to_bert_ids: the loop of
    [Utils.truncate_seq_pair], on lists of any element type. *)
Equations? truncate_seq_pair {A} (tokens_a tokens_b : list A) (max_length : Z)
  : result (list A * list A)
  by wf (length tokens_a + length tokens_b)%nat lt :=
  truncate_seq_pair tokens_a tokens_b max_length
    with Z_le_dec (Z.of_nat (length tokens_a + length tokens_b)) max_length => {
    | left _ => Ok (tokens_a, tokens_b)
    | right _ with lt_dec (length tokens_b) (length tokens_a) => {
      | left _ => truncate_seq_pair (Utils.pop tokens_a) tokens_b max_length
      | right _ with tokens_b => {
        | [] => Err IndexError
        | x :: tl => truncate_seq_pair tokens_a (Utils.pop (x :: tl)) max_length
        }
      }
    }.
Proof.
  - unfold Utils.pop. rewrite length_take. lia.
  - unfold Utils.pop. rewrite length_take. simpl. lia.
Qed.

(** to_bert_ids: [sentence_b] is [None] for Python's None.  The returned
    triple is [input_ids, segment_ids, input_mask]. *)
Definition to_bert_ids (max_pos : Z) (tokenizer : Tokenizer) (sentence_a : string)
    (sentence_b : option string) (cls_token sep_token pad_token : string)
  : result (list Z * list Z * list Z) :=
  let tokens_a := tokenize tokenizer sentence_a in
  let tokens_b :=
    match sentence_b with Some s => tokenize tokenizer s | None => [] end in
  let max_seq_len := if decide (tokens_b ≠ []) then max_pos - 3 else max_pos - 2 in
  truncated ← truncate_seq_pair tokens_a tokens_b max_seq_len;
  let '(tokens_a, tokens_b) := truncated in
  let tokens_a := [cls_token] ++ tokens_a ++ [sep_token] in
  let tokens_b :=
    if decide (0 < length tokens_b)%nat then tokens_b ++ [sep_token] else [] in
  let input_ids := tokens_a ++ tokens_b in
  let segment_ids := replicate (length tokens_a) 0 ++ replicate (length tokens_b) 1 in
  let input_mask := replicate (length input_ids) 1 in
  let num_zero_pad := max_pos - Z.of_nat (length input_ids) in
  Ok (convert_tokens_to_ids tokenizer (pad_to input_ids pad_token num_zero_pad),
      pad_to segment_ids 0 num_zero_pad,
      pad_to input_mask 0 num_zero_pad).

End BertIds.

(** ** tokenization_juman: the vocabulary *)

#[global] Instance string_eq_decision : EqDecision string := string_dec.

Module Juman.

(** The Python values that meet in [v in control_tokens]: strings and
    integers.  Equality between a string and an integer is False. *)
Inductive value : Type :=
  | Str (s : string)
  | Int (n : Z).

#[global] Instance value_eq_dec : EqDecision value.
Proof.
  intros x y. unfold Decision.
  decide equality; [apply string_eq_decision|apply Z.eq_dec].
Defined.

Definition CONTROL_TOKENS : list value :=
  [Str "[PAD]"; Str "[UNK]"; Str "[CLS]"; Str "[SEP]"; Str "[MASK]"].

(** [d[k]] under the test [k in d]: [None] when the key is absent. *)
Fixpoint get {K V} `{EqDecision K} (d : Py.dict K V) (k : K) : option V :=
  match d with
  | [] => None
  | (k', v) :: d' => if decide (k = k') then Some v else get d' k
  end.

(** token_vocab_build: [reader] is the sequence of strings that iterating
    over the vocabulary file yields, each stored as it is.  The state of the
    loop is the dict and [index]. *)
Definition token_vocab_build (reader : list string) : Py.dict string Z :=
  (foldl (λ st word, (Py.dict_set st.1 word st.2, st.2 + 1)) ([], 0) reader).1.

Definition convert_by_vocab {K V} `{EqDecision K} (vocab_dict : Py.dict K V)
    (items : list K) (unk_info : V) : list V :=
  (λ item, match get vocab_dict item with
           | Some v => v
           | None => unk_info
           end) <$> items.

(** The functions of the module. *)
Definition convert_tokens_to_ids (vocab : Py.dict string Z) (tokens : list string)
  : list Z :=
  convert_by_vocab vocab tokens 1.

Definition convert_ids_to_tokens (inv_vocab : Py.dict Z string) (ids : list Z)
  : list string :=
  convert_by_vocab inv_vocab ids "[UNK]"%string.

Module FullTokenizer.

Record t : Type := {
  vocab : Py.dict string Z;
  inv_vocab : Py.dict Z string;
  control_len : Z;
}.

(** __init__, from the content of the vocabulary file.  The loop over
    [self.vocab.items()] carries [control_len] and [inv_vocab]. *)
Definition __init__ (reader : list string) (control_tokens : list value) : t :=
  let vocab := token_vocab_build reader in
  let st :=
    foldl (λ st kv,
             (if decide (Int kv.2 ∈ control_tokens) then st.1 + 1 else st.1,
              Py.dict_set st.2 kv.2 kv.1))
          (0, []) vocab in
  {| vocab := vocab; inv_vocab := st.2; control_len := st.1 |}.

Definition convert_tokens_to_ids (self : t) (tokens : list string) : list Z :=
  convert_by_vocab (vocab self) tokens 0.

Definition convert_ids_to_tokens (self : t) (ids : list Z) : list string :=
  convert_by_vocab (inv_vocab self) ids "[UNK]"%string.

Definition get_random_token_id (self : t) : Rand Z :=
  juman_get_random_token_id (control_len self) (Z.of_nat (length (inv_vocab self))).

Definition __len__ (self : t) : nat := length (vocab self).

End FullTokenizer.

End Juman.

(** The tokenizer that the datasets see when they are given a Juman
    FullTokenizer; [analyze] stands for JumanTokenizer.tokenize, the call of
    the external morphological analyzer. *)
Definition juman_tokenizer (analyze : string → list string)
    (self : Juman.FullTokenizer.t) : Tokenizer :=
  {| tokenize := analyze;
     convert_tokens_to_ids := Juman.FullTokenizer.convert_tokens_to_ids self;
     get_random_token_id := Juman.FullTokenizer.get_random_token_id self |}.

(** A line feed, and a vocabulary file of seven lines as its iteration
    yields them. *)
Definition newline : string := String (ascii_of_nat 10) EmptyString.

Definition vocabulary_lines : list string :=
  (λ word, String.append word newline)
    <$> ["[PAD]"; "[UNK]"; "[CLS]"; "[SEP]"; "[MASK]"; "a"; "b"]%string.

(** ** PretrainDataset.__getitem__ *)

Module PretrainItems.

Import PretrainDataset.

(** __getitem__, before the conversion of the lists to tensors, with the
    dataset after the call.  [sample_counter] is the attribute of that name:
    only the branch for lazy loading reads and updates it, and after one
    epoch that branch closes [self.file], an attribute that no constructed
    object has (see [get_corpus_line]).  [len(self)] raises ValueError when
    __len__ is negative. *)
Definition __getitem__ (self : t) (sample_counter : Z) (item : Z)
  : Rand (Feature * t * Z) :=
  sample_counter' ←
    (if on_memory self then mret sample_counter
     else
       let cur_id := sample_counter in
       if decide (cur_id = 0) then mret (sample_counter + 1)
       else if decide (__len__ self < 0) then raise ValueError
       else if decide (__len__ self = 0) then raise ZeroDivisionError
       else if decide (cur_id mod __len__ self = 0) then raise AttributeError
       else mret (sample_counter + 1));
  sent ← random_sent self item;
  let '(t1, t2, is_next_label, self) := sent in
  features ← convert_example_to_features self t1 t2 is_next_label (max_pos self);
  mret (features, self, sample_counter').

End PretrainItems.

(** The dataset that [OneSegmentDataset.__init__] builds from [Fixture.corpus]
    without stacking: one document for each line of text. *)
Definition one_segment_lines : OneSegmentDataset.t :=
  {| OneSegmentDataset.tokenizer := Fixture.tokenizer;
     OneSegmentDataset.max_pos := 8;
     OneSegmentDataset.dataset_path := None;
     OneSegmentDataset.pad_id := 0;
     OneSegmentDataset.cls_id := 2;
     OneSegmentDataset.sep_id := 3;
     OneSegmentDataset.mask_id := 4;
     OneSegmentDataset.sentence_stack := false;
     OneSegmentDataset.max_words_length := 10;
     OneSegmentDataset.all_documents := [[197]; [198]; [199]; [200]];
     OneSegmentDataset.indices := [0; 1; 2; 3]%nat;
     OneSegmentDataset.last_indices_path := None |}.

(** * Properties *)

(** ** The monads *)

Lemma rand_bind_ok {A B} (m : Rand A) (f : A → Rand B) (t t' : tape) (b : B) :
  (m ≫= f) t = Ok (b, t') →
  ∃ a t1, m t = Ok (a, t1) ∧ f a t1 = Ok (b, t').
Proof.
  unfold mbind, rand_bind. destruct (m t) as [[a t1]|e]; [eauto|discriminate].
Qed.

Lemma rand_ret_ok {A} (a b : A) (t t' : tape) :
  mret (M:=Rand) a t = Ok (b, t') → a = b ∧ t = t'.
Proof. unfold mret, rand_ret. intros [= -> ->]. done. Qed.

Lemma lift_ok {A} (r : result A) (t t' : tape) (a : A) :
  lift r t = Ok (a, t') → r = Ok a ∧ t = t'.
Proof. unfold lift. destruct r; intros [= -> ->]; done. Qed.

Lemma result_bind_ok {A B} (r : result A) (f : A → result B) (b : B) :
  (r ≫= f) = Ok b → ∃ a, r = Ok a ∧ f a = Ok b.
Proof. destruct r as [a|e]; [eauto|discriminate]. Qed.

(** ** Lists *)

Lemma filter_all {A} (P : A → Prop) `{∀ x, Decision (P x)} (l : list A) :
  Forall P l → filter P l = l.
Proof.
  induction 1 as [|x l Hx Hl IH]; [done|].
  rewrite filter_cons, decide_True by done. by rewrite IH.
Qed.

(** ** truncate_seq_pair *)

Section Truncate.

Import Utils.

Lemma truncate_seq_pair_sound (a b : list Z) (L : Z) (a' b' : list Z) :
  truncate_seq_pair a b L = Ok (a', b') →
  a' `prefix_of` a ∧ b' `prefix_of` b ∧ Z.of_nat (length a' + length b') ≤ L.
Proof.
  funelim (truncate_seq_pair a b L); clear Heqcall.
  - intros [= <- <-]. done.
  - intros Hr. destruct (H _ _ Hr) as (Ha & Hb & Hl).
    repeat split; [|done..].
    etrans; [exact Ha|]. apply prefix_take.
  - discriminate.
  - intros Hr. destruct (H _ _ Hr) as (Ha & Hb & Hl).
    repeat split; [done| |done].
    etrans; [exact Hb|]. apply prefix_take.
Qed.

Lemma truncate_seq_pair_returns (a b : list Z) (L : Z) :
  0 ≤ L → is_ok (truncate_seq_pair a b L) = true.
Proof.
  intros HL. funelim (truncate_seq_pair a b L); clear Heqcall;
    [done|auto| |auto].
  simpl in *. lia.
Qed.

Lemma truncate_seq_pair_noop (a b : list Z) (L : Z) :
  Z.of_nat (length a + length b) ≤ L → truncate_seq_pair a b L = Ok (a, b).
Proof.
  intros HL. funelim (truncate_seq_pair a b L); clear Heqcall;
    [done|simpl in *; lia..].
Qed.

(** C3. For all token lists a, b and every L >= 0, truncate_seq_pair(a, b, L)
    terminates (the loop is a total function and returns without raising),
    the lists it leaves satisfy len(a) + len(b) <= L, and when that already
    holds at entry both lists are left unchanged. *)
Theorem truncate_seq_pair_spec (a b : list Z) (L : Z) :
  0 ≤ L →
  ∃ a' b',
    truncate_seq_pair a b L = Ok (a', b') ∧
    Z.of_nat (length a') + Z.of_nat (length b') ≤ L ∧
    a' `prefix_of` a ∧ b' `prefix_of` b ∧
    (Z.of_nat (length a) + Z.of_nat (length b) ≤ L → a' = a ∧ b' = b).
Proof.
  intros HL.
  pose proof (truncate_seq_pair_returns a b L HL) as Hok.
  destruct (truncate_seq_pair a b L) as [[a' b']|e] eqn:Hr; [|discriminate].
  exists a', b'. destruct (truncate_seq_pair_sound _ _ _ _ _ Hr) as (Ha & Hb & Hl).
  split; [done|]. split; [lia|]. split; [done|]. split; [done|].
  intros Hle. rewrite truncate_seq_pair_noop in Hr by lia. by injection Hr.
Qed.

(** C3 on the lists [1; 2; 3; 4] and [5; 6; 7] with L = 5. *)
Lemma truncate_seq_pair_spec_witness :
  ∃ a' b',
    truncate_seq_pair [1; 2; 3; 4] [5; 6; 7] 5 = Ok (a', b') ∧
    Z.of_nat (length a') + Z.of_nat (length b') ≤ 5 ∧
    a' `prefix_of` [1; 2; 3; 4] ∧ b' `prefix_of` [5; 6; 7] ∧
    (Z.of_nat (length [1; 2; 3; 4]) + Z.of_nat (length [5; 6; 7]) ≤ 5 →
     a' = [1; 2; 3; 4] ∧ b' = [5; 6; 7]).
Proof. apply (truncate_seq_pair_spec [1; 2; 3; 4] [5; 6; 7] 5). lia. Defined.

End Truncate.

(** ** The random primitives *)

Section RandomFacts.

Import Random.

Lemma random_ok (t : tape) : ∃ k t', random t = Ok (k, t').
Proof. unfold random, draw, mbind, rand_bind, mret, rand_ret. eauto. Qed.

Lemma randrange_ok (n : Z) (t t' : tape) (k : Z) :
  randrange n t = Ok (k, t') → 0 ≤ k < n.
Proof.
  unfold randrange. destruct (Z.leb_spec n 0); [discriminate|].
  unfold draw, mbind, rand_bind, mret, rand_ret. intros [= <- <-].
  apply Z.mod_pos_bound. lia.
Qed.

Lemma randrange_returns (n : Z) (t : tape) :
  0 < n → ∃ k t', randrange n t = Ok (k, t').
Proof.
  intros Hn. unfold randrange. destruct (Z.leb_spec n 0); [lia|].
  unfold draw, mbind, rand_bind, mret, rand_ret. eauto.
Qed.

Lemma randint_ok (a b : Z) (t t' : tape) (k : Z) :
  randint a b t = Ok (k, t') → a ≤ k ≤ b.
Proof.
  unfold randint. destruct (Z.ltb_spec b a); [discriminate|].
  unfold draw, mbind, rand_bind, mret, rand_ret. intros [= <- <-].
  pose proof (Z.mod_pos_bound (t 0%nat) (b - a + 1)). lia.
Qed.

Lemma geometric_ok (t t' : tape) (k : Z) :
  geometric t = Ok (k, t') → 1 ≤ k.
Proof.
  unfold geometric, draw, mbind, rand_bind, mret, rand_ret. intros [= <- <-].
  pose proof (Z.mod_pos_bound (t 0%nat) (2 ^ 63 - 1)). lia.
Qed.

Lemma swap_Permutation {A} (i j : nat) (x : list A) : swap i j x ≡ₚ x.
Proof.
  unfold swap.
  destruct (x !! i) as [a|] eqn:Hi; [|done].
  destruct (x !! j) as [b|] eqn:Hj; [|done].
  pose proof (lookup_lt_Some _ _ _ Hi) as Hli.
  pose proof (lookup_lt_Some _ _ _ Hj) as Hlj.
  apply Permutation_inj. split; [by rewrite !length_insert|].
  exists (λ n, if decide (n = i) then j else if decide (n = j) then i else n).
  split.
  - intros n m. repeat case_decide; congruence.
  - intros n. repeat case_decide; subst.
    + rewrite list_lookup_insert_eq by (by rewrite length_insert). done.
    + rewrite list_lookup_insert_ne by done.
      rewrite list_lookup_insert_eq by done. done.
    + rewrite !list_lookup_insert_ne by done. done.
Qed.

Lemma shuffle_from_spec {A} (i : nat) (x : list A) (t : tape) :
  ∃ x' t', shuffle_from i x t = Ok (x', t') ∧ x' ≡ₚ x.
Proof.
  revert x t. induction i as [|i IH]; intros x t; simpl.
  - exists x, t. done.
  - destruct (randrange_returns (Z.of_nat (S i) + 1) t) as (j & t1 & Hj); [lia|].
    unfold mbind, rand_bind. rewrite Hj.
    destruct (IH (swap (S i) (Z.to_nat j) x) t1) as (x' & t' & Hx & Hp).
    exists x', t'. split; [done|]. by rewrite Hp, swap_Permutation.
Qed.

(** [shuffle] never raises and returns a permutation of its argument. *)
Lemma shuffle_spec {A} (x : list A) (t : tape) :
  ∃ x' t', shuffle x t = Ok (x', t') ∧ x' ≡ₚ x.
Proof. apply shuffle_from_spec. Qed.

Lemma shuffle_ok {A} (x x' : list A) (t t' : tape) :
  shuffle x t = Ok (x', t') → x' ≡ₚ x.
Proof.
  intros H. destruct (shuffle_spec x t) as (y & t1 & Hy & Hp). congruence.
Qed.

End RandomFacts.

(** ** Masking *)

Lemma setitem_length {A} (l l' : list A) (i : nat) (v : A) :
  Py.setitem l i v = Ok l' → length l' = length l.
Proof.
  unfold Py.setitem. case_decide; intros [= <-]. apply length_insert.
Qed.

Lemma substitute_length (tok : Tokenizer) (mask_id : Z) (tokens tokens' : list Z)
    (pos : nat) (t t' : tape) :
  substitute tok mask_id tokens pos t = Ok (tokens', t') →
  length tokens' = length tokens.
Proof.
  unfold substitute. intros H.
  apply rand_bind_ok in H as (r & t1 & _ & H).
  destruct (Random.lt_0_8 r).
  - apply lift_ok in H as [H _]. by apply setitem_length in H.
  - apply rand_bind_ok in H as (r' & t2 & _ & H).
    destruct (Random.lt_0_5 r').
    + apply rand_bind_ok in H as (id & t3 & _ & H).
      apply lift_ok in H as [H _]. by apply setitem_length in H.
    + apply rand_ret_ok in H as [-> _]. done.
Qed.

Lemma substitute_other (tok : Tokenizer) (mask_id : Z) (tokens tokens' : list Z)
    (pos i : nat) (t t' : tape) :
  substitute tok mask_id tokens pos t = Ok (tokens', t') →
  i ≠ pos → tokens' !! i = tokens !! i.
Proof.
  unfold substitute, Py.setitem. intros H Hi.
  apply rand_bind_ok in H as (r & t1 & _ & H).
  destruct (Random.lt_0_8 r).
  - apply lift_ok in H as [H _]. case_decide; [|done].
    injection H as <-. by rewrite list_lookup_insert_ne.
  - apply rand_bind_ok in H as (r' & t2 & _ & H).
    destruct (Random.lt_0_5 r').
    + apply rand_bind_ok in H as (id & t3 & _ & H).
      apply lift_ok in H as [H _]. case_decide; [|done].
      injection H as <-. by rewrite list_lookup_insert_ne.
    + apply rand_ret_ok in H as [-> _]. done.
Qed.

Lemma pad_to_length {A} (l : list A) (x : A) (max_pos : Z) (n : nat) :
  length l = n → Z.of_nat n ≤ max_pos →
  Z.of_nat (length (pad_to l x (max_pos - Z.of_nat n))) = max_pos.
Proof. intros <- H. unfold pad_to. rewrite length_app, length_replicate. lia. Qed.

Lemma pad_to_lookup {A} (l : list A) (x : A) (n : Z) (i : nat) :
  (i < length l)%nat → pad_to l x n !! i = l !! i.
Proof. intros H. unfold pad_to. by rewrite lookup_app_l. Qed.

(** ** PretrainDataset.convert_example_to_features *)

Section PretrainFeatures.

Import PretrainDataset.

Variable self : t.

Lemma mask_positions_spec (selected : list nat) (tokens tokens' : list Z) (t t' : tape) :
  mask_positions self selected tokens t = Ok (tokens', t') →
  length tokens' = length tokens ∧
  ∀ i, i ∉ selected → tokens' !! i = tokens !! i.
Proof.
  revert tokens t. induction selected as [|pos sel IH]; intros tokens t H; simpl in H.
  - apply rand_ret_ok in H as [-> _]. done.
  - apply rand_bind_ok in H as (tk & t1 & Hs & H).
    destruct (IH _ _ H) as [Hl Ho]. split.
    + rewrite Hl. by eapply substitute_length.
    + intros i [Hne Hi]%not_elem_of_cons. rewrite Ho by done.
      by eapply substitute_other.
Qed.

(** The steps of a successful run. *)
Lemma convert_example_to_features_trace_inv (tokens_a tokens_b : list Z)
    (is_next_label max_pos : Z) (t t' : tape) (f : Feature) (tr : Trace) :
  convert_example_to_features_trace self tokens_a tokens_b is_next_label max_pos t
    = Ok (f, tr, t') →
  ∃ target a' b' shuffled masked,
    target ≤ (if decide (tokens_b ≠ []) then max_pos - 3 else max_pos - 2) ∧
    Utils.truncate_seq_pair tokens_a tokens_b target = Ok (a', b') ∧
    tr_tokens tr = cls_id self :: a' ++ b' ++ [sep_id self; sep_id self] ∧
    shuffled ≡ₚ mask_candidate_pos (cls_id self) (sep_id self) (tr_tokens tr) ∧
    tr_selected tr = take (Py.round_times_0_15 (length (tr_tokens tr))) shuffled ∧
    length masked = length (tr_tokens tr) ∧
    (∀ i, i ∉ tr_selected tr → masked !! i = tr_tokens tr !! i) ∧
    let num_zero_pad := max_pos - Z.of_nat (length (tr_tokens tr)) in
    f = {| input_ids := pad_to masked (pad_id self) num_zero_pad;
           segment_ids :=
             pad_to (replicate (S (length a')) 0 ++ replicate (length b' + 2) 1)
               0 num_zero_pad;
           input_mask := pad_to (replicate (length (tr_tokens tr)) 1) 0 num_zero_pad;
           is_next_label := Some is_next_label;
           label_ids := pad_to (tr_tokens tr) (pad_id self) num_zero_pad |}.
Proof.
  unfold convert_example_to_features_trace. intros H.
  apply rand_bind_ok in H as (r & t1 & _ & H).
  apply rand_bind_ok in H as (target & t2 & Htarget & H).
  apply rand_bind_ok in H as ([a' b'] & t3 & Htr & H).
  apply lift_ok in Htr as [Htr _].
  apply rand_bind_ok in H as (shuffled & t4 & Hsh & H).
  apply rand_bind_ok in H as (masked & t5 & Hm & H).
  apply rand_ret_ok in H as [H _].
  apply shuffle_ok in Hsh.
  apply mask_positions_spec in Hm as [Hlen Hother].
  simpl in *.
  rewrite decide_True in * by (rewrite length_app; simpl; lia).
  injection H as <- <-.
  assert (Hassoc : (b' ++ [sep_id self]) ++ [sep_id self] = b' ++ [sep_id self; sep_id self])
    by by rewrite <- (assoc_L (++)).
  rewrite Hassoc in *. clear Hassoc.
  exists target, a', b', shuffled, masked. simpl.
  split.
  { destruct (Random.lt_0_1 r).
    - apply randint_ok in Htarget. lia.
    - apply rand_ret_ok in Htarget as [<- _]. lia. }
  do 6 (split; [done|]).
  rewrite Hlen. simpl. rewrite (length_app b'). simpl. done.
Qed.

End PretrainFeatures.

(** ** OneSegmentDataset.convert_example_to_features *)

Section OneSegmentFeatures.

Import OneSegmentDataset.

Variable self : t.

Lemma mask_step_post_refl (mp : nat) st : mask_step_post mp st st.
Proof. unfold mask_step_post. repeat split; auto with lia. Qed.

Lemma mask_step_post_trans (mp : nat) st1 st2 st3 :
  mask_step_post mp st1 st2 → (st2.1.2 ≠ mp) →
  mask_step_post mp st2 st3 → mask_step_post mp st1 st3.
Proof.
  intros (H1 & H2 & H3 & H4 & H5 & H6) Hne (K1 & K2 & K3 & K4 & K5 & K6).
  unfold mask_step_post. repeat split; [congruence| |lia|lia|auto|].
  - intros Hlt. apply K2. specialize (H2 Hlt). lia.
  - intros i Hi. rewrite K6 by done. apply H6. intros Hin. apply Hi. auto.
Qed.

Lemma mask_words_spec (mp : nat) (words : list nat) st st' (t t' : tape) :
  mask_words self mp words st t = Ok (st', t') → mask_step_post mp st st'.
Proof.
  revert st t. induction words as [|pos words IH]; intros [[tokens masked] sel] t H;
    simpl in H.
  - apply rand_ret_ok in H as [<- _]. apply mask_step_post_refl.
  - apply rand_bind_ok in H as (tk & t1 & Hs & H).
    assert (Hone : mask_step_post mp (tokens, masked, sel) (tk, S masked, sel ++ [pos])).
    { unfold mask_step_post. simpl. repeat split.
      - by eapply substitute_length.
      - lia.
      - rewrite length_app. simpl. lia.
      - lia.
      - intros i Hi. apply elem_of_app. by left.
      - intros i Hi. eapply substitute_other; [done|].
        intros ->. apply Hi, elem_of_app. right. by apply list_elem_of_singleton. }
    case_decide as Hmp.
    + apply rand_ret_ok in H as [<- _]. done.
    + apply IH in H. by eapply mask_step_post_trans.
Qed.

Lemma mask_chunks_spec (mp : nat) (chunks : list (list nat)) st st' (t t' : tape) :
  mask_chunks self mp chunks st t = Ok (st', t') → mask_step_post mp st st'.
Proof.
  revert st t. induction chunks as [|words chunks IH]; intros st t H; simpl in H.
  - apply rand_ret_ok in H as [<- _]. apply mask_step_post_refl.
  - apply rand_bind_ok in H as (st1 & t1 & Hw & H).
    apply mask_words_spec in Hw.
    case_decide as Hmp.
    + apply rand_ret_ok in H as [<- _]. done.
    + apply IH in H. by eapply mask_step_post_trans.
Qed.

Lemma clamp_mask_length_bounds (g : Z) (mp : nat) :
  clamp_mask_length self g mp ≤ g ∧
  clamp_mask_length self g mp ≤ Z.of_nat mp ∧
  clamp_mask_length self g mp ≤ max_words_length self.
Proof.
  unfold clamp_mask_length.
  destruct (Z.ltb_spec (max_words_length self) g);
    match goal with |- context [Z.of_nat mp <? ?x] =>
      destruct (Z.ltb_spec (Z.of_nat mp) x) end; lia.
Qed.

(** The steps of a successful run. *)
Lemma one_segment_trace_inv (tokens_a : list Z) (max_pos : Z) (t t' : tape)
    (f : Feature) (tr : Trace) :
  convert_example_to_features_trace self tokens_a max_pos t = Ok (f, tr, t') →
  ∃ target a' b' masked,
    target ≤ max_pos - 2 ∧
    Utils.truncate_seq_pair tokens_a [] target = Ok (a', b') ∧
    tr_tokens tr = cls_id self :: a' ++ [sep_id self] ∧
    (length (tr_selected tr) ≤ Py.round_times_0_15 (length (tr_tokens tr)))%nat ∧
    length masked = length (tr_tokens tr) ∧
    (∀ i, i ∉ tr_selected tr → masked !! i = tr_tokens tr !! i) ∧
    let num_zero_pad := max_pos - Z.of_nat (length (tr_tokens tr)) in
    f = {| input_ids := pad_to masked (pad_id self) num_zero_pad;
           segment_ids := [];
           input_mask := [];
           is_next_label := None;
           label_ids := pad_to (tr_tokens tr) (pad_id self) num_zero_pad |}.
Proof.
  unfold convert_example_to_features_trace. intros H.
  apply rand_bind_ok in H as (r & t1 & _ & H).
  apply rand_bind_ok in H as (target & t2 & Htarget & H).
  apply rand_bind_ok in H as ([a' b'] & t3 & Htr & H).
  apply lift_ok in Htr as [Htr _].
  apply rand_bind_ok in H as (g & t4 & Hg & H).
  apply rand_bind_ok in H as ([[masked count] sel] & t5 & Hm & H).
  apply rand_ret_ok in H as [H _].
  injection H as <- <-. cbn [fst snd tr_tokens tr_selected] in *.
  set (tokens := [cls_id self] ++ a' ++ [sep_id self]) in *.
  set (mp := Py.round_times_0_15 (length tokens)) in *.
  assert (Hpost : mask_step_post mp (tokens, 0%nat, []) (masked, count, sel) ∧
                  (count = 0%nat ∨ (0 < mp)%nat)).
  { destruct (Z.ltb_spec 0 (clamp_mask_length self g mp)) as [Hpos|Hneg].
    - apply rand_bind_ok in Hm as (chunks & t6 & _ & Hm).
      apply rand_bind_ok in Hm as (chunks' & t7 & _ & Hm).
      apply mask_chunks_spec in Hm. split; [done|right].
      pose proof (clamp_mask_length_bounds g mp). lia.
    - apply rand_ret_ok in Hm as [Hm _]. injection Hm as <- <- <-.
      split; [apply mask_step_post_refl|by left]. }
  destruct Hpost as [(H1 & H2 & H3 & H4 & H5 & H6) Hcount].
  cbn [fst snd length] in *.
  exists target, a', b', masked.
  split.
  { destruct (Random.lt_0_1 r).
    - apply randint_ok in Htarget. lia.
    - apply rand_ret_ok in Htarget as [<- _]. lia. }
  do 2 (split; [done|]).
  change (cls_id self :: a' ++ [sep_id self]) with tokens.
  change (S (length (a' ++ [sep_id self]))) with (length tokens). fold mp.
  split; [destruct Hcount as [->|Hmp]; [lia|]; specialize (H2 Hmp); lia|].
  do 2 (split; [done|]).
  by rewrite H1.
Qed.

End OneSegmentFeatures.


(** ** Feature lengths *)

Section FeatureLengths.

Import Fixture.

Lemma pretrain_feature_lengths (self : PretrainDataset.t) (tokens_a tokens_b : list Z)
    (is_next_label max_pos : Z) (t t' : tape) (f : Feature) :
  tokens_b ≠ [] →
  PretrainDataset.convert_example_to_features self tokens_a tokens_b
    is_next_label max_pos t = Ok (f, t') →
  Z.of_nat (length (input_ids f)) = max_pos ∧
  Z.of_nat (length (segment_ids f)) = max_pos ∧
  Z.of_nat (length (input_mask f)) = max_pos ∧
  Z.of_nat (length (label_ids f)) = max_pos.
Proof.
  intros Hb H. unfold PretrainDataset.convert_example_to_features in H.
  apply rand_bind_ok in H as ([f' tr] & t1 & H & Hret).
  apply rand_ret_ok in Hret as [<- _].
  apply convert_example_to_features_trace_inv in H
    as (target & a' & b' & sh & masked & Htarget & Htr & Htok & _ & _ & Hlen & _ & ->).
  rewrite decide_True in Htarget by done.
  apply truncate_seq_pair_sound in Htr as (_ & _ & Hle).
  assert (Hlt : length (tr_tokens tr) = (length a' + length b' + 3)%nat).
  { rewrite Htok. simpl. rewrite !length_app. simpl. lia. }
  cbn [fst input_ids segment_ids input_mask label_ids].
  repeat split; apply pad_to_length;
    rewrite ?length_app, ?length_replicate; lia.
Qed.

Lemma one_segment_feature_lengths (self : OneSegmentDataset.t) (tokens_a : list Z)
    (max_pos : Z) (t t' : tape) (f : Feature) :
  OneSegmentDataset.convert_example_to_features self tokens_a max_pos t = Ok (f, t') →
  Z.of_nat (length (input_ids f)) = max_pos ∧
  Z.of_nat (length (label_ids f)) = max_pos ∧
  segment_ids f = [] ∧ input_mask f = [].
Proof.
  intros H. unfold OneSegmentDataset.convert_example_to_features in H.
  apply rand_bind_ok in H as ([f' tr] & t1 & H & Hret).
  apply rand_ret_ok in Hret as [<- _].
  apply one_segment_trace_inv in H
    as (target & a' & b' & masked & Htarget & Htr & Htok & _ & Hlen & _ & ->).
  apply truncate_seq_pair_sound in Htr as (_ & _ & Hle).
  assert (Hlt : length (tr_tokens tr) = (length a' + 2)%nat).
  { rewrite Htok. simpl. rewrite !length_app. simpl. lia. }
  cbn [fst input_ids segment_ids input_mask label_ids].
  repeat split; apply pad_to_length; lia.
Qed.

(** C1 (as amended). Every Feature produced by
    PretrainDataset.convert_example_to_features from a non-empty second
    segment has input_ids, segment_ids, input_mask and label_ids of length
    exactly max_pos.  Every Feature produced by
    OneSegmentDataset.convert_example_to_features has input_ids and
    label_ids of length exactly max_pos, and its segment_ids and input_mask
    are the empty list. *)
Theorem feature_lengths :
  (∀ (self : PretrainDataset.t) (tokens_a tokens_b : list Z)
     (is_next_label max_pos : Z) (t t' : tape) (f : Feature),
     tokens_b ≠ [] →
     PretrainDataset.convert_example_to_features self tokens_a tokens_b
       is_next_label max_pos t = Ok (f, t') →
     Z.of_nat (length (input_ids f)) = max_pos ∧
     Z.of_nat (length (segment_ids f)) = max_pos ∧
     Z.of_nat (length (input_mask f)) = max_pos ∧
     Z.of_nat (length (label_ids f)) = max_pos) ∧
  (∀ (self : OneSegmentDataset.t) (tokens_a : list Z) (max_pos : Z)
     (t t' : tape) (f : Feature),
     OneSegmentDataset.convert_example_to_features self tokens_a max_pos t
       = Ok (f, t') →
     Z.of_nat (length (input_ids f)) = max_pos ∧
     Z.of_nat (length (label_ids f)) = max_pos ∧
     segment_ids f = [] ∧ input_mask f = []).
Proof.
  split.
  - apply pretrain_feature_lengths.
  - apply one_segment_feature_lengths.
Qed.

(** C1 on one example of each dataset, with max_pos = 8. *)
Lemma feature_lengths_witness :
  (∃ f t',
     PretrainDataset.convert_example_to_features pretrain [197; 198] [199] 0 8
       (tape_of [high]) = Ok (f, t') ∧
     Z.of_nat (length (input_ids f)) = 8 ∧
     Z.of_nat (length (segment_ids f)) = 8 ∧
     Z.of_nat (length (input_mask f)) = 8 ∧
     Z.of_nat (length (label_ids f)) = 8) ∧
  (∃ f t',
     OneSegmentDataset.convert_example_to_features one_segment [197; 198; 199] 8
       (tape_of [high]) = Ok (f, t') ∧
     Z.of_nat (length (input_ids f)) = 8 ∧
     Z.of_nat (length (label_ids f)) = 8 ∧
     segment_ids f = [] ∧ input_mask f = []).
Proof.
  split.
  - eexists _, _.
    assert (H : PretrainDataset.convert_example_to_features pretrain [197; 198] [199] 0 8
                  (tape_of [high]) = Ok _) by (vm_compute; reflexivity).
    split; [exact H|].
    exact (proj1 feature_lengths pretrain [197; 198] [199] 0 8 (tape_of [high]) _ _
             ltac:(discriminate) H).
  - eexists _, _.
    assert (H : OneSegmentDataset.convert_example_to_features one_segment [197; 198; 199] 8
                  (tape_of [high]) = Ok _) by (vm_compute; reflexivity).
    split; [exact H|].
    exact (proj2 feature_lengths one_segment [197; 198; 199] 8 (tape_of [high]) _ _ H).
Defined.

(** C1, counterexample: the Feature that OneSegmentDataset returns for a
    three-token document with max_pos = 8 has an empty segment_ids and an
    empty input_mask, not lists of length 8. *)
Lemma one_segment_feature_has_empty_lists :
  ∃ f t',
    OneSegmentDataset.convert_example_to_features one_segment [197; 198; 199] 8
      (tape_of [high]) = Ok (f, t') ∧
    length (segment_ids f) ≠ 8%nat ∧ length (input_mask f) ≠ 8%nat.
Proof.
  eexists _, _. split; [vm_compute; reflexivity|].
  split; vm_compute; discriminate.
Qed.

(** With an empty second segment, PretrainDataset reserves two positions
    (max_pos - 2) and still adds three special tokens: a first segment that
    fills the target gives lists one longer than max_pos. *)
Example pretrain_empty_second_segment :
  ∃ f t',
    PretrainDataset.convert_example_to_features pretrain [197; 198; 199] [] 0 5
      (tape_of [high]) = Ok (f, t') ∧
    label_ids f = [2; 197; 198; 199; 3; 3] ∧ length (input_ids f) = 6%nat.
Proof. eexists _, _. split; [vm_compute; reflexivity|]. split; reflexivity. Qed.

End FeatureLengths.

(** ** The layout of a two-segment example *)

Section TwoSegmentLayout.

Import Fixture PretrainDataset.




End TwoSegmentLayout.

(** ** The number of positions visited by the masking step *)

Section MaskedCount.

Import Fixture.

Lemma pad_to_lookup_eq {A} (l1 l2 : list A) (x : A) (n : Z) (i : nat) :
  length l1 = length l2 → l1 !! i = l2 !! i →
  pad_to l1 x n !! i = pad_to l2 x n !! i.
Proof.
  intros Hlen Hi. unfold pad_to.
  destruct (decide (i < length l1)%nat).
  - rewrite !lookup_app_l by lia. done.
  - rewrite !lookup_app_r by lia. by rewrite Hlen.
Qed.

Lemma pretrain_masked_count (self : PretrainDataset.t) (tokens_a tokens_b : list Z)
    (is_next_label max_pos : Z) (tp tp' : tape) (f : Feature) (tr : Trace) :
  PretrainDataset.convert_example_to_features_trace self tokens_a tokens_b
    is_next_label max_pos tp = Ok (f, tr, tp') →
  (length (tr_selected tr) ≤ Py.round_times_0_15 (length (tr_tokens tr)))%nat ∧
  (∀ i, input_ids f !! i ≠ label_ids f !! i → i ∈ tr_selected tr).
Proof.
  intros H.
  apply convert_example_to_features_trace_inv in H
    as (target & a & b & sh & masked & _ & _ & _ & _ & Hsel & Hlen & Hother & ->).
  split.
  - rewrite Hsel, length_take. lia.
  - cbn [input_ids label_ids]. intros i Hi.
    destruct (decide (i ∈ tr_selected tr)) as [|Hni]; [done|].
    exfalso. apply Hi. apply pad_to_lookup_eq; auto.
Qed.

Lemma one_segment_masked_count (self : OneSegmentDataset.t) (tokens_a : list Z)
    (max_pos : Z) (tp tp' : tape) (f : Feature) (tr : Trace) :
  OneSegmentDataset.convert_example_to_features_trace self tokens_a max_pos tp
    = Ok (f, tr, tp') →
  (length (tr_selected tr) ≤ Py.round_times_0_15 (length (tr_tokens tr)))%nat ∧
  (∀ i, input_ids f !! i ≠ label_ids f !! i → i ∈ tr_selected tr).
Proof.
  intros H.
  apply one_segment_trace_inv in H
    as (target & a & b & masked & _ & _ & _ & Hsel & Hlen & Hother & ->).
  split; [done|].
  cbn [input_ids label_ids]. intros i Hi.
  destruct (decide (i ∈ tr_selected tr)) as [|Hni]; [done|].
  exfalso. apply Hi. apply pad_to_lookup_eq; auto.
Qed.

(** C4. In both masking policies, for every example that is produced, the
    number of positions selected for possible substitution is at most
    round(0.15 * len(tokens)), where tokens is the truncated sequence with
    its CLS and SEP tokens; and every position where input_ids differs from
    label_ids is one of the selected positions. *)
Theorem masked_count_bounded :
  (∀ (self : PretrainDataset.t) (tokens_a tokens_b : list Z)
     (is_next_label max_pos : Z) (tp tp' : tape) (f : Feature) (tr : Trace),
     PretrainDataset.convert_example_to_features_trace self tokens_a tokens_b
       is_next_label max_pos tp = Ok (f, tr, tp') →
     (length (tr_selected tr) ≤ Py.round_times_0_15 (length (tr_tokens tr)))%nat ∧
     (∀ i, input_ids f !! i ≠ label_ids f !! i → i ∈ tr_selected tr)) ∧
  (∀ (self : OneSegmentDataset.t) (tokens_a : list Z) (max_pos : Z)
     (tp tp' : tape) (f : Feature) (tr : Trace),
     OneSegmentDataset.convert_example_to_features_trace self tokens_a max_pos tp
       = Ok (f, tr, tp') →
     (length (tr_selected tr) ≤ Py.round_times_0_15 (length (tr_tokens tr)))%nat ∧
     (∀ i, input_ids f !! i ≠ label_ids f !! i → i ∈ tr_selected tr)).
Proof.
  split.
  - apply pretrain_masked_count.
  - apply one_segment_masked_count.
Qed.

(** C4 on one example of each dataset, with max_pos = 16. *)
Lemma masked_count_bounded_witness :
  (∃ f tr tp',
     PretrainDataset.convert_example_to_features_trace pretrain
       [197; 198; 199; 200; 201; 202; 203] [204; 205; 206; 207] 0 16
       (tape_of [high; 3; 1; 4; 1; 5; 9; 2; 6; 5; 3; 5]) = Ok (f, tr, tp') ∧
     (length (tr_selected tr) ≤ Py.round_times_0_15 (length (tr_tokens tr)))%nat ∧
     (∀ i, input_ids f !! i ≠ label_ids f !! i → i ∈ tr_selected tr)) ∧
  (∃ f tr tp',
     OneSegmentDataset.convert_example_to_features_trace one_segment
       [197; 198; 199; 200; 201; 202; 203; 204; 205; 206; 207; 208] 16
       (tape_of [high; 2; 1; 4; 1; 5; 9; 2; 6; 5; 3; 5]) = Ok (f, tr, tp') ∧
     (length (tr_selected tr) ≤ Py.round_times_0_15 (length (tr_tokens tr)))%nat ∧
     (∀ i, input_ids f !! i ≠ label_ids f !! i → i ∈ tr_selected tr)).
Proof.
  split.
  - eexists _, _, _.
    assert (H : PretrainDataset.convert_example_to_features_trace pretrain
       [197; 198; 199; 200; 201; 202; 203] [204; 205; 206; 207] 0 16
       (tape_of [high; 3; 1; 4; 1; 5; 9; 2; 6; 5; 3; 5]) = Ok (_, _, _))
      by (vm_compute; reflexivity).
    split; [exact H|]. exact (proj1 masked_count_bounded _ _ _ _ _ _ _ _ _ H).
  - eexists _, _, _.
    assert (H : OneSegmentDataset.convert_example_to_features_trace one_segment
       [197; 198; 199; 200; 201; 202; 203; 204; 205; 206; 207; 208] 16
       (tape_of [high; 2; 1; 4; 1; 5; 9; 2; 6; 5; 3; 5]) = Ok (_, _, _))
      by (vm_compute; reflexivity).
    split; [exact H|]. exact (proj2 masked_count_bounded _ _ _ _ _ _ _ H).
Defined.

End MaskedCount.

(** ** The rounding of [len(tokens) * 0.15] *)

Section Rounding.

Import Py.

Lemma fl53_upper (N : Z) :
  0 ≤ N → 0 ≤ fl53 N ∧ 2 ^ 52 * fl53 N ≤ (2 ^ 52 + 1) * N.
Proof.
  intros HN. unfold fl53.
  destruct (Z.leb_spec (Z.log2 N + 1 - 53) 0) as [He|He]; [lia|].
  set (e := Z.log2 N + 1 - 53) in *.
  assert (HNpos : 0 < N).
  { destruct (Z.eq_dec N 0) as [->|]; [|lia]. simpl in e. lia. }
  assert (Hpe : 0 < 2 ^ e) by (apply Z.pow_pos_nonneg; lia).
  assert (Hlog : 2 ^ e * 2 ^ 52 ≤ N).
  { rewrite <- Z.pow_add_r by lia.
    replace (e + 52) with (Z.log2 N) by lia.
    apply Z.log2_spec. lia. }
  pose proof (Z.div_mod N (2 ^ e) ltac:(lia)) as Hdm.
  pose proof (Z.mod_pos_bound N (2 ^ e) Hpe) as Hmod.
  assert (Hq : 0 ≤ N / 2 ^ e) by (apply Z.div_pos; lia).
  set (q := N / 2 ^ e) in *. set (r := N mod 2 ^ e) in *.
  destruct ((2 ^ (e - 1) <? r) || ((r =? 2 ^ (e - 1)) && Z.odd q)); nia.
Qed.

Lemma round_half_even_upper (A D : Z) :
  0 < D → 2 * D * round_half_even A D ≤ 2 * A + D.
Proof.
  intros HD. unfold round_half_even.
  pose proof (Z.div_mod A D ltac:(lia)) as Hdm.
  pose proof (Z.mod_pos_bound A D HD) as Hmod.
  set (k := A / D) in *. set (r := A mod D) in *.
  destruct (Z.ltb_spec D (2 * r)); simpl; [nia|].
  destruct (Z.eqb_spec (2 * r) D); simpl; [|nia].
  destruct (Z.odd k); nia.
Qed.

(** With the two special tokens counted in the length, the number of
    positions to mask never exceeds the number of the other tokens. *)
Lemma round_times_0_15_bound (n : nat) : (round_times_0_15 (n + 2) ≤ n)%nat.
Proof.
  unfold round_times_0_15.
  set (N := Z.of_nat (n + 2)).
  assert (HN : 2 ≤ N) by (unfold N; lia).
  destruct (fl53_upper N ltac:(lia)) as [Hx0 Hx].
  set (x := fl53 N) in *.
  destruct (fl53_upper (x * c_0_15) ltac:(unfold c_0_15; lia)) as [Hy0 Hy].
  set (y := fl53 (x * c_0_15)) in *.
  pose proof (round_half_even_upper y (2 ^ 55) ltac:(lia)) as Hr.
  set (r := round_half_even y (2 ^ 55)) in *.
  unfold c_0_15 in *.
  assert (r ≤ N - 2); [|unfold N in *; lia].
  change (2 ^ 52) with 4503599627370496 in *.
  change (2 ^ 55) with 36028797018963968 in *.
  lia.
Qed.

End Rounding.

(** ** The span length and the number of sections *)

Section SpanLength.

Import Fixture OneSegmentDataset.

Lemma positions_length_aux {A} (p : A → bool) (f : nat → nat) (l : list A) :
  length (filter (λ ix : nat * A, p ix.2 = true) (imap (λ i x, (f i, x)) l))
  = length (filter (λ x, p x = true) l).
Proof.
  revert f. induction l as [|x l IH]; intros f; [done|].
  rewrite imap_cons. rewrite !filter_cons. simpl.
  specialize (IH (f ∘ S)). destruct (decide (p x = true)); simpl; by rewrite <- IH.
Qed.

Lemma positions_length {A} (p : A → bool) (l : list A) :
  length (Py.positions p l) = length (filter (λ x, p x = true) l).
Proof.
  unfold Py.positions. rewrite length_fmap.
  apply (positions_length_aux p (λ i, i)).
Qed.

(** The candidates of a sequence CLS, a, SEP in which no token of a is
    CLS or SEP are exactly the positions of a. *)
Lemma mask_candidate_pos_length (cls sep : Z) (a : list Z) :
  Forall (λ x, x ≠ cls ∧ x ≠ sep) a →
  length (mask_candidate_pos cls sep ([cls] ++ a ++ [sep])) = length a.
Proof.
  intros Ha. unfold mask_candidate_pos. rewrite positions_length.
  simpl. rewrite filter_cons, decide_False; last first.
  { unfold not_special. rewrite Z.eqb_refl. done. }
  rewrite filter_app, filter_cons, decide_False; last first.
  { unfold not_special. rewrite Z.eqb_refl. simpl. by rewrite andb_false_r. }
  rewrite filter_nil, app_nil_r. f_equal. apply filter_all.
  eapply Forall_impl; [exact Ha|]. intros x [Hc Hs]. unfold not_special.
  apply Z.eqb_neq in Hc, Hs. by rewrite Hc, Hs.
Qed.

(** C5 (as amended). In span mode the span length drawn from the geometric
    distribution is clamped to at most max_words_length and to at most the
    mask count.  When no token of the example is the CLS or the SEP id, a
    positive clamped length never exceeds the number of candidate
    positions, so the section count passed to array_split is at least 1 and
    array_split does not raise. *)
Theorem span_length_clamped (self : t) (tokens_a a b : list Z) (target g : Z) :
  let tokens := [cls_id self] ++ a ++ [sep_id self] in
  let mask_prediction := Py.round_times_0_15 (length tokens) in
  let candidates := mask_candidate_pos (cls_id self) (sep_id self) tokens in
  let mask_length := clamp_mask_length self g mask_prediction in
  Utils.truncate_seq_pair tokens_a [] target = Ok (a, b) →
  mask_length ≤ max_words_length self ∧
  mask_length ≤ Z.of_nat mask_prediction ∧
  (Forall (λ x, x ≠ cls_id self ∧ x ≠ sep_id self) tokens_a →
   0 < mask_length →
   mask_length ≤ Z.of_nat (length candidates) ∧
   1 ≤ sections candidates mask_length ∧
   is_ok (Py.array_split candidates (sections candidates mask_length)) = true).
Proof.
  intros tokens mp candidates ml Htr.
  destruct (clamp_mask_length_bounds self g mp) as (_ & Hmp & Hmw).
  split; [done|]. split; [done|].
  intros Hspecial Hpos.
  apply truncate_seq_pair_sound in Htr as ([k ->] & _ & _).
  apply Forall_app in Hspecial as [Ha _].
  assert (Hc : length candidates = length a)
    by (by apply mask_candidate_pos_length).
  assert (Hb : (mp ≤ length a)%nat).
  { pose proof (round_times_0_15_bound (length a)) as Hb.
    unfold mp, tokens. rewrite !length_app. simpl.
    by replace (S (length a + 1)) with (length a + 2)%nat by lia. }
  assert (Hle : ml ≤ Z.of_nat (length candidates)) by (fold ml in Hmp; lia).
  assert (Hs : 1 ≤ sections candidates ml).
  { unfold sections. apply Z.div_le_lower_bound; lia. }
  split; [done|]. split; [done|].
  unfold Py.array_split. destruct (Z.leb_spec (sections candidates ml) 0); [lia|done].
Qed.

(** C5 on a document of ten tokens truncated to eight, with the geometric
    draw 7. *)
Lemma span_length_clamped_witness :
  let tokens := [2] ++ [197; 198; 199; 200; 201; 202; 203; 204] ++ [3] in
  let candidates := mask_candidate_pos 2 3 tokens in
  let mask_length := clamp_mask_length one_segment 7 (Py.round_times_0_15 (length tokens)) in
  mask_length ≤ 10 ∧
  mask_length ≤ Z.of_nat (Py.round_times_0_15 (length tokens)) ∧
  mask_length ≤ Z.of_nat (length candidates) ∧
  1 ≤ sections candidates mask_length ∧
  is_ok (Py.array_split candidates (sections candidates mask_length)) = true.
Proof.
  intros tokens candidates mask_length.
  destruct (span_length_clamped one_segment
              [197; 198; 199; 200; 201; 202; 203; 204; 205; 206]
              [197; 198; 199; 200; 201; 202; 203; 204] [] 8 7
              ltac:(vm_compute; reflexivity)) as (H1 & H2 & H3).
  split; [exact H1|]. split; [exact H2|].
  apply H3.
  - repeat constructor; discriminate.
  - vm_compute. reflexivity.
Defined.

(** C5, counterexample: a document made of two SEP ids.  The sequence has
    four tokens, the mask count is round(0.6) = 1, the geometric draw 1 is
    kept as the span length, and there is no candidate position: the
    section count is int(0 / 1) = 0 and array_split raises ValueError. *)
Lemma zero_sections_reachable :
  let tokens := [2] ++ [3; 3] ++ [3] in
  let candidates := mask_candidate_pos 2 3 tokens in
  let mask_length := clamp_mask_length one_segment 1 (Py.round_times_0_15 (length tokens)) in
  0 < mask_length ∧
  Z.of_nat (length candidates) < mask_length ∧
  sections candidates mask_length = 0 ∧
  Py.array_split candidates (sections candidates mask_length) = Err ValueError ∧
  convert_example_to_features one_segment [3; 3] 8 (tape_of [high; 0]) = Err ValueError.
Proof. repeat split; vm_compute; reflexivity. Qed.

End SpanLength.

(** ** The negative draw *)

Section NegativeDraw.

Import Fixture PretrainDataset.

(** When the two counters differ the loop stops after its first draw,
    whatever document that draw came from. *)
Lemma get_random_line_one_draw (self : t) (tp : tape) :
  current_random_doc self ≠ current_doc self →
  get_random_line self tp = draw_random_line self tp.
Proof.
  intros Hne. unfold get_random_line. simpl.
  unfold mbind, rand_bind. destruct (draw_random_line self tp) as [[l tp']|e]; [|done].
  by rewrite decide_True.
Qed.

(** When the two counters are equal the loop always runs its ten draws and
    returns the tenth, whatever documents the draws came from. *)
Lemma get_random_line_ten_draws (self : t) (tp : tape) :
  current_random_doc self = current_doc self →
  get_random_line self tp = draws self 9 tp.
Proof.
  intros Heq. unfold get_random_line.
  generalize 9%nat. intros n. revert tp. induction n as [|n IH]; intros tp; simpl.
  - unfold mbind, rand_bind. destruct (draw_random_line self tp) as [[l tp']|e]; [|done].
    by rewrite decide_False by (by intros []).
  - unfold mbind, rand_bind. destruct (draw_random_line self tp) as [[l tp']|e]; [|done].
    rewrite decide_False by (by intros []). apply IH.
Qed.

(** get_corpus_line never changes current_random_doc, which __init__ sets
    to 0: in memory the counter that the loop compares with current_doc is
    not the document of the draw. *)
Lemma get_corpus_line_current_random_doc (self self' : t) (item : Z) (t1 t2 : list Z) :
  get_corpus_line self item = Ok (t1, t2, self') →
  current_random_doc self' = current_random_doc self ∧
  all_documents self' = all_documents self.
Proof.
  unfold get_corpus_line. destruct (negb _); [discriminate|].
  destruct (on_memory self); [|discriminate].
  intros H.
  apply result_bind_ok in H as (s & _ & H).
  apply result_bind_ok in H as (d & _ & H).
  apply result_bind_ok in H as (l1 & _ & H).
  apply result_bind_ok in H as (l2 & _ & H).
  by injection H as <- <- <-.
Qed.

(** C6, the code at the failing inputs.  The corpus has the documents
    0 = [[197]; [198]] and 1 = [[199]; [200]].
    (1) The current sample is in document 1.  The first draw picks document
    1, a collision, and is returned at once: two raw draws are consumed.
    (2) The current sample is in document 0.  The first draw picks document
    1, which differs, yet nine more draws are made and the tenth, a line of
    document 0, is returned. *)
Theorem get_random_line_ignores_drawn_document :
  (∃ t1 t2 self' tp',
     get_corpus_line pretrain 1 = Ok (t1, t2, self') ∧
     current_doc self' = 1%nat ∧
     get_random_line self' (tape_of [1; 0; 77; 88]) = Ok ([199], tp') ∧
     tp' 0%nat = 77) ∧
  (∃ t1 t2 self' tp',
     get_corpus_line pretrain 0 = Ok (t1, t2, self') ∧
     current_doc self' = 0%nat ∧
     draw_random_line self' (tape_of [1; 0]) = Ok ([199], tape_of [] ) ∧
     get_random_line self'
       (tape_of [1; 0; 1; 0; 1; 0; 1; 0; 1; 0; 1; 0; 1; 0; 1; 0; 1; 0; 0; 1; 77])
       = Ok ([198], tp') ∧
     tp' 0%nat = 77).
Proof.
  split.
  - eexists _, _, _, _. split; [vm_compute; reflexivity|].
    split; [reflexivity|]. split; [vm_compute; reflexivity|]. reflexivity.
  - eexists _, _, _, _. split; [vm_compute; reflexivity|].
    split; [reflexivity|]. split; [vm_compute; reflexivity|].
    split; [vm_compute; reflexivity|]. reflexivity.
Qed.

End NegativeDraw.

(** ** The resume order *)

Section Resume.

Import Fixture OneSegmentDataset.

Lemma keys_dict_set (d : Py.dict nat unit) (k : nat) :
  Py.keys (Py.dict_set d k ()) =
  if decide (k ∈ Py.keys d) then Py.keys d else Py.keys d ++ [k].
Proof.
  unfold Py.keys. induction d as [|[k' []] d IH].
  - case_decide as Hin; [|done]. by apply elem_of_nil in Hin.
  - cbn [Py.dict_set]. rewrite !fmap_cons. cbn [fst].
    destruct (decide (k = k')) as [->|Hne].
    + rewrite fmap_cons. cbn [fst]. by rewrite decide_True by (by left).
    + rewrite fmap_cons. cbn [fst]. rewrite IH.
      destruct (decide (k ∈ d.*1)) as [Hin|Hin].
      * by rewrite decide_True by (by right).
      * rewrite decide_False; [done|]. by intros [?|?]%elem_of_cons.
Qed.

Lemma fromkeys_from_spec (d : Py.dict nat unit) (l : list nat) :
  NoDup (Py.keys d) →
  NoDup (Py.keys (Py.fromkeys_from d l)) ∧
  Py.keys d `prefix_of` Py.keys (Py.fromkeys_from d l) ∧
  ∀ x, x ∈ Py.keys (Py.fromkeys_from d l) ↔ x ∈ Py.keys d ∨ x ∈ l.
Proof.
  revert d. induction l as [|k l IH]; intros d Hd; simpl.
  - split; [done|]. split; [done|]. intros x. rewrite elem_of_nil. tauto.
  - assert (Hd' : NoDup (Py.keys (Py.dict_set d k ()))).
    { rewrite keys_dict_set. case_decide; [done|].
      apply NoDup_app. split; [done|]. split; [|apply NoDup_singleton].
      intros x Hx ->%list_elem_of_singleton. done. }
    destruct (IH _ Hd') as (Hnd & Hpre & Hin).
    split; [done|]. split.
    + etrans; [|exact Hpre]. rewrite keys_dict_set. case_decide; [done|].
      by apply prefix_app_r.
    + intros x. rewrite Hin, keys_dict_set, elem_of_cons.
      case_decide as Hk.
      * split; [tauto|]. intros [?|[->|?]]; tauto.
      * rewrite elem_of_app, list_elem_of_singleton. tauto.
Qed.

Lemma fromkeys_from_NoDup (d : Py.dict nat unit) (l : list nat) :
  NoDup (Py.keys d ++ l) → Py.keys (Py.fromkeys_from d l) = Py.keys d ++ l.
Proof.
  revert d. induction l as [|k l IH]; intros d Hd; simpl.
  - by rewrite app_nil_r.
  - assert (Hk : Py.keys (Py.dict_set d k ()) = Py.keys d ++ [k]).
    { rewrite keys_dict_set, decide_False; [done|].
      apply NoDup_app in Hd as (_ & Hd & _). intros Hin.
      apply (Hd _ Hin). by left. }
    rewrite IH; rewrite Hk, <- (assoc_L (++)); done.
Qed.

Lemma filter_filter_not_elem (d : list nat) (x : nat) (l : list nat) :
  filter (λ y, y ∉ d ++ [x]) l = filter (λ y, y ∉ d) (filter (λ y, y ≠ x) l).
Proof.
  rewrite list_filter_filter. apply list_filter_iff. intros y.
  rewrite not_elem_of_app, list_elem_of_singleton. tauto.
Qed.

Lemma filter_filter_elem (d : list nat) (x : nat) (l : list nat) :
  x ∈ d → filter (λ y, y ∉ d) (filter (λ y, y ≠ x) l) = filter (λ y, y ∉ d) l.
Proof.
  intros Hx. rewrite list_filter_filter. apply list_filter_iff. intros y.
  split; [tauto|]. intros Hy. split; [done|]. by intros ->.
Qed.

Lemma fromkeys_from_dedup (d : Py.dict nat unit) (l : list nat) :
  Py.keys (Py.fromkeys_from d l)
  = Py.keys d ++ filter (λ y, y ∉ Py.keys d) (remove_duplicates_keeping_first l).
Proof.
  revert d. induction l as [|x l IH]; intros d; simpl.
  - by rewrite app_nil_r.
  - change (foldl _ (Py.dict_set d x ()) l) with (Py.fromkeys_from (Py.dict_set d x ()) l).
    rewrite IH, keys_dict_set, filter_cons.
    destruct (decide (x ∈ Py.keys d)) as [Hx|Hx].
    + rewrite decide_False by tauto. by rewrite filter_filter_elem.
    + rewrite decide_True by done.
      by rewrite <- (assoc_L (++)), filter_filter_not_elem.
Qed.

(** [list(dict.fromkeys(l))] removes the duplicates of [l] and keeps the
    first occurrence of every element, in order. *)
Lemma keys_fromkeys (l : list nat) :
  Py.keys (Py.fromkeys l) = remove_duplicates_keeping_first l.
Proof.
  unfold Py.fromkeys. rewrite fromkeys_from_dedup. simpl.
  apply filter_all, Forall_forall. intros y _. apply not_elem_of_nil.
Qed.

(** [list(dict.fromkeys(last + shuffled))] when [last] has no repetition and
    [shuffled] is a shuffled [range(N)] that covers [last]. *)
Lemma resume_indices_spec (last shuffled : list nat) (N : nat) :
  NoDup last → Forall (λ i, i < N)%nat last → shuffled ≡ₚ seq 0 N →
  resume_indices (Some last) shuffled ≡ₚ seq 0 N ∧
  last `prefix_of` resume_indices (Some last) shuffled.
Proof.
  intros Hnd Hlt Hsh. unfold resume_indices, Py.fromkeys, Py.fromkeys_from.
  rewrite foldl_app.
  change (foldl _ (foldl _ [] last) shuffled)
    with (Py.fromkeys_from (Py.fromkeys_from [] last) shuffled).
  assert (Hlast : Py.keys (Py.fromkeys_from [] last) = last)
    by (by apply (fromkeys_from_NoDup [])).
  destruct (fromkeys_from_spec (Py.fromkeys_from [] last) shuffled) as (H1 & H2 & H3);
    [by rewrite Hlast|].
  rewrite Hlast in H2, H3. split; [|done].
  apply NoDup_Permutation; [done|apply NoDup_seq|].
  intros x. rewrite H3, Hsh. split; [|tauto].
  intros [Hx|Hx]; [|done].
  apply elem_of_seq. rewrite Forall_forall in Hlt. specialize (Hlt _ Hx). lia.
Qed.

Context {R : Type}.
Variable strip : string → string.

Lemma resume_indices_NoDup (last : option (list nat)) (shuffled : list nat) :
  NoDup shuffled → NoDup (resume_indices last shuffled).
Proof.
  intros Hsh. destruct last as [last|]; [|done]. simpl.
  apply (fromkeys_from_spec [] (last ++ shuffled)). constructor.
Qed.

(** The iteration order of every constructed dataset has no repetition. *)
Lemma init_indices_NoDup (fs : FileSystem R) (tok : Tokenizer) (max_pos : Z)
    (dataset_path : option string) (documents : list string) (sentence_stack : bool)
    (pickle_path : option string) (max_words_length : Z) (tp tp' : tape) (ds : t) :
  __init__ strip fs tok max_pos dataset_path documents sentence_stack pickle_path
    max_words_length tp = Ok (ds, tp') →
  NoDup (indices ds).
Proof.
  unfold __init__. intros H.
  apply rand_bind_ok in H as (pad & t1 & _ & H).
  apply rand_bind_ok in H as (cls & t2 & _ & H).
  apply rand_bind_ok in H as (sep & t3 & _ & H).
  apply rand_bind_ok in H as (mask & t4 & _ & H).
  destruct pickle_path as [pickle_path|].
  - apply rand_bind_ok in H as (docs & t5 & _ & H).
    apply rand_bind_ok in H as (sh & t6 & Hsh & H).
    apply rand_ret_ok in H as [<- _]. simpl.
    apply resume_indices_NoDup. apply shuffle_ok in Hsh.
    rewrite Hsh. apply NoDup_seq.
  - apply rand_bind_ok in H as ([docs stack] & t5 & _ & H).
    case_decide; [by destruct dataset_path|].
    apply rand_ret_ok in H as [<- _]. simpl. apply NoDup_seq.
Qed.

(** C7. A dataset loaded from a pickle persists, with dump_last_indices,
    the suffix of its order that is not consumed yet.  On the next load
    with that sidecar file, the order is the persisted suffix followed by a
    freshly shuffled full range, duplicates removed keeping the first
    occurrence (what [list(dict.fromkeys(...))] computes); when every
    persisted index lies in [0, N), N being the number of documents found
    at the next load, this order is a permutation of 0 .. N-1, no element
    dropped, and begins with the persisted suffix. *)
Theorem resume_order (fs fs' fs'' : FileSystem R) (tok : Tokenizer) (max_pos : Z)
    (dataset_path : option string) (documents : list string) (sentence_stack : bool)
    (pickle_path : string) (max_words_length : Z) (tp tp1 tp2 : tape) (ds : t)
    (steps : Z) (docs : list (list Z)) :
  let sidecar := String.append pickle_path ".index" in
  let last := drop (Z.to_nat (steps mod Z.of_nat (length (indices ds)))) (indices ds) in
  __init__ strip fs tok max_pos dataset_path documents sentence_stack
    (Some pickle_path) max_words_length tp = Ok (ds, tp1) →
  dump_last_indices fs ds steps = Ok fs' →
  pickled_indices fs'' sidecar = pickled_indices fs' sidecar →
  pickled_documents fs'' pickle_path = Some docs →
  Forall (λ i, i < length docs)%nat last →
  ∃ ds' tp3 shuffled,
    __init__ strip fs'' tok max_pos dataset_path documents sentence_stack
      (Some pickle_path) max_words_length tp2 = Ok (ds', tp3) ∧
    shuffled ≡ₚ seq 0 (length docs) ∧
    indices ds' = Py.keys (Py.fromkeys (last ++ shuffled)) ∧
    indices ds' = remove_duplicates_keeping_first (last ++ shuffled) ∧
    indices ds' ≡ₚ seq 0 (length docs) ∧
    last `prefix_of` indices ds'.
Proof.
  intros sidecar last Hinit Hdump Hside Hdocs Hlt.
  pose proof (init_indices_NoDup _ _ _ _ _ _ _ _ _ _ _ Hinit) as Hnd.
  assert (Hpath : last_indices_path ds = Some sidecar).
  { unfold __init__ in Hinit.
    apply rand_bind_ok in Hinit as (pad & t1 & _ & H).
    apply rand_bind_ok in H as (cls & t2 & _ & H).
    apply rand_bind_ok in H as (sep & t3 & _ & H).
    apply rand_bind_ok in H as (mask & t4 & _ & H).
    apply rand_bind_ok in H as (docs0 & t5 & _ & H).
    apply rand_bind_ok in H as (sh & t6 & _ & H).
    by apply rand_ret_ok in H as [<- _]. }
  assert (Hfs' : pickled_indices fs' sidecar = Some last).
  { unfold dump_last_indices in Hdump. rewrite Hpath in Hdump.
    case_decide; [discriminate|]. injection Hdump as <-.
    simpl. by rewrite String.eqb_refl. }
  assert (Hreserved : ∃ pad cls sep mask,
    reserved_id tok "[PAD]" = Ok pad ∧ reserved_id tok "[CLS]" = Ok cls ∧
    reserved_id tok "[SEP]" = Ok sep ∧ reserved_id tok "[MASK]" = Ok mask).
  { unfold __init__ in Hinit.
    apply rand_bind_ok in Hinit as (pad & t1 & [Hp _]%lift_ok & H).
    apply rand_bind_ok in H as (cls & t2 & [Hc _]%lift_ok & H).
    apply rand_bind_ok in H as (sep & t3 & [Hs _]%lift_ok & H).
    apply rand_bind_ok in H as (mask & t4 & [Hm _]%lift_ok & H).
    eauto 10. }
  destruct Hreserved as (pad & cls & sep & mask & Hp & Hc & Hs & Hm).
  destruct (shuffle_spec (seq 0 (length docs)) tp2) as (sh & tp3 & Hsh & Hperm).
  eexists _, tp3, sh.
  split.
  { unfold __init__, mbind, rand_bind, lift.
    rewrite Hp, Hc, Hs, Hm, Hdocs. simpl. rewrite Hsh. reflexivity. }
  simpl. fold sidecar. rewrite Hside, Hfs'.
  split; [done|]. split; [done|]. split; [apply keys_fromkeys|].
  apply resume_indices_spec; [|done..].
  unfold last. eapply sublist_NoDup; [exact Hnd|apply sublist_drop].
Qed.

End Resume.

Section ResumeExample.

Import Fixture OneSegmentDataset.

(** C7 on four pickled documents: the order [3; 0; 2; 1] is dumped after
    six steps and the dataset is loaded again. *)
Lemma resume_order_witness :
  ∃ tp1 ds' tp3 shuffled,
    __init__ strip pickle_files Fixture.tokenizer 8 None [] true (Some "docs"%string) 10
      (tape_of [1; 2; 0]) = Ok (one_segment_pickled, tp1) ∧
    dump_last_indices pickle_files one_segment_pickled 6 = Ok pickle_files_after ∧
    __init__ strip pickle_files_after Fixture.tokenizer 8 None [] true
      (Some "docs"%string) 10 (tape_of [0; 1; 1]) = Ok (ds', tp3) ∧
    shuffled ≡ₚ seq 0 4 ∧
    indices ds' = Py.keys (Py.fromkeys ([2; 1]%nat ++ shuffled)) ∧
    indices ds' = remove_duplicates_keeping_first ([2; 1]%nat ++ shuffled) ∧
    indices ds' ≡ₚ seq 0 4 ∧
    [2; 1]%nat `prefix_of` indices ds'.
Proof.
  assert (Hinit : ∃ tp1,
    __init__ strip pickle_files Fixture.tokenizer 8 None [] true
      (Some "docs"%string) 10 (tape_of [1; 2; 0]) = Ok (one_segment_pickled, tp1))
    by (eexists; vm_compute; reflexivity).
  destruct Hinit as [tp1 Hinit].
  assert (Hdump : dump_last_indices pickle_files one_segment_pickled 6
                  = Ok pickle_files_after) by reflexivity.
  destruct (resume_order strip pickle_files pickle_files_after pickle_files_after
              Fixture.tokenizer 8 None [] true "docs" 10
              (tape_of [1; 2; 0]) tp1 (tape_of [0; 1; 1]) one_segment_pickled 6
              [[197]; [198; 199]; [200]; [201; 202]]
              Hinit Hdump eq_refl eq_refl
              ltac:(vm_compute; repeat constructor))
    as (ds' & tp3 & shuffled & Hresume).
  exists tp1, ds', tp3, shuffled.
  split; [exact Hinit|]. split; [exact Hdump|]. exact Hresume.
Defined.

End ResumeExample.

(** ** The document store of PretrainDataset *)

Section DocumentStore.

Import PretrainDataset.

Context {R : Type}.
Variable strip : string → string.
Variable fs : FileSystem R.

Lemma close_doc_counted (st st' : Loader) (doc : list (list Z)) :
  counted st → close_doc st doc = Ok st' → counted st'.
Proof.
  unfold counted, close_doc, pop_sample. intros Hc H.
  destruct (l_sample_to_doc st) as [|s samples] eqn:Hs; [discriminate|].
  injection H as <-. cbn [l_sample_to_doc l_all_documents l_corpus_lines].
  rewrite length_app. unfold Utils.pop. rewrite length_take.
  cbn [length] in *. lia.
Qed.

Lemma load_text_counted (tok : Tokenizer) st st' (text : string) :
  counted st.1 → _load_text strip tok st text = Ok st' → counted st'.1.
Proof.
  destruct st as [st doc]. unfold _load_text. intros Hc H.
  destruct (String.eqb (strip text) "").
  - case_decide.
    + apply result_bind_ok in H as (st1 & Hclose & H). injection H as <-.
      by eapply close_doc_counted.
    + by injection H as <-.
  - injection H as <-. unfold counted in *. simpl in *. rewrite length_app. simpl. lia.
Qed.

Lemma load_lines_counted (tok : Tokenizer) st st' (lines : list string) :
  counted st.1 → load_lines strip tok st lines = Ok st' → counted st'.1.
Proof.
  revert st. induction lines as [|text lines IH]; intros st Hc H; simpl in H.
  - by injection H as <-.
  - apply result_bind_ok in H as (st1 & H1 & H).
    eapply IH; [|exact H]. by eapply load_text_counted.
Qed.

Lemma lazy_count_nonblank (n n' : nat) (lines : list string) :
  lazy_count strip n lines = Ok n' →
  Forall (λ line, String.eqb (strip line) "" = false) lines.
Proof.
  revert n. induction lines as [|line lines IH]; intros n H; simpl in H; [done|].
  destruct (String.eqb (strip line) "") eqn:Hl; [discriminate|].
  constructor; [done|]. by eapply IH.
Qed.

(** The lazy branch of __init__ never returns. *)
Lemma lazy_scan_raises (lines : list string) : is_ok (lazy_scan strip lines) = false.
Proof.
  unfold lazy_scan.
  destruct (lazy_count strip 0 lines) as [n|e] eqn:Hc; [|done]. simpl.
  apply lazy_count_nonblank in Hc.
  destruct (last lines) as [line|] eqn:Hlast; [|done].
  apply last_Some in Hlast as [l' ->].
  apply Forall_app in Hc as [_ Hc]. rewrite Forall_singleton in Hc.
  simpl in Hc. by rewrite Hc.
Qed.

(** What every constructed PretrainDataset satisfies. *)
Lemma init_spec (tok : Tokenizer) (max_pos : Z) (dataset_path : option string)
    (documents : list string) (on_mem : bool) (ds : t) :
  __init__ strip fs tok max_pos dataset_path documents on_mem = Ok ds →
  on_memory ds = on_mem ∧
  current_random_doc ds = 0%nat ∧
  num_docs ds = length (all_documents ds) ∧
  (0 < num_docs ds)%nat ∧
  (length (sample_to_doc ds) + num_docs ds)%nat = corpus_lines ds.
Proof.
  unfold __init__. intros H.
  apply result_bind_ok in H as ([] & _ & H).
  apply result_bind_ok in H as (pad & _ & H).
  apply result_bind_ok in H as (cls & _ & H).
  apply result_bind_ok in H as (sep & _ & H).
  apply result_bind_ok in H as (mask & _ & H).
  case_decide as Hmode.
  - apply result_bind_ok in H as (lines & _ & H).
    apply result_bind_ok in H as ([loader doc] & Hload & H).
    apply result_bind_ok in H as (loader' & Hclose & H).
    apply load_lines_counted in Hload; [|unfold counted; simpl; lia].
    assert (Hc : counted loader').
    { simpl in Hload. destruct (decide (0 < length doc)%nat).
      - by apply (close_doc_counted loader loader' doc).
      - by injection Hclose as <-. }
    case_decide as Hempty; [by destruct dataset_path|].
    injection H as <-. simpl. unfold counted in Hc.
    repeat split; try done; lia.
  - exfalso. destruct dataset_path as [path|]; [|discriminate].
    apply result_bind_ok in H as (lines & _ & H).
    apply result_bind_ok in H as (n & Hscan & _).
    pose proof (lazy_scan_raises lines) as Hr. by rewrite Hscan in Hr.
Qed.

End DocumentStore.

(** ** The sample table of PretrainDataset *)

Section SampleTable.

Import PretrainDataset.

Context {R : Type}.
Variable strip : string → string.
Variable fs : FileSystem R.

Lemma sample_ok_app (docs : list (list (list Z))) (doc : list (list Z)) (s : Sample) :
  sample_ok docs s → sample_ok (docs ++ [doc]) s.
Proof.
  intros (d & Hd & Hl). exists d. split; [|done].
  by apply lookup_app_l_Some.
Qed.

Lemma open_samples_S (d n : nat) :
  open_samples d (S n) = open_samples d n ++ [{| doc_id := d; line := n |}].
Proof. unfold open_samples. by rewrite seq_S, fmap_app. Qed.

Lemma close_doc_loading (st : Loader) (doc : list (list Z)) :
  (0 < length doc)%nat → loading (st, doc) →
  ∃ st', close_doc st doc = Ok st' ∧ loading (st', []).
Proof.
  intros Hdoc (closed & Hs & Hok). simpl in *.
  destruct (length doc) as [|k] eqn:Hk; [lia|].
  rewrite open_samples_S in Hs.
  unfold close_doc, pop_sample. rewrite Hs.
  destruct (closed ++ _ ++ [_]) as [|s0 l0] eqn:Hl.
  { apply (f_equal length) in Hl. rewrite !length_app in Hl. simpl in Hl. lia. }
  rewrite <- Hl. clear Hl. eexists. split; [reflexivity|].
  exists (closed ++ open_samples (length (l_all_documents st)) k). simpl.
  split.
  - unfold Utils.pop. rewrite (assoc_L (++)), app_nil_r.
    rewrite length_app. simpl.
    replace (length (closed ++ open_samples (length (l_all_documents st)) k) + 1 - 1)%nat
      with (length (closed ++ open_samples (length (l_all_documents st)) k)) by lia.
    by rewrite take_app_length.
  - apply Forall_app. split.
    + eapply Forall_impl; [exact Hok|]. intros s. apply sample_ok_app.
    + unfold open_samples. apply Forall_fmap, Forall_forall.
      intros i Hi%elem_of_seq. exists doc. simpl. split; [|lia].
      rewrite lookup_app_r by lia. by rewrite Nat.sub_diag.
Qed.

Lemma load_text_loading (tok : Tokenizer) st (text : string) :
  loading st → ∃ st', _load_text strip tok st text = Ok st' ∧ loading st'.
Proof.
  destruct st as [st doc]. intros Hst. unfold _load_text.
  destruct (String.eqb (strip text) "").
  - case_decide as Hdoc.
    + destruct (close_doc_loading st doc Hdoc Hst) as (st' & -> & Hst').
      exists (st', []). done.
    + exists (st, doc). done.
  - eexists. split; [reflexivity|].
    destruct Hst as (closed & Hs & Hok). simpl in *.
    exists closed. simpl. split; [|done].
    rewrite Hs, length_app. simpl. rewrite Nat.add_1_r, open_samples_S.
    by rewrite (assoc_L (++)).
Qed.

Lemma load_lines_loading (tok : Tokenizer) st (lines : list string) :
  loading st → ∃ st', load_lines strip tok st lines = Ok st' ∧ loading st'.
Proof.
  revert st. induction lines as [|text lines IH]; intros st Hst; simpl.
  - by exists st.
  - destruct (load_text_loading tok st text Hst) as (st1 & -> & Hst1).
    apply (IH st1 Hst1).
Qed.

(** Every sample of a constructed dataset points at a line that has a
    successor in its document. *)
Lemma init_samples_ok (tok : Tokenizer) (max_pos : Z) (dataset_path : option string)
    (documents : list string) (on_mem : bool) (ds : t) :
  __init__ strip fs tok max_pos dataset_path documents on_mem = Ok ds →
  Forall (sample_ok (all_documents ds)) (sample_to_doc ds).
Proof.
  unfold __init__. intros H.
  apply result_bind_ok in H as ([] & _ & H).
  apply result_bind_ok in H as (pad & _ & H).
  apply result_bind_ok in H as (cls & _ & H).
  apply result_bind_ok in H as (sep & _ & H).
  apply result_bind_ok in H as (mask & _ & H).
  case_decide as Hmode.
  - apply result_bind_ok in H as (lines & _ & H).
    apply result_bind_ok in H as ([loader doc] & Hload & H).
    apply result_bind_ok in H as (loader' & Hclose & H).
    destruct (load_lines_loading tok
                ({| l_all_documents := []; l_sample_to_doc := []; l_corpus_lines := 0 |}, [])
                lines) as (st' & Hst' & Hinv).
    { exists []. done. }
    rewrite Hst' in Hload. injection Hload as ->.
    assert (Hfinal : loading (loader', [])).
    { destruct (decide (0 < length doc)%nat) as [Hdoc|Hdoc].
      - destruct (close_doc_loading loader doc Hdoc Hinv) as (st1 & Hst1 & Hinv1).
        rewrite Hst1 in Hclose. by injection Hclose as <-.
      - injection Hclose as <-. destruct doc; [done|simpl in Hdoc; lia]. }
    case_decide as Hempty; [by destruct dataset_path|].
    injection H as <-. simpl.
    destruct Hfinal as (closed & Hs & Hok). simpl in Hs.
    rewrite Hs. unfold open_samples. simpl. by rewrite app_nil_r.
  - exfalso. destruct dataset_path as [path|]; [|discriminate].
    apply result_bind_ok in H as (lines & _ & H).
    apply result_bind_ok in H as (n & Hscan & _).
    pose proof (lazy_scan_raises strip lines) as Hr. by rewrite Hscan in Hr.
Qed.

Lemma getitem_lookup {A} (l : list A) (i : nat) (a : A) :
  l !! i = Some a → Py.getitem l (Z.of_nat i) = Ok a.
Proof.
  intros H. unfold Py.getitem.
  destruct (Z.ltb_spec (Z.of_nat i) 0); [lia|].
  destruct (Z.ltb_spec (Z.of_nat i) 0); [lia|].
  by rewrite Nat2Z.id, H.
Qed.

Lemma getitem_out_of_range {A} (l : list A) (i : Z) :
  Z.of_nat (length l) ≤ i → Py.getitem l i = Err IndexError.
Proof.
  intros H. unfold Py.getitem.
  destruct (Z.ltb_spec i 0); [lia|].
  destruct (Z.ltb_spec i 0); [lia|].
  rewrite lookup_ge_None_2; [done|lia].
Qed.

End SampleTable.

(** ** Lookups out of range *)

Section CorpusLine.

Import PretrainDataset.

Context {R : Type}.
Variable strip : string → string.
Variable fs : FileSystem R.

(** C8 (as amended). For a PretrainDataset built in memory, len(Corpus) is
    corpus_lines - num_docs - 1 and the sample table has one entry more,
    corpus_lines - num_docs.  For every sample ordinal greater than
    len(Corpus), get_corpus_line fails: with IndexError while the ordinal is
    below corpus_lines, and with the AssertionError of its range check from
    corpus_lines on.  Every ordinal from 0 to len(Corpus), len(Corpus)
    included, is served the pair of consecutive lines of its sample. *)
Theorem get_corpus_line_range (tok : Tokenizer) (max_pos : Z)
    (dataset_path : option string) (documents : list string) (ds : t) (item : Z) :
  __init__ strip fs tok max_pos dataset_path documents true = Ok ds →
  Z.of_nat (length (sample_to_doc ds)) = __len__ ds + 1 ∧
  (__len__ ds < item →
   get_corpus_line ds item =
   Err (if item <? Z.of_nat (corpus_lines ds) then IndexError else AssertionError)) ∧
  (0 ≤ item ≤ __len__ ds →
   ∃ s doc t1 t2 ds',
     sample_to_doc ds !! Z.to_nat item = Some s ∧
     all_documents ds !! doc_id s = Some doc ∧
     doc !! line s = Some t1 ∧ doc !! S (line s) = Some t2 ∧
     get_corpus_line ds item = Ok (t1, t2, ds')).
Proof.
  intros Hinit.
  destruct (init_spec strip fs _ _ _ _ _ _ Hinit) as (Hmem & _ & Hnum & Hpos & Hcount).
  pose proof (init_samples_ok strip fs _ _ _ _ _ _ Hinit) as Hok.
  assert (Hlen : Z.of_nat (length (sample_to_doc ds)) = __len__ ds + 1)
    by (unfold __len__; lia).
  split; [done|]. split.
  - intros Hitem. unfold get_corpus_line.
    destruct (Z.ltb_spec item (Z.of_nat (corpus_lines ds))); simpl; [|done].
    rewrite Hmem, getitem_out_of_range by lia. done.
  - intros Hitem.
    destruct (lookup_lt_is_Some_2 (sample_to_doc ds) (Z.to_nat item)) as [s Hs]; [lia|].
    rewrite Forall_forall in Hok.
    destruct (Hok s) as (doc & Hdoc & Hline); [by eapply list_elem_of_lookup_2|].
    destruct (lookup_lt_is_Some_2 doc (line s)) as [t1 Ht1]; [lia|].
    destruct (lookup_lt_is_Some_2 doc (S (line s))) as [t2 Ht2]; [lia|].
    exists s, doc, t1, t2. eexists.
    do 4 (split; [done|]).
    unfold get_corpus_line.
    destruct (Z.ltb_spec item (Z.of_nat (corpus_lines ds))); [|unfold __len__ in *; lia].
    simpl. rewrite Hmem.
    replace item with (Z.of_nat (Z.to_nat item)) at 1 by lia.
    rewrite (getitem_lookup _ _ _ Hs). simpl.
    rewrite (getitem_lookup _ _ _ Hdoc). simpl.
    rewrite (getitem_lookup _ _ _ Ht1). simpl.
    replace (Z.of_nat (line s) + 1) with (Z.of_nat (S (line s))) by lia.
    rewrite (getitem_lookup _ _ _ Ht2). simpl. reflexivity.
Qed.

End CorpusLine.

Section CorpusLineExamples.

Import Fixture PretrainDataset.

(** C8 on the corpus of two documents of two lines. *)
Lemma get_corpus_line_range_witness :
  Z.of_nat (length (sample_to_doc pretrain)) = __len__ pretrain + 1 ∧
  get_corpus_line pretrain 2 = Err IndexError ∧
  get_corpus_line pretrain 4 = Err AssertionError ∧
  ∃ s doc t1 t2 ds',
    sample_to_doc pretrain !! Z.to_nat 1 = Some s ∧
    all_documents pretrain !! doc_id s = Some doc ∧
    doc !! line s = Some t1 ∧ doc !! S (line s) = Some t2 ∧
    get_corpus_line pretrain 1 = Ok (t1, t2, ds').
Proof.
  assert (Hinit : __init__ strip no_files Fixture.tokenizer 12 None corpus true
                  = Ok pretrain) by (vm_compute; reflexivity).
  pose proof (get_corpus_line_range strip no_files Fixture.tokenizer 12 None corpus
                pretrain) as H.
  destruct (H 2 Hinit) as (Hlen & Hhigh2 & _).
  destruct (H 4 Hinit) as (_ & Hhigh4 & _).
  destruct (H 1 Hinit) as (_ & _ & Hserved).
  split; [exact Hlen|].
  split; [exact (Hhigh2 ltac:(vm_compute; reflexivity))|].
  split; [exact (Hhigh4 ltac:(vm_compute; reflexivity))|].
  exact (Hserved ltac:(vm_compute; split; discriminate)).
Defined.

(** C8, counterexample: the corpus of two documents of two lines has
    len(Corpus) = 4 - 2 - 1 = 1, and get_corpus_line serves the ordinal 1
    without any error; the ordinal -1 is served the same pair. *)
Lemma ordinal_len_is_served :
  __init__ strip no_files Fixture.tokenizer 12 None corpus true = Ok pretrain ∧
  __len__ pretrain = 1 ∧
  (∃ ds', get_corpus_line pretrain 1 = Ok ([199], [200], ds')) ∧
  (∃ ds', get_corpus_line pretrain (-1) = Ok ([199], [200], ds')).
Proof.
  split; [vm_compute; reflexivity|]. split; [reflexivity|].
  split; eexists; vm_compute; reflexivity.
Qed.

End CorpusLineExamples.

(** ** Empty corpora *)

Section EmptyCorpus.

Context {R : Type}.
Variable strip : string → string.
Variable fs : FileSystem R.

Lemma blank_eqb (text : string) : blank strip text → String.eqb (strip text) "" = true.
Proof. unfold blank. intros ->. done. Qed.

Lemma pretrain_load_blank (tok : Tokenizer) (st : PretrainDataset.Loader)
    (lines : list string) :
  Forall (blank strip) lines →
  PretrainDataset.load_lines strip tok (st, []) lines = Ok (st, []).
Proof.
  induction 1 as [|text lines Htext _ IH]; [done|]. simpl.
  unfold PretrainDataset._load_text. by rewrite blank_eqb.
Qed.

Lemma one_segment_load_blank (tok : Tokenizer) (max_pos : Z) (sentence_stack : bool)
    (docs : list (list Z)) (lines : list string) :
  Forall (blank strip) lines →
  foldl (OneSegmentDataset._load_text strip tok max_pos sentence_stack) (docs, []) lines
  = (docs, []).
Proof.
  induction 1 as [|text lines Htext _ IH]; [done|]. simpl.
  by rewrite blank_eqb.
Qed.

Lemma pretrain_init_documents (tok : Tokenizer) (max_pos : Z)
    (dataset_path : option string) (documents : list string) (on_mem : bool)
    (ds : PretrainDataset.t) :
  PretrainDataset.__init__ strip fs tok max_pos dataset_path documents on_mem = Ok ds →
  PretrainDataset.all_documents ds ≠ [].
Proof.
  intros H. destruct (init_spec strip fs _ _ _ _ _ _ H) as (_ & _ & Hn & Hpos & _).
  intros Hnil. rewrite Hnil in Hn. simpl in Hn. lia.
Qed.

Lemma pretrain_init_blank (tok : Tokenizer) (max_pos : Z)
    (dataset_path : option string) (documents : list string) (on_mem : bool) :
  Forall (blank strip) documents →
  (∀ path lines, dataset_path = Some path → text_lines fs path = Some lines →
                 Forall (blank strip) lines) →
  is_ok (PretrainDataset.__init__ strip fs tok max_pos dataset_path documents on_mem)
  = false.
Proof.
  intros Hdocs Hfile.
  destruct (PretrainDataset.__init__ _ _ _ _ _ _ _) as [ds|e] eqn:H; [|done].
  exfalso. unfold PretrainDataset.__init__ in H.
  apply result_bind_ok in H as ([] & _ & H).
  apply result_bind_ok in H as (pad & _ & H).
  apply result_bind_ok in H as (cls & _ & H).
  apply result_bind_ok in H as (sep & _ & H).
  apply result_bind_ok in H as (mask & _ & H).
  case_decide as Hmode.
  - apply result_bind_ok in H as (lines & Hlines & H).
    assert (Hblank : Forall (blank strip) lines).
    { destruct (decide (0 < length documents)%nat).
      - by injection Hlines as <-.
      - destruct dataset_path as [path|]; [|discriminate].
        destruct (text_lines fs path) as [lines'|] eqn:Hf; [|discriminate].
        injection Hlines as <-. by eapply Hfile. }
    rewrite (pretrain_load_blank _ _ _ Hblank) in H. simpl in H.
    by destruct dataset_path.
  - destruct dataset_path as [path|]; [|discriminate].
    apply result_bind_ok in H as (lines & _ & H).
    apply result_bind_ok in H as (n & Hscan & _).
    pose proof (lazy_scan_raises strip lines) as Hr. by rewrite Hscan in Hr.
Qed.

Lemma one_segment_init_documents (tok : Tokenizer) (max_pos : Z)
    (dataset_path : option string) (documents : list string) (sentence_stack : bool)
    (max_words_length : Z) (tp tp' : tape) (ds : OneSegmentDataset.t) :
  OneSegmentDataset.__init__ strip fs tok max_pos dataset_path documents
    sentence_stack None max_words_length tp = Ok (ds, tp') →
  OneSegmentDataset.all_documents ds ≠ [].
Proof.
  unfold OneSegmentDataset.__init__. intros H.
  apply rand_bind_ok in H as (pad & t1 & _ & H).
  apply rand_bind_ok in H as (cls & t2 & _ & H).
  apply rand_bind_ok in H as (sep & t3 & _ & H).
  apply rand_bind_ok in H as (mask & t4 & _ & H).
  apply rand_bind_ok in H as ([docs stack] & t5 & _ & H).
  case_decide as Hempty; [by destruct dataset_path|].
  apply rand_ret_ok in H as [<- _]. simpl.
  intros Hnil. rewrite Hnil in Hempty. done.
Qed.

Lemma one_segment_init_blank (tok : Tokenizer) (max_pos : Z)
    (dataset_path : option string) (documents : list string) (sentence_stack : bool)
    (max_words_length : Z) (tp : tape) :
  Forall (blank strip) documents →
  (∀ path lines, dataset_path = Some path → text_lines fs path = Some lines →
                 Forall (blank strip) lines) →
  is_ok (OneSegmentDataset.__init__ strip fs tok max_pos dataset_path documents
           sentence_stack None max_words_length tp) = false.
Proof.
  intros Hdocs Hfile.
  destruct (OneSegmentDataset.__init__ _ _ _ _ _ _ _ _ _ _) as [[ds tp']|e] eqn:H; [|done].
  exfalso. unfold OneSegmentDataset.__init__ in H.
  apply rand_bind_ok in H as (pad & t1 & _ & H).
  apply rand_bind_ok in H as (cls & t2 & _ & H).
  apply rand_bind_ok in H as (sep & t3 & _ & H).
  apply rand_bind_ok in H as (mask & t4 & _ & H).
  apply rand_bind_ok in H as ([docs stack] & t5 & Hload & H).
  assert (Hnone : docs = [] ∧ stack = []).
  { destruct (decide (0 < length documents)%nat).
    - apply rand_ret_ok in Hload as [Hload _].
      rewrite one_segment_load_blank in Hload by done. by injection Hload as <- <-.
    - destruct dataset_path as [path|].
      + apply rand_bind_ok in Hload as (lines & t6 & [Hopen _]%lift_ok & Hload).
        destruct (text_lines fs path) as [lines'|] eqn:Hf; [|discriminate].
        injection Hopen as <-.
        apply rand_ret_ok in Hload as [Hload _].
        rewrite one_segment_load_blank in Hload by (by eapply Hfile).
        by injection Hload as <- <-.
      + apply rand_ret_ok in Hload as [Hload _]. by injection Hload as <- <-. }
  destruct Hnone as [-> ->]. simpl in H. by destruct dataset_path.
Qed.

(** In memory, with the reserved tokens in the vocabulary and a readable
    source, the error of an all-blank source is the ValueError of the
    emptiness check. *)
Lemma pretrain_init_blank_ValueError (tok : Tokenizer) (max_pos : Z) (path : string)
    (documents lines : list string) (pad cls sep mask : Z) :
  reserved_id tok "[PAD]" = Ok pad → reserved_id tok "[CLS]" = Ok cls →
  reserved_id tok "[SEP]" = Ok sep → reserved_id tok "[MASK]" = Ok mask →
  Forall (blank strip) documents →
  text_lines fs path = Some lines → Forall (blank strip) lines →
  PretrainDataset.__init__ strip fs tok max_pos (Some path) documents true
  = Err ValueError.
Proof.
  intros Hp Hc Hs Hm Hdocs Hfile Hlines. unfold PretrainDataset.__init__.
  destruct (decide (Some path = None ∧ _)) as [[? _]|_]; [discriminate|].
  rewrite Hp, Hc, Hs, Hm. simpl.
  destruct (decide (_ ∨ true = true)) as [_|Hn]; [|by destruct Hn; right].
  destruct (decide (0 < length documents)%nat); simpl.
  - by rewrite pretrain_load_blank.
  - rewrite Hfile. simpl. by rewrite pretrain_load_blank.
Qed.

Lemma one_segment_init_blank_ValueError (tok : Tokenizer) (max_pos : Z) (path : string)
    (documents lines : list string) (sentence_stack : bool) (max_words_length : Z)
    (pad cls sep mask : Z) (tp : tape) :
  reserved_id tok "[PAD]" = Ok pad → reserved_id tok "[CLS]" = Ok cls →
  reserved_id tok "[SEP]" = Ok sep → reserved_id tok "[MASK]" = Ok mask →
  Forall (blank strip) documents →
  text_lines fs path = Some lines → Forall (blank strip) lines →
  OneSegmentDataset.__init__ strip fs tok max_pos (Some path) documents
    sentence_stack None max_words_length tp = Err ValueError.
Proof.
  intros Hp Hc Hs Hm Hdocs Hfile Hlines. unfold OneSegmentDataset.__init__.
  unfold mbind, rand_bind, lift. rewrite Hp, Hc, Hs, Hm.
  destruct (decide (0 < length documents)%nat); simpl.
  - by rewrite one_segment_load_blank.
  - rewrite Hfile. simpl. by rewrite one_segment_load_blank.
Qed.

(** C9 (as amended). Constructing either dataset from text (the documents
    argument or the lines of dataset_path) that yields zero Documents raises
    at construction: a PretrainDataset or a OneSegmentDataset that is
    returned always holds at least one document, and a source whose lines
    are all blank makes the constructor raise.  A source that yields
    documents but no usable sample is constructed without an error. *)
Theorem zero_documents_raise :
  (∀ tok max_pos dataset_path documents on_mem ds,
     PretrainDataset.__init__ strip fs tok max_pos dataset_path documents on_mem = Ok ds →
     PretrainDataset.all_documents ds ≠ []) ∧
  (∀ tok max_pos dataset_path documents on_mem,
     Forall (blank strip) documents →
     (∀ path lines, dataset_path = Some path → text_lines fs path = Some lines →
                    Forall (blank strip) lines) →
     is_ok (PretrainDataset.__init__ strip fs tok max_pos dataset_path documents on_mem)
     = false) ∧
  (∀ tok max_pos dataset_path documents sentence_stack max_words_length tp tp' ds,
     OneSegmentDataset.__init__ strip fs tok max_pos dataset_path documents
       sentence_stack None max_words_length tp = Ok (ds, tp') →
     OneSegmentDataset.all_documents ds ≠ []) ∧
  (∀ tok max_pos dataset_path documents sentence_stack max_words_length tp,
     Forall (blank strip) documents →
     (∀ path lines, dataset_path = Some path → text_lines fs path = Some lines →
                    Forall (blank strip) lines) →
     is_ok (OneSegmentDataset.__init__ strip fs tok max_pos dataset_path documents
              sentence_stack None max_words_length tp) = false).
Proof.
  split; [exact pretrain_init_documents|].
  split; [exact pretrain_init_blank|].
  split; [exact one_segment_init_documents|exact one_segment_init_blank].
Qed.

End EmptyCorpus.

Section EmptyCorpusExamples.

Import Fixture.

(** C9 on the corpus of two documents and on sources of blank lines. *)
Lemma zero_documents_raise_witness :
  PretrainDataset.all_documents pretrain ≠ [] ∧
  is_ok (PretrainDataset.__init__ strip no_files tokenizer 12 None [""; "  "]%string true)
  = false ∧
  (∃ ds tp',
     OneSegmentDataset.__init__ strip no_files tokenizer 8 None ["a"; "b"]%string
       true None 10 (tape_of []) = Ok (ds, tp') ∧
     OneSegmentDataset.all_documents ds ≠ []) ∧
  is_ok (OneSegmentDataset.__init__ strip no_files tokenizer 8 None [""; "  "]%string
           true None 10 (tape_of [])) = false.
Proof.
  pose proof (zero_documents_raise strip no_files) as (H1 & H2 & H3 & H4).
  assert (Hblank : Forall (blank strip) [""; "  "]%string)
    by (repeat constructor).
  split.
  { exact (H1 tokenizer 12 None corpus true pretrain ltac:(vm_compute; reflexivity)). }
  split.
  { apply (H2 tokenizer 12 None [""; "  "]%string true Hblank). discriminate. }
  split.
  { assert (Hinit : ∃ ds tp',
      OneSegmentDataset.__init__ strip no_files tokenizer 8 None ["a"; "b"]%string
        true None 10 (tape_of []) = Ok (ds, tp'))
      by (eexists _, _; vm_compute; reflexivity).
    destruct Hinit as (ds & tp' & Hinit).
    exists ds, tp'. split; [exact Hinit|]. exact (H3 _ _ _ _ _ _ _ _ _ Hinit). }
  apply (H4 tokenizer 8 None [""; "  "]%string true 10 (tape_of []) Hblank). discriminate.
Defined.

(** C9, counterexample: two documents of one line each give no usable
    sample (the sample table is empty and len(Corpus) is -1), and the
    PretrainDataset is constructed without an error; so is a
    OneSegmentDataset loaded from an empty pickled list. *)
Lemma zero_samples_is_constructed :
  (∃ ds,
     PretrainDataset.__init__ strip no_files tokenizer 12 None ["a"; ""; "b"]%string true
       = Ok ds ∧
     PretrainDataset.sample_to_doc ds = [] ∧
     PretrainDataset.__len__ ds = -1) ∧
  (∃ ds tp',
     OneSegmentDataset.__init__ strip empty_pickle tokenizer 8 None [] true
       (Some "empty"%string) 10 (tape_of []) = Ok (ds, tp') ∧
     OneSegmentDataset.all_documents ds = [] ∧
     OneSegmentDataset.__len__ ds = 0%nat).
Proof.
  split.
  - eexists. split; [vm_compute; reflexivity|]. split; reflexivity.
  - eexists _, _. split; [vm_compute; reflexivity|]. split; reflexivity.
Qed.

End EmptyCorpusExamples.

(** ** The epoch cache *)

Section EpochCache.

Import PreTensorPretrainDataset.

Lemma skip_spec (n : nat) (f f' : list batch) :
  skip n f = Ok f' → (n ≤ Datatypes.length f)%nat ∧ f' = drop n f.
Proof.
  revert f. induction n as [|n IH]; intros f H; simpl in H.
  - injection H as <-. split; [lia|done].
  - destruct f as [|r f]; [discriminate|]. simpl in H.
    apply IH in H as [Hn ->]. simpl. split; [lia|done].
Qed.

Lemma readable_spec (n : nat) (f : list batch) :
  readable n f = Nat.min n (Datatypes.length f).
Proof.
  revert f. induction n as [|n IH]; intros f; [done|].
  destruct f as [|r f]; [done|]. simpl. by rewrite IH.
Qed.

(** C10. A PreTensorPretrainDataset constructed with length L >= 0 and
    last_step k > 0 has consumed exactly the first k records of the cache
    file, and __len__ still returns L.  The file cursor stands after those
    k records, so what can still be read is the number of records of the
    file less k: when the file holds L records, L - k reads succeed and the
    next one meets the end of the file, however many reads are tried. *)
Theorem skipped_records_keep_length (fs : FileSystem batch) (path : string)
    (records : list batch) (L k : Z) (self : t) :
  0 ≤ L → 0 < k →
  pickled_records fs path = Some records →
  __init__ fs (Some path) L k = Ok self →
  __len__ self = L ∧
  records = take (Z.to_nat k) records ++ file self ∧
  Datatypes.length (take (Z.to_nat k) records) = Z.to_nat k ∧
  (Z.of_nat (Datatypes.length records) = L →
   ∀ n, Z.of_nat (readable n (file self)) = Z.min (Z.of_nat n) (L - k)) ∧
  (Z.of_nat (Datatypes.length records) = L →
   ∀ (self' : t) item,
     file self' = drop (Z.to_nat (L - k)) (file self) →
     __getitem__ self' item = Err EOFError).
Proof.
  intros HL Hk Hrec H. unfold __init__ in H.
  destruct (Z.ltb_spec L 0); [lia|].
  rewrite Hrec in H. simpl in H.
  destruct (Z.ltb_spec 0 k); [|lia].
  apply result_bind_ok in H as (f & Hskip & H). injection H as <-. simpl.
  apply skip_spec in Hskip as [Hn ->].
  split; [done|]. split; [by rewrite take_drop|].
  split; [rewrite length_take; lia|]. split.
  - intros Hlen n. rewrite readable_spec, length_drop. lia.
  - intros Hlen self' item Hfile. unfold __getitem__. rewrite Hfile.
    rewrite drop_drop, drop_ge by lia. done.
Qed.

End EpochCache.

Section EpochCacheExample.

Import Fixture PreTensorPretrainDataset.

(** C10 on a cache of five records resumed after two steps. *)
Lemma skipped_records_keep_length_witness :
  __init__ cache (Some "epoch_0.pickle"%string) 5 2 = Ok resumed ∧
  __len__ resumed = 5 ∧
  [record 10; record 11; record 12; record 13; record 14]
    = take (Z.to_nat 2) [record 10; record 11; record 12; record 13; record 14]
      ++ file resumed ∧
  Datatypes.length
    (take (Z.to_nat 2) [record 10; record 11; record 12; record 13; record 14])
    = Z.to_nat 2 ∧
  (∀ n, Z.of_nat (readable n (file resumed)) = Z.min (Z.of_nat n) (5 - 2)) ∧
  (∀ (self' : t) item,
     file self' = drop (Z.to_nat (5 - 2)) (file resumed) →
     __getitem__ self' item = Err EOFError).
Proof.
  assert (Hinit : __init__ cache (Some "epoch_0.pickle"%string) 5 2 = Ok resumed)
    by reflexivity.
  destruct (skipped_records_keep_length cache "epoch_0.pickle"
              [record 10; record 11; record 12; record 13; record 14] 5 2 resumed
              ltac:(lia) ltac:(lia) eq_refl Hinit) as (H1 & H2 & H3 & H4 & H5).
  split; [exact Hinit|]. split; [exact H1|]. split; [exact H2|]. split; [exact H3|].
  split; [exact (H4 eq_refl)|exact (H5 eq_refl)].
Defined.

End EpochCacheExample.

(** * Further properties *)

(** ** truncate_seq_pair: what is cut *)

Section TruncateMore.

Import Utils.

Lemma truncate_seq_pair_balance (a b : list Z) (L : Z) (a' b' : list Z) :
  truncate_seq_pair a b L = Ok (a', b') →
  Z.of_nat (length a' + length b') = Z.min (Z.of_nat (length a + length b)) L ∧
  (length a' < length a → length b' ≤ length a')%nat ∧
  (length b' < length b → length a' ≤ length b' + 1)%nat.
Proof.
  funelim (truncate_seq_pair a b L); clear Heqcall.
  - intros [= <- <-]. lia.
  - intros Hr. pose proof (truncate_seq_pair_sound _ _ _ _ _ Hr) as (Ha & Hb & _).
    apply prefix_length in Ha, Hb.
    destruct (H _ _ Hr) as (Hsum & Hcut_a & Hcut_b).
    unfold pop in *. rewrite length_take in *. lia.
  - discriminate.
  - intros Hr. pose proof (truncate_seq_pair_sound _ _ _ _ _ Hr) as (Ha & Hb & _).
    apply prefix_length in Ha, Hb.
    destruct (H _ _ Hr) as (Hsum & Hcut_a & Hcut_b).
    unfold pop in *. rewrite length_take in *. simpl in *. lia.
Qed.

(** X1. truncate_seq_pair removes no more than it has to and cuts the
    longer list: when it returns, the total length left is
    min(len(a) + len(b), L); if a was cut then b is not left longer than a,
    and if b was cut then a is left at most one token longer than b. *)
Theorem truncate_seq_pair_cuts_the_longer (a b : list Z) (L : Z) (a' b' : list Z) :
  truncate_seq_pair a b L = Ok (a', b') →
  Z.of_nat (length a') + Z.of_nat (length b')
    = Z.min (Z.of_nat (length a) + Z.of_nat (length b)) L ∧
  (a' ≠ a → length b' ≤ length a')%nat ∧
  (b' ≠ b → length a' ≤ length b' + 1)%nat.
Proof.
  intros Hr. pose proof (truncate_seq_pair_sound _ _ _ _ _ Hr) as (Ha & Hb & _).
  destruct (truncate_seq_pair_balance _ _ _ _ _ Hr) as (Hsum & Hcut_a & Hcut_b).
  split; [lia|]. split.
  - intros Hne. apply Hcut_a.
    destruct (decide (length a' = length a)) as [Heq|]; [|apply prefix_length in Ha; lia].
    destruct Hne. by apply prefix_length_eq; [|lia].
  - intros Hne. apply Hcut_b.
    destruct (decide (length b' = length b)) as [Heq|]; [|apply prefix_length in Hb; lia].
    destruct Hne. by apply prefix_length_eq; [|lia].
Qed.

(** X1 on the lists [1; 2; 3; 4; 5] and [6; 7] with L = 4. *)
Lemma truncate_seq_pair_cuts_the_longer_witness :
  ∃ a' b',
    truncate_seq_pair [1; 2; 3; 4; 5] [6; 7] 4 = Ok (a', b') ∧
    Z.of_nat (length a') + Z.of_nat (length b')
      = Z.min (Z.of_nat (length [1; 2; 3; 4; 5]) + Z.of_nat (length [6; 7])) 4 ∧
    (a' ≠ [1; 2; 3; 4; 5] → (length b' ≤ length a')%nat) ∧
    (b' ≠ [6; 7] → (length a' ≤ length b' + 1)%nat).
Proof.
  eexists _, _.
  assert (H : truncate_seq_pair [1; 2; 3; 4; 5] [6; 7] 4 = Ok (_, _))
    by (vm_compute; reflexivity).
  split; [exact H|]. exact (truncate_seq_pair_cuts_the_longer _ _ _ _ _ H).
Defined.

(** X2. With a negative max_length the loop can never stop: it empties both
    lists and the next [tokens_b.pop()] raises IndexError, for all lists. *)
Theorem truncate_seq_pair_negative_length (a b : list Z) (L : Z) :
  L < 0 → truncate_seq_pair a b L = Err IndexError.
Proof.
  intros HL. funelim (truncate_seq_pair a b L); clear Heqcall; [lia|auto..].
Qed.

Lemma truncate_seq_pair_negative_length_witness :
  truncate_seq_pair [1; 2; 3] [4] (-1) = Err IndexError.
Proof. apply (truncate_seq_pair_negative_length [1; 2; 3] [4] (-1)). lia. Defined.

End TruncateMore.

(** ** PretrainDataset: what the constructor stores *)

Section StoredLines.

Import PretrainDataset.

Context {R : Type}.
Variable strip : string → string.
Variable fs : FileSystem R.

Lemma nonblank_not_blank (text : string) : nonblank strip text ↔ ¬ blank strip text.
Proof.
  unfold nonblank, blank. destruct (String.eqb_spec (strip text) ""); split; congruence.
Qed.

Lemma load_text_stored (tok : Tokenizer) st st' (text : string) :
  well_stored st → _load_text strip tok st text = Ok st' →
  well_stored st' ∧
  stored_lines st' =
    stored_lines st ++ (if decide (nonblank strip text)
                        then [encode_line strip tok text] else []).
Proof.
  destruct st as [st doc]. unfold _load_text, well_stored, stored_lines.
  intros [Hdocs Hcount] H. simpl in *.
  destruct (String.eqb (strip text) "") eqn:Hblank.
  - rewrite decide_False by (unfold nonblank; congruence). rewrite app_nil_r.
    case_decide as Hdoc.
    + apply result_bind_ok in H as (st1 & Hclose & H). injection H as <-.
      unfold close_doc in Hclose.
      apply result_bind_ok in Hclose as (samples & _ & Hclose).
      injection Hclose as <-. simpl.
      rewrite concat_app. simpl. rewrite !app_nil_r.
      split; [split; [|done]|done].
      apply Forall_app. split; [done|]. apply Forall_singleton.
      intros ->. simpl in Hdoc. lia.
    + injection H as <-. done.
  - rewrite decide_True by done. injection H as <-. simpl.
    rewrite (assoc_L (++)). split; [split; [done|]|done].
    rewrite !length_app in *. simpl. lia.
Qed.

Lemma load_lines_stored (tok : Tokenizer) st st' (lines : list string) :
  well_stored st → load_lines strip tok st lines = Ok st' →
  well_stored st' ∧
  stored_lines st' =
    stored_lines st ++ (encode_line strip tok <$> filter (nonblank strip) lines).
Proof.
  revert st. induction lines as [|text lines IH]; intros st Hst H; simpl in H.
  - injection H as <-. by rewrite app_nil_r.
  - apply result_bind_ok in H as (st1 & H1 & H).
    destruct (load_text_stored tok st st1 text Hst H1) as [Hst1 Heq1].
    destruct (IH st1 Hst1 H) as [Hst' Heq]. split; [done|].
    rewrite Heq, Heq1, <- (assoc_L (++)). f_equal.
    rewrite filter_cons. by case_decide.
Qed.

(** The steps of a successful in-memory construction. *)
Lemma init_in_memory_inv (tok : Tokenizer) (max_pos : Z) (dataset_path : option string)
    (documents : list string) (on_mem : bool) (ds : t) :
  __init__ strip fs tok max_pos dataset_path documents on_mem = Ok ds →
  ∃ lines loader doc loader',
    source_lines fs dataset_path documents = Some lines ∧
    load_lines strip tok
      ({| l_all_documents := []; l_sample_to_doc := []; l_corpus_lines := 0 |}, [])
      lines = Ok (loader, doc) ∧
    (if decide (0 < length doc)%nat then close_doc loader doc else Ok loader)
      = Ok loader' ∧
    all_documents ds = l_all_documents loader' ∧
    corpus_lines ds = l_corpus_lines loader' ∧
    sample_to_doc ds = l_sample_to_doc loader' ∧
    tokenizer ds = tok ∧ on_memory ds = on_mem.
Proof.
  unfold __init__, source_lines. intros H.
  apply result_bind_ok in H as ([] & _ & H).
  apply result_bind_ok in H as (pad & _ & H).
  apply result_bind_ok in H as (cls & _ & H).
  apply result_bind_ok in H as (sep & _ & H).
  apply result_bind_ok in H as (mask & _ & H).
  case_decide as Hmode.
  - apply result_bind_ok in H as (lines & Hlines & H).
    apply result_bind_ok in H as ([loader doc] & Hload & H).
    apply result_bind_ok in H as (loader' & Hclose & H).
    case_decide as Hempty; [by destruct dataset_path|].
    injection H as <-. simpl.
    exists lines, loader, doc, loader'.
    split; [|done].
    destruct (decide (0 < length documents)%nat); [by injection Hlines as <-|].
    destruct dataset_path as [path|]; [|discriminate].
    by destruct (text_lines fs path); [injection Hlines as <-|].
  - exfalso. destruct dataset_path as [path|]; [|discriminate].
    apply result_bind_ok in H as (lines & _ & H).
    apply result_bind_ok in H as (n & Hscan & _).
    pose proof (lazy_scan_raises strip lines) as Hr. by rewrite Hscan in Hr.
Qed.

Lemma init_stored (tok : Tokenizer) (max_pos : Z)
    (dataset_path : option string) (documents lines : list string) (on_mem : bool)
    (ds : t) :
  __init__ strip fs tok max_pos dataset_path documents on_mem = Ok ds →
  source_lines fs dataset_path documents = Some lines →
  concat (all_documents ds) = encode_line strip tok <$> filter (nonblank strip) lines ∧
  corpus_lines ds = length (filter (nonblank strip) lines) ∧
  Forall (λ doc, doc ≠ []) (all_documents ds) ∧
  num_docs ds = length (all_documents ds).
Proof.
  intros Hinit Hsrc.
  destruct (init_spec strip fs _ _ _ _ _ _ Hinit) as (_ & _ & Hnum & _ & _).
  apply init_in_memory_inv in Hinit
    as (lines' & loader & doc & loader' & Hsrc' & Hload & Hclose & Hall & Hcl & _).
  rewrite Hall, Hcl in *.
  rewrite Hsrc in Hsrc'. injection Hsrc' as <-.
  apply load_lines_stored in Hload as [[Hdocs Hcount] Hstored].
  2: { split; [constructor|done]. }
  unfold stored_lines in *. simpl in *.
  assert (Hfinal : Forall (λ doc, doc ≠ []) (l_all_documents loader') ∧
                   concat (l_all_documents loader') = concat (l_all_documents loader) ++ doc ∧
                   l_corpus_lines loader' = l_corpus_lines loader).
  { destruct (decide (0 < length doc)%nat) as [Hdoc|Hdoc].
    - unfold close_doc in Hclose.
      apply result_bind_ok in Hclose as (samples & _ & Hclose).
      injection Hclose as <-. simpl. rewrite concat_app. simpl. rewrite app_nil_r.
      split; [|done]. apply Forall_app. split; [done|]. apply Forall_singleton.
      intros ->. simpl in Hdoc. lia.
    - injection Hclose as <-. destruct doc; [|simpl in Hdoc; lia].
      by rewrite app_nil_r. }
  destruct Hfinal as (Hne & Hconcat & Hlines).
  rewrite Hconcat, Hlines, Hcount, Hstored.
  by rewrite length_fmap.
Qed.

(** X3. A PretrainDataset keeps every non-blank line of its source exactly
    once and in order: the concatenation of its documents is the list of
    the encoded non-blank lines, corpus_lines is their number, no document
    is empty and num_docs is the number of documents. *)
Theorem init_keeps_every_line (tok : Tokenizer) (max_pos : Z)
    (dataset_path : option string) (documents lines : list string) (on_mem : bool)
    (ds : t) :
  __init__ strip fs tok max_pos dataset_path documents on_mem = Ok ds →
  source_lines fs dataset_path documents = Some lines →
  concat (all_documents ds) = encode_line strip tok <$> filter (nonblank strip) lines ∧
  corpus_lines ds = length (filter (nonblank strip) lines) ∧
  Forall (λ doc, doc ≠ []) (all_documents ds) ∧
  num_docs ds = length (all_documents ds).
Proof. apply init_stored. Qed.

(** X4. In memory, with the four reserved tokens in the vocabulary and a
    readable source, the constructor returns a dataset as soon as one line
    of the source is not blank: no [sample_to_doc.pop()] ever meets an
    empty table. *)
Theorem init_succeeds_on_nonblank (tok : Tokenizer) (max_pos : Z)
    (dataset_path : option string) (documents lines : list string) (on_mem : bool)
    (pad cls sep mask : Z) :
  reserved_id tok "[PAD]" = Ok pad → reserved_id tok "[CLS]" = Ok cls →
  reserved_id tok "[SEP]" = Ok sep → reserved_id tok "[MASK]" = Ok mask →
  (0 < length documents)%nat ∨ on_mem = true →
  source_lines fs dataset_path documents = Some lines →
  Exists (nonblank strip) lines →
  ∃ ds, __init__ strip fs tok max_pos dataset_path documents on_mem = Ok ds.
Proof.
  intros Hp Hc Hs Hm Hmode Hsrc Hline. unfold __init__.
  destruct (decide (dataset_path = None ∧ length documents = 0%nat)) as [[-> Hd]|_].
  { unfold source_lines in Hsrc. rewrite decide_False in Hsrc by lia. discriminate. }
  rewrite Hp, Hc, Hs, Hm. simpl.
  rewrite decide_True by done.
  assert (Hlines : (if decide (0 < length documents)%nat then Ok documents
                    else match dataset_path with
                         | Some path => open_file (text_lines fs path)
                         | None => Err TypeError
                         end) = Ok lines).
  { unfold source_lines in Hsrc. case_decide; [by injection Hsrc as ->|].
    destruct dataset_path; [|done]. by rewrite Hsrc. }
  rewrite Hlines. simpl.
  destruct (load_lines_loading strip tok
              ({| l_all_documents := []; l_sample_to_doc := []; l_corpus_lines := 0 |}, [])
              lines) as ([loader doc] & Hload & Hinv).
  { exists []. done. }
  rewrite Hload. simpl.
  apply load_lines_stored in Hload as [_ Hstored].
  2: { split; [constructor|done]. }
  unfold stored_lines in Hstored. simpl in Hstored.
  assert (Hsome : concat (l_all_documents loader) ++ doc ≠ []).
  { rewrite Hstored. apply Exists_exists in Hline as (text & Hin & Htext).
    intros Hnil%fmap_nil_inv.
    assert (Hmem : text ∈ filter (nonblank strip) lines)
      by (by apply list_elem_of_filter).
    rewrite Hnil in Hmem. by apply elem_of_nil in Hmem. }
  destruct (decide (0 < length doc)%nat) as [Hdoc|Hdoc].
  - destruct (close_doc_loading loader doc Hdoc Hinv) as (loader' & Hclose & _).
    rewrite Hclose. simpl.
    unfold close_doc in Hclose.
    apply result_bind_ok in Hclose as (samples & _ & Hclose). injection Hclose as <-.
    simpl. rewrite decide_False by (rewrite length_app; simpl; lia). eauto.
  - simpl. destruct doc; [|simpl in Hdoc; lia]. rewrite app_nil_r in Hsome.
    rewrite decide_False; [eauto|].
    destruct (l_all_documents loader); [done|simpl; lia].
Qed.

(** X5. The lazy mode can never be constructed: [self.num_docs] is only
    assigned on the in-memory branch, so counting the lines of the file
    raises for every file (AttributeError at the first blank line or after
    the loop, NameError on an empty file), and a missing file or missing
    reserved tokens raise before that. *)
Theorem lazy_mode_never_constructs (tok : Tokenizer) (max_pos : Z)
    (dataset_path : option string) :
  is_ok (__init__ strip fs tok max_pos dataset_path [] false) = false.
Proof.
  destruct (__init__ strip fs tok max_pos dataset_path [] false) as [ds|e] eqn:H; [|done].
  exfalso. unfold __init__ in H.
  apply result_bind_ok in H as ([] & _ & H).
  apply result_bind_ok in H as (pad & _ & H).
  apply result_bind_ok in H as (cls & _ & H).
  apply result_bind_ok in H as (sep & _ & H).
  apply result_bind_ok in H as (mask & _ & H).
  rewrite decide_False in H by (simpl; intros [?|?]; [lia|done]).
  destruct dataset_path as [path|]; [|discriminate].
  apply result_bind_ok in H as (lines & _ & H).
  apply result_bind_ok in H as (n & Hscan & _).
  pose proof (lazy_scan_raises strip lines) as Hr. by rewrite Hscan in Hr.
Qed.

End StoredLines.

Section StoredLinesExamples.

Import Fixture PretrainDataset.

(** X3 on the corpus of two documents of two lines. *)
Lemma init_keeps_every_line_witness :
  concat (all_documents pretrain)
    = encode_line strip Fixture.tokenizer <$> filter (nonblank strip) corpus ∧
  corpus_lines pretrain = length (filter (nonblank strip) corpus) ∧
  Forall (λ doc, doc ≠ []) (all_documents pretrain) ∧
  num_docs pretrain = length (all_documents pretrain).
Proof.
  apply (init_keeps_every_line strip no_files Fixture.tokenizer 12 None corpus corpus true
           pretrain); [vm_compute|]; reflexivity.
Defined.

(** X4 on the same corpus. *)
Lemma init_succeeds_on_nonblank_witness :
  ∃ ds, __init__ strip no_files Fixture.tokenizer 12 None corpus true = Ok ds.
Proof.
  apply (init_succeeds_on_nonblank strip no_files Fixture.tokenizer 12 None corpus corpus
           true 0 2 3 4); try reflexivity.
  - left. vm_compute. lia.
  - apply Exists_cons_hd. reflexivity.
Defined.

End StoredLinesExamples.

(** ** PretrainDataset: sampling sentence pairs *)

Section Sampling.

Import PretrainDataset.

Context {R : Type}.
Variable strip : string → string.
Variable fs : FileSystem R.

Lemma getitem_in_range {A} (l : list A) (i : Z) :
  0 ≤ i < Z.of_nat (length l) →
  ∃ a, Py.getitem l i = Ok a ∧ l !! Z.to_nat i = Some a.
Proof.
  intros Hi.
  destruct (lookup_lt_is_Some_2 l (Z.to_nat i)) as [a Ha]; [lia|].
  exists a. split; [|done].
  replace i with (Z.of_nat (Z.to_nat i)) by lia. by apply getitem_lookup.
Qed.

Lemma init_documents_nonempty (tok : Tokenizer) (max_pos : Z)
    (dataset_path : option string) (documents : list string) (on_mem : bool) (ds : t) :
  __init__ strip fs tok max_pos dataset_path documents on_mem = Ok ds →
  all_documents ds ≠ [] ∧ Forall (λ doc, doc ≠ []) (all_documents ds).
Proof.
  intros Hinit.
  destruct (init_spec strip fs _ _ _ _ _ _ Hinit) as (_ & _ & Hnum & Hpos & _).
  split; [intros Hnil; rewrite Hnil in Hnum; simpl in Hnum; lia|].
  destruct (init_in_memory_inv strip fs _ _ _ _ _ _ Hinit)
    as (lines & _ & _ & _ & Hsrc & _).
  by destruct (init_stored strip fs _ _ _ _ _ _ _ Hinit Hsrc) as (_ & _ & Hne & _).
Qed.

Lemma draw_random_line_returns (self : t) (tp : tape) :
  on_memory self = true → all_documents self ≠ [] →
  Forall (λ doc, doc ≠ []) (all_documents self) →
  ∃ line tp' doc,
    draw_random_line self tp = Ok (line, tp') ∧
    doc ∈ all_documents self ∧ line ∈ doc.
Proof.
  intros Hmem Hdocs Hne. unfold draw_random_line. rewrite Hmem.
  destruct (randrange_returns (Z.of_nat (length (all_documents self))) tp)
    as (i & tp1 & Hi).
  { destruct (all_documents self); [done|simpl; lia]. }
  pose proof (randrange_ok _ _ _ _ Hi) as Hrange.
  destruct (getitem_in_range (all_documents self) i Hrange) as (doc & Hget & Hdoc).
  assert (Hin : doc ∈ all_documents self) by (by eapply list_elem_of_lookup_2).
  rewrite Forall_forall in Hne. specialize (Hne doc Hin).
  destruct (randrange_returns (Z.of_nat (length doc)) tp1) as (j & tp2 & Hj).
  { destruct doc; [done|simpl; lia]. }
  pose proof (randrange_ok _ _ _ _ Hj) as Hrange'.
  destruct (getitem_in_range doc j Hrange') as (line & Hget' & Hline).
  exists line, tp2, doc.
  split; [|split; [done|by eapply list_elem_of_lookup_2]].
  unfold mbind, rand_bind, lift. rewrite Hi, Hget, Hj, Hget'. done.
Qed.

Lemma random_line_loop_returns (self : t) (more : nat) (tp : tape) :
  on_memory self = true → all_documents self ≠ [] →
  Forall (λ doc, doc ≠ []) (all_documents self) →
  ∃ line tp' doc,
    random_line_loop self more tp = Ok (line, tp') ∧
    doc ∈ all_documents self ∧ line ∈ doc.
Proof.
  intros Hmem Hdocs Hne. revert tp.
  induction more as [|more IH]; intros tp; simpl;
    destruct (draw_random_line_returns self tp Hmem Hdocs Hne)
      as (line & tp1 & doc & Hdraw & Hdoc & Hline);
    unfold mbind, rand_bind; rewrite Hdraw; case_decide; eauto 10.
Qed.

Lemma get_corpus_line_served (tok : Tokenizer) (max_pos : Z)
    (dataset_path : option string) (documents : list string) (ds : t) (item : Z) :
  __init__ strip fs tok max_pos dataset_path documents true = Ok ds →
  0 ≤ item ≤ __len__ ds →
  ∃ s doc t1 t2 ds',
    sample_to_doc ds !! Z.to_nat item = Some s ∧
    all_documents ds !! doc_id s = Some doc ∧
    doc !! line s = Some t1 ∧ doc !! S (line s) = Some t2 ∧
    get_corpus_line ds item = Ok (t1, t2, ds') ∧
    current_doc ds' = doc_id s ∧
    all_documents ds' = all_documents ds ∧ on_memory ds' = true.
Proof.
  intros Hinit Hitem.
  destruct (init_spec strip fs _ _ _ _ _ _ Hinit) as (Hmem & _ & Hnum & Hpos & Hcount).
  pose proof (init_samples_ok strip fs _ _ _ _ _ _ Hinit) as Hok.
  unfold __len__ in Hitem.
  destruct (lookup_lt_is_Some_2 (sample_to_doc ds) (Z.to_nat item)) as [s Hs]; [lia|].
  rewrite Forall_forall in Hok.
  destruct (Hok s) as (doc & Hdoc & Hline); [by eapply list_elem_of_lookup_2|].
  destruct (lookup_lt_is_Some_2 doc (line s)) as [t1 Ht1]; [lia|].
  destruct (lookup_lt_is_Some_2 doc (S (line s))) as [t2 Ht2]; [lia|].
  exists s, doc, t1, t2. eexists.
  do 4 (split; [done|]).
  unfold get_corpus_line.
  destruct (Z.ltb_spec item (Z.of_nat (corpus_lines ds))); [|lia].
  simpl. rewrite Hmem.
  replace item with (Z.of_nat (Z.to_nat item)) at 1 by lia.
  rewrite (getitem_lookup _ _ _ Hs). simpl.
  rewrite (getitem_lookup _ _ _ Hdoc). simpl.
  rewrite (getitem_lookup _ _ _ Ht1). simpl.
  replace (Z.of_nat (line s) + 1) with (Z.of_nat (S (line s))) by lia.
  rewrite (getitem_lookup _ _ _ Ht2). simpl. done.
Qed.

(** X6. On a dataset built in memory the negative draw never raises, and
    the line it returns is a line of some document of the corpus; this
    holds after any number of lookups, which change current_doc only. *)
Theorem get_random_line_returns_a_corpus_line (tok : Tokenizer) (max_pos : Z)
    (dataset_path : option string) (documents : list string) (ds self : t) (tp : tape) :
  __init__ strip fs tok max_pos dataset_path documents true = Ok ds →
  all_documents self = all_documents ds → on_memory self = true →
  ∃ line tp' doc,
    get_random_line self tp = Ok (line, tp') ∧
    doc ∈ all_documents ds ∧ line ∈ doc.
Proof.
  intros Hinit Hsame Hmem.
  destruct (init_documents_nonempty _ _ _ _ _ _ Hinit) as [Hdocs Hne].
  rewrite <- Hsame in *. by apply random_line_loop_returns.
Qed.

(** X7. On a dataset built in memory, random_sent returns for every sample
    ordinal from 0 to len(Corpus): the first sentence is the line of the
    sample, current_doc becomes its document, and either the label is 0
    and the second sentence is the next line of that document, or the
    label is 1 and the second sentence is some line of the corpus. *)
Theorem random_sent_pair (tok : Tokenizer) (max_pos : Z)
    (dataset_path : option string) (documents : list string) (ds : t) (index : Z)
    (tp : tape) :
  __init__ strip fs tok max_pos dataset_path documents true = Ok ds →
  0 ≤ index ≤ __len__ ds →
  ∃ s doc t1 t2 label self' tp',
    random_sent ds index tp = Ok (t1, t2, label, self', tp') ∧
    sample_to_doc ds !! Z.to_nat index = Some s ∧
    all_documents ds !! doc_id s = Some doc ∧
    doc !! line s = Some t1 ∧
    current_doc self' = doc_id s ∧
    ((label = 0 ∧ doc !! S (line s) = Some t2) ∨
     (label = 1 ∧ ∃ doc', doc' ∈ all_documents ds ∧ t2 ∈ doc')).
Proof.
  intros Hinit Hindex.
  destruct (get_corpus_line_served _ _ _ _ _ _ Hinit Hindex)
    as (s & doc & t1 & t2 & ds' & Hs & Hdoc & Ht1 & Ht2 & Hget & Hcur & Hsame & Hmem).
  destruct (init_documents_nonempty _ _ _ _ _ _ Hinit) as [Hdocs Hne].
  unfold random_sent, mbind, rand_bind, lift. rewrite Hget.
  destruct (random_ok tp) as (r & tp1 & Hr). rewrite Hr.
  destruct (Random.gt_0_5 r).
  - exists s, doc, t1, t2, 0, ds', tp1. unfold mret, rand_ret.
    do 5 (split; [done|]). by left.
  - destruct (random_line_loop_returns ds' 9 tp1) as (line & tp2 & doc' & Hline & Hin & Hl).
    { done. } { by rewrite Hsame. } { by rewrite Hsame. }
    unfold get_random_line. rewrite Hline.
    exists s, doc, t1, line, 1, ds', tp2. unfold mret, rand_ret.
    do 5 (split; [done|]). right. split; [done|]. exists doc'. by rewrite <- Hsame.
Qed.

End Sampling.

Section SamplingExamples.

Import Fixture PretrainDataset.

(** X6 on the corpus of two documents of two lines. *)
Lemma get_random_line_returns_a_corpus_line_witness :
  ∃ line tp' doc,
    get_random_line pretrain (tape_of [1; 0]) = Ok (line, tp') ∧
    doc ∈ all_documents pretrain ∧ line ∈ doc.
Proof.
  apply (get_random_line_returns_a_corpus_line strip no_files Fixture.tokenizer 12 None
           corpus pretrain pretrain (tape_of [1; 0])).
  - vm_compute. reflexivity.
  - reflexivity.
  - reflexivity.
Defined.

(** X7 on the same corpus, for the sample ordinal 1. *)
Lemma random_sent_pair_witness :
  ∃ s doc t1 t2 label self' tp',
    random_sent pretrain 1 (tape_of [high]) = Ok (t1, t2, label, self', tp') ∧
    sample_to_doc pretrain !! Z.to_nat 1 = Some s ∧
    all_documents pretrain !! doc_id s = Some doc ∧
    doc !! line s = Some t1 ∧
    current_doc self' = doc_id s ∧
    ((label = 0 ∧ doc !! S (line s) = Some t2) ∨
     (label = 1 ∧ ∃ doc', doc' ∈ all_documents pretrain ∧ t2 ∈ doc')).
Proof.
  apply (random_sent_pair strip no_files Fixture.tokenizer 12 None corpus pretrain 1
           (tape_of [high])).
  - vm_compute. reflexivity.
  - vm_compute. split; discriminate.
Defined.

End SamplingExamples.

(** ** Masking leaves the special tokens and the padding alone *)

Section SpecialTokens.

Lemma positions_spec {A} (p : A → bool) (l : list A) (i : nat) :
  i ∈ Py.positions p l ↔ ∃ x, l !! i = Some x ∧ p x = true.
Proof.
  unfold Py.positions. rewrite list_elem_of_fmap. split.
  - intros ([j x] & -> & [Hp Hin]%list_elem_of_filter). simpl in *.
    apply elem_of_lookup_imap_1 in Hin as (k & y & [= -> ->] & Hk). eauto.
  - intros (x & Hx & Hp). exists (i, x). split; [done|].
    apply list_elem_of_filter. split; [done|].
    by apply (elem_of_lookup_imap_2 (λ i x, (i, x))).
Qed.

Lemma mask_candidate_pos_spec (cls sep : Z) (tokens : list Z) (i : nat) :
  i ∈ mask_candidate_pos cls sep tokens ↔
  ∃ token, tokens !! i = Some token ∧ token ≠ cls ∧ token ≠ sep.
Proof.
  unfold mask_candidate_pos. rewrite positions_spec.
  split; intros (token & Hi & H); exists token; (split; [done|]).
  - unfold not_special in H. apply andb_true_iff in H as [Hc Hs].
    apply negb_true_iff in Hc, Hs. by apply Z.eqb_neq in Hc, Hs.
  - destruct H as [Hc Hs]. unfold not_special.
    apply Z.eqb_neq in Hc, Hs. by rewrite Hc, Hs.
Qed.

Lemma slices_subset {A} (sizes : list nat) (ary chunk : list A) (x : A) :
  chunk ∈ Py.slices sizes ary → x ∈ chunk → x ∈ ary.
Proof.
  revert ary. induction sizes as [|n sizes IH]; intros ary Hc Hx; simpl in Hc.
  - by apply elem_of_nil in Hc.
  - apply elem_of_cons in Hc as [->|Hc].
    + by apply (subseteq_take n ary).
    + apply (subseteq_drop n ary). by apply IH.
Qed.

Lemma array_split_subset {A} (ary : list A) (n : Z) (chunks : list (list A))
    (chunk : list A) (x : A) :
  Py.array_split ary n = Ok chunks → chunk ∈ chunks → x ∈ chunk → x ∈ ary.
Proof.
  unfold Py.array_split. destruct (n <=? 0); [discriminate|].
  intros [= <-]. apply slices_subset.
Qed.

Lemma mask_words_selected (self : OneSegmentDataset.t) (mp : nat) (words : list nat)
    st st' (t t' : tape) (i : nat) :
  OneSegmentDataset.mask_words self mp words st t = Ok (st', t') →
  i ∈ st'.2 → i ∈ st.2 ∨ i ∈ words.
Proof.
  revert st t. induction words as [|pos words IH]; intros [[tokens masked] sel] t H Hi;
    simpl in H.
  - apply rand_ret_ok in H as [<- _]. by left.
  - apply rand_bind_ok in H as (tk & t1 & Hs & H).
    case_decide.
    + apply rand_ret_ok in H as [<- _]. simpl in Hi.
      apply elem_of_app in Hi as [Hi|Hi%list_elem_of_singleton]; [by left|].
      right. subst. by left.
    + destruct (IH _ _ H Hi) as [Hi'|Hi']; simpl in *.
      * apply elem_of_app in Hi' as [Hi'|Hi'%list_elem_of_singleton]; [by left|].
        right. subst. by left.
      * right. by right.
Qed.

Lemma mask_chunks_selected (self : OneSegmentDataset.t) (mp : nat)
    (chunks : list (list nat)) st st' (t t' : tape) (i : nat) :
  OneSegmentDataset.mask_chunks self mp chunks st t = Ok (st', t') →
  i ∈ st'.2 → i ∈ st.2 ∨ ∃ words, words ∈ chunks ∧ i ∈ words.
Proof.
  revert st t. induction chunks as [|words chunks IH]; intros st t H Hi; simpl in H.
  - apply rand_ret_ok in H as [<- _]. by left.
  - apply rand_bind_ok in H as (st1 & t1 & Hw & H).
    assert (Hone : ∀ i, i ∈ st1.2 → i ∈ st.2 ∨ ∃ w, w ∈ words :: chunks ∧ i ∈ w).
    { intros j Hj. destruct (mask_words_selected _ _ _ _ _ _ _ _ Hw Hj) as [?|?];
        [by left|right]. exists words. split; [by left|done]. }
    case_decide.
    + apply rand_ret_ok in H as [<- _]. by apply Hone.
    + destruct (IH _ _ H Hi) as [Hi'|(w & Hw' & Hi')]; [by apply Hone|].
      right. exists w. split; [by right|done].
Qed.

(** The positions visited by the span masking are candidate positions. *)
Lemma one_segment_selected_candidates (self : OneSegmentDataset.t) (tokens_a : list Z)
    (max_pos : Z) (tp tp' : tape) (f : Feature) (tr : Trace) (i : nat) :
  OneSegmentDataset.convert_example_to_features_trace self tokens_a max_pos tp
    = Ok (f, tr, tp') →
  i ∈ tr_selected tr →
  i ∈ mask_candidate_pos (OneSegmentDataset.cls_id self) (OneSegmentDataset.sep_id self)
        (tr_tokens tr).
Proof.
  unfold OneSegmentDataset.convert_example_to_features_trace. intros H Hi.
  apply rand_bind_ok in H as (r & t1 & _ & H).
  apply rand_bind_ok in H as (target & t2 & _ & H).
  apply rand_bind_ok in H as ([a' b'] & t3 & _ & H).
  apply rand_bind_ok in H as (g & t4 & _ & H).
  apply rand_bind_ok in H as ([[masked count] sel] & t5 & Hm & H).
  apply rand_ret_ok in H as [H _].
  injection H as <- <-. cbn [fst snd tr_tokens tr_selected] in *.
  destruct (0 <? _).
  - apply rand_bind_ok in Hm as (chunks & t6 & [Hsplit _]%lift_ok & Hm).
    apply rand_bind_ok in Hm as (chunks' & t7 & Hsh%shuffle_ok & Hm).
    destruct (mask_chunks_selected _ _ _ _ _ _ _ _ Hm Hi) as [Hnil|(w & Hw & Hiw)].
    { by apply elem_of_nil in Hnil. }
    rewrite Hsh in Hw. by eapply array_split_subset.
  - apply rand_ret_ok in Hm as [Hm _]. injection Hm as <- <- <-.
    by apply elem_of_nil in Hi.
Qed.

Lemma pad_to_lookup_ge {A} (l : list A) (x : A) (max_pos : Z) (i : nat) :
  (length l ≤ i)%nat → Z.of_nat i < max_pos →
  pad_to l x (max_pos - Z.of_nat (length l)) !! i = Some x.
Proof.
  intros Hi Hmax. unfold pad_to. rewrite lookup_app_r by done.
  apply lookup_replicate_2. lia.
Qed.

(** X8. PretrainDataset: the masking step never changes a position that
    holds CLS or SEP, and it leaves the padding alone: wherever label_ids
    is CLS or SEP, input_ids is the same, and every position after the
    tokens holds PAD in input_ids. *)
Theorem pretrain_masking_spares_special_tokens (self : PretrainDataset.t)
    (tokens_a tokens_b : list Z) (is_next_label max_pos : Z) (tp tp' : tape)
    (f : Feature) (tr : Trace) :
  PretrainDataset.convert_example_to_features_trace self tokens_a tokens_b
    is_next_label max_pos tp = Ok (f, tr, tp') →
  (∀ i, tr_tokens tr !! i = Some (PretrainDataset.cls_id self) ∨
        tr_tokens tr !! i = Some (PretrainDataset.sep_id self) →
        input_ids f !! i = tr_tokens tr !! i) ∧
  (∀ i, (length (tr_tokens tr) ≤ i)%nat → Z.of_nat i < max_pos →
        input_ids f !! i = Some (PretrainDataset.pad_id self)) ∧
  input_ids f !! 0%nat = Some (PretrainDataset.cls_id self).
Proof.
  intros H.
  apply convert_example_to_features_trace_inv in H
    as (target & a & b & sh & masked & _ & _ & Htok & Hsh & Hsel & Hlen & Hother & ->).
  cbn [input_ids].
  assert (Hspecial : ∀ i, tr_tokens tr !! i = Some (PretrainDataset.cls_id self) ∨
                          tr_tokens tr !! i = Some (PretrainDataset.sep_id self) →
                          i ∉ tr_selected tr).
  { intros i Hi Hin. rewrite Hsel in Hin. apply subseteq_take in Hin.
    rewrite Hsh in Hin. apply mask_candidate_pos_spec in Hin as (token & Ht & Hc & Hs).
    rewrite Ht in Hi. destruct Hi as [[= ->]|[= ->]]; done. }
  assert (Hkeep : ∀ i, tr_tokens tr !! i = Some (PretrainDataset.cls_id self) ∨
                       tr_tokens tr !! i = Some (PretrainDataset.sep_id self) →
                       pad_to masked (PretrainDataset.pad_id self)
                         (max_pos - Z.of_nat (length (tr_tokens tr))) !! i
                       = tr_tokens tr !! i).
  { intros i Hi.
    assert (Hlt : (i < length (tr_tokens tr))%nat).
    { destruct Hi as [Hi|Hi]; by apply lookup_lt_Some in Hi. }
    rewrite pad_to_lookup by lia. by apply Hother, Hspecial. }
  split; [done|]. split.
  - intros i Hi Hmax. rewrite <- Hlen. apply pad_to_lookup_ge; lia.
  - rewrite Hkeep; rewrite Htok; [done|by left].
Qed.

(** X9. OneSegmentDataset: the span masking never changes a position that
    holds CLS or SEP (also when the document itself contains these ids)
    and leaves the padding alone; input_ids always starts with CLS. *)
Theorem one_segment_masking_spares_special_tokens (self : OneSegmentDataset.t)
    (tokens_a : list Z) (max_pos : Z) (tp tp' : tape) (f : Feature) (tr : Trace) :
  OneSegmentDataset.convert_example_to_features_trace self tokens_a max_pos tp
    = Ok (f, tr, tp') →
  (∀ i, tr_tokens tr !! i = Some (OneSegmentDataset.cls_id self) ∨
        tr_tokens tr !! i = Some (OneSegmentDataset.sep_id self) →
        input_ids f !! i = tr_tokens tr !! i) ∧
  (∀ i, (length (tr_tokens tr) ≤ i)%nat → Z.of_nat i < max_pos →
        input_ids f !! i = Some (OneSegmentDataset.pad_id self)) ∧
  input_ids f !! 0%nat = Some (OneSegmentDataset.cls_id self).
Proof.
  intros H.
  assert (Hcand := λ i, one_segment_selected_candidates _ _ _ _ _ _ _ i H).
  apply one_segment_trace_inv in H
    as (target & a & b & masked & _ & _ & Htok & _ & Hlen & Hother & ->).
  cbn [input_ids].
  assert (Hspecial : ∀ i, tr_tokens tr !! i = Some (OneSegmentDataset.cls_id self) ∨
                          tr_tokens tr !! i = Some (OneSegmentDataset.sep_id self) →
                          i ∉ tr_selected tr).
  { intros i Hi Hin. apply Hcand in Hin.
    apply mask_candidate_pos_spec in Hin as (token & Ht & Hc & Hs).
    rewrite Ht in Hi. destruct Hi as [[= ->]|[= ->]]; done. }
  assert (Hkeep : ∀ i, tr_tokens tr !! i = Some (OneSegmentDataset.cls_id self) ∨
                       tr_tokens tr !! i = Some (OneSegmentDataset.sep_id self) →
                       pad_to masked (OneSegmentDataset.pad_id self)
                         (max_pos - Z.of_nat (length (tr_tokens tr))) !! i
                       = tr_tokens tr !! i).
  { intros i Hi.
    assert (Hlt : (i < length (tr_tokens tr))%nat).
    { destruct Hi as [Hi|Hi]; by apply lookup_lt_Some in Hi. }
    rewrite pad_to_lookup by lia. by apply Hother, Hspecial. }
  split; [done|]. split.
  - intros i Hi Hmax. rewrite <- Hlen. apply pad_to_lookup_ge; lia.
  - rewrite Hkeep; rewrite Htok; [done|by left].
Qed.

End SpecialTokens.

(** ** When the conversion to features returns *)

Lemma returns_bind {A B} (P : A → Prop) (Q : B → Prop) (m : Rand A) (f : A → Rand B)
    (tp : tape) :
  returns P m tp → (∀ a tp1, P a → returns Q (f a) tp1) → returns Q (m ≫= f) tp.
Proof.
  intros (a & tp1 & Hm & Ha) Hf. unfold returns, mbind, rand_bind. rewrite Hm.
  by apply Hf.
Qed.

Lemma returns_ret {A} (P : A → Prop) (a : A) (tp : tape) :
  P a → returns P (mret a) tp.
Proof. intros Ha. by exists a, tp. Qed.

Lemma returns_is_ok {A} (P : A → Prop) (m : Rand A) (tp : tape) :
  returns P m tp → is_ok (m tp) = true.
Proof. by intros (a & tp1 & -> & _). Qed.

Section ConversionReturns.

Variable tok : Tokenizer.
Variable mask_id : Z.
Hypothesis random_token_returns : ∀ tp, is_ok (get_random_token_id tok tp) = true.

Lemma substitute_returns (tokens : list Z) (pos : nat) (tp : tape) :
  (pos < length tokens)%nat →
  ∃ tokens' tp', substitute tok mask_id tokens pos tp = Ok (tokens', tp').
Proof.
  intros Hpos. unfold substitute, mbind, rand_bind, lift, Py.setitem.
  destruct (random_ok tp) as (r & tp1 & ->).
  destruct (Random.lt_0_8 r); [rewrite decide_True by done; eauto|].
  destruct (random_ok tp1) as (r' & tp2 & ->).
  destruct (Random.lt_0_5 r'); [|unfold mret, rand_ret; eauto].
  specialize (random_token_returns tp2).
  destruct (get_random_token_id tok tp2) as [[id tp3]|]; [|done].
  rewrite decide_True by done. eauto.
Qed.

End ConversionReturns.

Section PretrainReturns.

Import PretrainDataset.

Variable self : t.
Hypothesis random_token_returns :
  ∀ tp, is_ok (get_random_token_id (tokenizer self) tp) = true.

Lemma mask_positions_returns (selected : list nat) (tokens : list Z) (tp : tape) :
  Forall (λ pos, pos < length tokens)%nat selected →
  ∃ tokens' tp', mask_positions self selected tokens tp = Ok (tokens', tp').
Proof.
  revert tokens tp. induction selected as [|pos sel IH]; intros tokens tp Hsel; simpl.
  - unfold mret, rand_ret. eauto.
  - apply Forall_cons in Hsel as [Hpos Hsel].
    destruct (substitute_returns _ (mask_id self) random_token_returns tokens pos tp Hpos)
      as (tokens1 & tp1 & Hs).
    unfold mbind, rand_bind. rewrite Hs. apply IH.
    by rewrite (substitute_length _ _ _ _ _ _ _ Hs).
Qed.

Lemma short_target_returns (r target : Z) (tp : tape) :
  2 ≤ target →
  returns (λ target', 0 ≤ target')
    (if Random.lt_0_1 r then Random.randint 2 target else mret target) tp.
Proof.
  intros Ht. unfold returns. destruct (Random.lt_0_1 r).
  - unfold Random.randint. destruct (Z.ltb_spec target 2); [lia|].
    unfold draw, mbind, rand_bind, mret, rand_ret. eexists _, _.
    split; [done|].
    pose proof (Z.mod_pos_bound (tp 0%nat) (target - 2 + 1)). lia.
  - exists target, tp. unfold mret, rand_ret. split; [done|lia].
Qed.

End PretrainReturns.

(** The conversion of PretrainDataset returns once the target length is at
    least 2. *)
Lemma pretrain_convert_total (self : PretrainDataset.t) (tokens_a tokens_b : list Z)
    (is_next_label max_pos : Z) (tp : tape) :
  (∀ tp, is_ok (get_random_token_id (PretrainDataset.tokenizer self) tp) = true) →
  2 ≤ (if decide (tokens_b ≠ []) then max_pos - 3 else max_pos - 2) →
  returns (λ _, True)
    (PretrainDataset.convert_example_to_features self tokens_a tokens_b
       is_next_label max_pos) tp.
Proof.
  intros Hrandom Htarget.
  unfold PretrainDataset.convert_example_to_features,
    PretrainDataset.convert_example_to_features_trace.
  apply (returns_bind (λ _, True)); [|by intros; apply returns_ret].
  apply (returns_bind (λ _, True)).
  { destruct (random_ok tp) as (r & tp1 & Hr). by exists r, tp1. }
  intros r tp1 _.
  apply (returns_bind (λ target, 0 ≤ target)).
  { by apply short_target_returns. }
  intros target tp2 Hpos.
  apply (returns_bind (λ _, True)).
  { pose proof (truncate_seq_pair_returns tokens_a tokens_b target Hpos) as Htr.
    destruct (Utils.truncate_seq_pair tokens_a tokens_b target) as [ab|]; [|done].
    exists ab, tp2. done. }
  intros [a b] tp3 _. cbn [fst snd].
  match goal with
  | |- context [mask_candidate_pos _ _ ?l] => set (tokens := l)
  end.
  apply (returns_bind
           (λ sh, sh ≡ₚ mask_candidate_pos (PretrainDataset.cls_id self)
                          (PretrainDataset.sep_id self) tokens)).
  { destruct (shuffle_spec
                (mask_candidate_pos (PretrainDataset.cls_id self)
                   (PretrainDataset.sep_id self) tokens) tp3)
      as (sh & tp4 & Hsh & Hperm). by exists sh, tp4. }
  intros sh tp4 Hperm.
  apply (returns_bind (λ _, True)); [|by intros; apply returns_ret].
  destruct (mask_positions_returns self Hrandom
              (Py.slice_to sh (Py.round_times_0_15 (length tokens))) tokens tp4)
    as (masked & tp5 & Hm); [|by exists masked, tp5].
  apply Forall_forall. intros i Hi. apply subseteq_take in Hi.
  rewrite Hperm in Hi. apply mask_candidate_pos_spec in Hi as (token & Hi & _).
  by apply lookup_lt_Some in Hi.
Qed.


(** X10. PretrainDataset.convert_example_to_features returns for every
    random draw once max_pos leaves a target length of at least 2 (max_pos
    >= 5 with a second segment, max_pos >= 4 without) and the tokenizer's
    get_random_token_id does not raise. *)
Theorem pretrain_convert_returns (self : PretrainDataset.t) (tokens_a tokens_b : list Z)
    (is_next_label max_pos : Z) (tp : tape) :
  (∀ tp, is_ok (get_random_token_id (PretrainDataset.tokenizer self) tp) = true) →
  2 ≤ (if decide (tokens_b ≠ []) then max_pos - 3 else max_pos - 2) →
  is_ok (PretrainDataset.convert_example_to_features self tokens_a tokens_b
           is_next_label max_pos tp) = true.
Proof.
  intros Hrandom Htarget.
  by apply (returns_is_ok (λ _, True)), pretrain_convert_total.
Qed.

(** X11. With a target length below 2 the short-sequence branch cannot draw
    a length: on every tape whose first draw makes random() < 0.1, the
    conversion raises the ValueError of randint(2, target). *)
Theorem pretrain_convert_short_raises (self : PretrainDataset.t)
    (tokens_a tokens_b : list Z) (is_next_label max_pos : Z) (tp : tape) :
  (if decide (tokens_b ≠ []) then max_pos - 3 else max_pos - 2) < 2 →
  Random.lt_0_1 (tp 0%nat mod 2 ^ 53) = true →
  PretrainDataset.convert_example_to_features self tokens_a tokens_b
    is_next_label max_pos tp = Err ValueError.
Proof.
  intros Htarget Hdraw.
  unfold PretrainDataset.convert_example_to_features,
    PretrainDataset.convert_example_to_features_trace.
  unfold mbind at 1 2 3. unfold rand_bind at 1 2 3.
  unfold Random.random, draw. unfold mbind at 1. unfold rand_bind at 1.
  unfold mret at 1. unfold rand_ret at 1.
  rewrite Hdraw. unfold mbind at 1. unfold rand_bind at 1.
  unfold Random.randint.
  destruct (Z.ltb_spec (if decide (tokens_b ≠ []) then max_pos - 3 else max_pos - 2) 2);
    [done|lia].
Qed.

Section OneSegmentReturns.

Import OneSegmentDataset.

Variable self : t.
Hypothesis random_token_returns :
  ∀ tp, is_ok (get_random_token_id (tokenizer self) tp) = true.

Lemma mask_words_returns (mp : nat) (words : list nat) st (tp : tape) :
  Forall (λ pos, pos < length st.1.1)%nat words →
  ∃ st' tp', mask_words self mp words st tp = Ok (st', tp').
Proof.
  revert st tp. induction words as [|pos words IH]; intros [[tokens masked] sel] tp Hw;
    simpl in *.
  - unfold mret, rand_ret. eauto.
  - apply Forall_cons in Hw as [Hpos Hw].
    destruct (substitute_returns _ (mask_id self) random_token_returns tokens pos tp Hpos)
      as (tokens1 & tp1 & Hs).
    unfold mbind, rand_bind. rewrite Hs. case_decide.
    + unfold mret, rand_ret. eauto.
    + apply IH. simpl. by rewrite (substitute_length _ _ _ _ _ _ _ Hs).
Qed.

Lemma mask_chunks_returns (mp : nat) (chunks : list (list nat)) st (tp : tape) :
  Forall (Forall (λ pos, pos < length st.1.1)%nat) chunks →
  ∃ st' tp', mask_chunks self mp chunks st tp = Ok (st', tp').
Proof.
  revert st tp. induction chunks as [|words chunks IH]; intros st tp Hc; simpl.
  - unfold mret, rand_ret. eauto.
  - apply Forall_cons in Hc as [Hw Hc].
    destruct (mask_words_returns mp words st tp Hw) as (st1 & tp1 & Hs).
    unfold mbind, rand_bind. rewrite Hs. case_decide.
    + unfold mret, rand_ret. eauto.
    + apply IH. apply mask_words_spec in Hs as (Hlen & _). by rewrite Hlen.
Qed.

End OneSegmentReturns.

(** The conversion of OneSegmentDataset returns on documents without the
    CLS and SEP ids. *)
Lemma one_segment_convert_total (self : OneSegmentDataset.t) (tokens_a : list Z)
    (max_pos : Z) (tp : tape) :
  (∀ tp, is_ok (get_random_token_id (OneSegmentDataset.tokenizer self) tp) = true) →
  4 ≤ max_pos →
  Forall (λ x, x ≠ OneSegmentDataset.cls_id self ∧ x ≠ OneSegmentDataset.sep_id self)
    tokens_a →
  returns (λ _, True)
    (OneSegmentDataset.convert_example_to_features self tokens_a max_pos) tp.
Proof.
  intros Hrandom Hmax Hspecial.
  unfold OneSegmentDataset.convert_example_to_features,
    OneSegmentDataset.convert_example_to_features_trace.
  apply (returns_bind (λ _, True)); [|by intros; apply returns_ret].
  apply (returns_bind (λ _, True)).
  { destruct (random_ok tp) as (r & tp1 & Hr). by exists r, tp1. }
  intros r tp1 _.
  apply (returns_bind (λ target, 0 ≤ target)).
  { apply short_target_returns. lia. }
  intros target tp2 Hpos.
  apply (returns_bind (λ ab, ab.1 `prefix_of` tokens_a)).
  { pose proof (truncate_seq_pair_returns tokens_a [] target Hpos) as Htr.
    destruct (Utils.truncate_seq_pair tokens_a [] target) as [[a b]|] eqn:Htrunc; [|done].
    exists (a, b), tp2. split; [done|].
    by apply truncate_seq_pair_sound in Htrunc as (Ha & _). }
  intros [a b] tp3 [k ->]. cbn [fst snd].
  apply Forall_app in Hspecial as [Ha _].
  set (tokens := [OneSegmentDataset.cls_id self] ++ a ++ [OneSegmentDataset.sep_id self]).
  set (mp := Py.round_times_0_15 (length tokens)).
  set (cands := mask_candidate_pos (OneSegmentDataset.cls_id self)
                  (OneSegmentDataset.sep_id self) tokens).
  apply (returns_bind (λ _, True)).
  { unfold returns, Random.geometric, draw, mbind, rand_bind, mret, rand_ret. eauto. }
  intros g tp4 _.
  set (ml := OneSegmentDataset.clamp_mask_length self g mp).
  apply (returns_bind (λ _, True)); [|by intros; apply returns_ret].
  destruct (Z.ltb_spec 0 ml) as [Hml|Hml]; [|by apply returns_ret].
  destruct (clamp_mask_length_bounds self g mp) as (_ & Hmp & _). fold ml in Hmp.
  assert (Hc : length cands = length a) by (by apply mask_candidate_pos_length).
  assert (Hb : (mp ≤ length a)%nat).
  { pose proof (round_times_0_15_bound (length a)) as Hb.
    unfold mp, tokens. rewrite !length_app. simpl.
    by replace (S (length a + 1)) with (length a + 2)%nat by lia. }
  assert (Hs : 1 ≤ OneSegmentDataset.sections cands ml).
  { unfold OneSegmentDataset.sections. apply Z.div_le_lower_bound; lia. }
  destruct (Py.array_split cands (OneSegmentDataset.sections cands ml))
    as [chunks|] eqn:Hsplit.
  2: { unfold Py.array_split in Hsplit.
       destruct (Z.leb_spec (OneSegmentDataset.sections cands ml) 0); [lia|done]. }
  destruct (shuffle_spec chunks tp4) as (sh & tp5 & Hsh & Hperm).
  assert (Hloop : ∃ st tp6, OneSegmentDataset.mask_chunks self mp sh (tokens, 0%nat, []) tp5
                            = Ok (st, tp6)).
  { apply (mask_chunks_returns self Hrandom).
    apply Forall_forall. intros words Hw. apply Forall_forall. intros i Hi. simpl.
    rewrite Hperm in Hw.
    pose proof (array_split_subset _ _ _ _ _ Hsplit Hw Hi) as Hin.
    apply mask_candidate_pos_spec in Hin as (token & Hin & _).
    by apply lookup_lt_Some in Hin. }
  destruct Hloop as (st & tp6 & Hloop).
  exists st, tp6. split; [|done].
  unfold mbind, rand_bind, lift. by rewrite Hsh.
Qed.

(** X12. OneSegmentDataset.convert_example_to_features returns for every
    random draw when max_pos >= 4, no token of the document is the CLS or
    SEP id, and the tokenizer's get_random_token_id does not raise: in
    particular array_split is never asked for zero sections. *)
Theorem one_segment_convert_returns (self : OneSegmentDataset.t) (tokens_a : list Z)
    (max_pos : Z) (tp : tape) :
  (∀ tp, is_ok (get_random_token_id (OneSegmentDataset.tokenizer self) tp) = true) →
  4 ≤ max_pos →
  Forall (λ x, x ≠ OneSegmentDataset.cls_id self ∧ x ≠ OneSegmentDataset.sep_id self)
    tokens_a →
  is_ok (OneSegmentDataset.convert_example_to_features self tokens_a max_pos tp) = true.
Proof.
  intros Hrandom Hmax Hspecial.
  by apply (returns_is_ok (λ _, True)), one_segment_convert_total.
Qed.

(** ** OneSegmentDataset: dumping and loading again *)

Section OneSegmentFiles.

Import OneSegmentDataset.

Context {R : Type}.
Variable strip : string → string.

(** The steps of a successful load from a pickle. *)
Lemma init_pickle_inv (fs : FileSystem R) (tok : Tokenizer) (max_pos : Z)
    (dataset_path : option string) (documents : list string) (sentence_stack : bool)
    (pickle_path : string) (max_words_length : Z) (tp tp' : tape) (ds : t) :
  __init__ strip fs tok max_pos dataset_path documents sentence_stack
    (Some pickle_path) max_words_length tp = Ok (ds, tp') →
  ∃ pad cls sep mask docs shuffled,
    reserved_id tok "[PAD]" = Ok pad ∧ reserved_id tok "[CLS]" = Ok cls ∧
    reserved_id tok "[SEP]" = Ok sep ∧ reserved_id tok "[MASK]" = Ok mask ∧
    pickled_documents fs pickle_path = Some docs ∧
    shuffled ≡ₚ seq 0 (length docs) ∧
    all_documents ds = docs ∧
    indices ds
      = resume_indices (pickled_indices fs (String.append pickle_path ".index")) shuffled ∧
    last_indices_path ds = Some (String.append pickle_path ".index").
Proof.
  unfold __init__. intros H.
  apply rand_bind_ok in H as (pad & t1 & [Hp _]%lift_ok & H).
  apply rand_bind_ok in H as (cls & t2 & [Hc _]%lift_ok & H).
  apply rand_bind_ok in H as (sep & t3 & [Hs _]%lift_ok & H).
  apply rand_bind_ok in H as (mask & t4 & [Hm _]%lift_ok & H).
  apply rand_bind_ok in H as (docs & t5 & [Hd _]%lift_ok & H).
  apply rand_bind_ok in H as (sh & t6 & Hsh%shuffle_ok & H).
  apply rand_ret_ok in H as [<- _]. simpl.
  exists pad, cls, sep, mask, docs, sh.
  destruct (pickled_documents fs pickle_path); [|discriminate].
  injection Hd as ->. done.
Qed.

(** A load from a pickle succeeds when the reserved tokens resolve and the
    pickle exists. *)
Lemma init_pickle_returns (fs : FileSystem R) (tok : Tokenizer) (max_pos : Z)
    (dataset_path : option string) (documents : list string) (sentence_stack : bool)
    (pickle_path : string) (max_words_length : Z) (tp : tape)
    (pad cls sep mask : Z) (docs : list (list Z)) :
  reserved_id tok "[PAD]" = Ok pad → reserved_id tok "[CLS]" = Ok cls →
  reserved_id tok "[SEP]" = Ok sep → reserved_id tok "[MASK]" = Ok mask →
  pickled_documents fs pickle_path = Some docs →
  ∃ ds tp' shuffled,
    __init__ strip fs tok max_pos dataset_path documents sentence_stack
      (Some pickle_path) max_words_length tp = Ok (ds, tp') ∧
    shuffled ≡ₚ seq 0 (length docs) ∧
    all_documents ds = docs ∧
    indices ds
      = resume_indices (pickled_indices fs (String.append pickle_path ".index")) shuffled.
Proof.
  intros Hp Hc Hs Hm Hd.
  destruct (shuffle_spec (seq 0 (length docs)) tp) as (sh & tp1 & Hsh & Hperm).
  eexists _, tp1, sh. split; [|split; [done|]].
  - unfold __init__, mbind, rand_bind, lift.
    rewrite Hp, Hc, Hs, Hm, Hd. simpl. rewrite Hsh. reflexivity.
  - done.
Qed.

Lemma resume_indices_covers (side : option (list nat)) (shuffled : list nat) (i : nat) :
  i ∈ shuffled → i ∈ resume_indices side shuffled.
Proof.
  intros Hi. destruct side as [last|]; [|done]. simpl.
  apply (fromkeys_from_spec [] (last ++ shuffled)); [constructor|].
  right. apply elem_of_app. by right.
Qed.

Lemma remove_duplicates_subset (l : list nat) (i : nat) :
  i ∈ remove_duplicates_keeping_first l → i ∈ l.
Proof.
  revert i. induction l as [|x l IH]; intros i Hi; simpl in Hi; [done|].
  apply elem_of_cons in Hi as [->|Hi]; [by left|].
  apply list_elem_of_filter in Hi as [_ Hi]. right. by apply IH.
Qed.

Lemma filter_none {A} (P : A → Prop) `{∀ x, Decision (P x)} (l : list A) :
  Forall (λ x, ¬ P x) l → filter P l = [].
Proof.
  induction 1 as [|x l Hx Hl IH]; [done|].
  by rewrite filter_cons, decide_False.
Qed.

(** When the whole order is dumped, loading again gives that very order. *)
Lemma resume_indices_same (last shuffled : list nat) :
  NoDup last → (∀ i, i ∈ shuffled → i ∈ last) →
  resume_indices (Some last) shuffled = last.
Proof.
  intros Hnd Hsub. unfold resume_indices, Py.fromkeys, Py.fromkeys_from.
  rewrite foldl_app.
  change (foldl _ (foldl _ [] last) shuffled)
    with (Py.fromkeys_from (Py.fromkeys_from [] last) shuffled).
  rewrite fromkeys_from_dedup.
  rewrite (fromkeys_from_NoDup [] last) by done. simpl.
  rewrite filter_none; [by rewrite app_nil_r|].
  apply Forall_forall. intros i Hi Hnot. by apply Hnot, Hsub, remove_duplicates_subset.
Qed.

(** X13. Dumping the order at a step count that is a multiple of its
    length persists the whole order, and the next load of the same pickle
    then iterates in exactly the same order, whatever the new shuffle. *)
Theorem resume_at_epoch_boundary (fs fs' : FileSystem R) (tok : Tokenizer) (max_pos : Z)
    (dataset_path : option string) (documents : list string) (sentence_stack : bool)
    (pickle_path : string) (max_words_length : Z) (tp tp1 tp2 : tape) (ds : t)
    (steps : Z) :
  __init__ strip fs tok max_pos dataset_path documents sentence_stack
    (Some pickle_path) max_words_length tp = Ok (ds, tp1) →
  dump_last_indices fs ds steps = Ok fs' →
  steps mod Z.of_nat (length (indices ds)) = 0 →
  ∃ ds' tp3,
    __init__ strip fs' tok max_pos dataset_path documents sentence_stack
      (Some pickle_path) max_words_length tp2 = Ok (ds', tp3) ∧
    indices ds' = indices ds ∧ all_documents ds' = all_documents ds.
Proof.
  intros Hinit Hdump Hsteps.
  pose proof (init_indices_NoDup _ _ _ _ _ _ _ _ _ _ _ _ Hinit) as Hnd.
  apply init_pickle_inv in Hinit
    as (pad & cls & sep & mask & docs & sh & Hp & Hc & Hs & Hm & Hd & Hsh & Hall & Hidx & Hpath).
  unfold dump_last_indices in Hdump. rewrite Hpath in Hdump.
  case_decide; [discriminate|]. injection Hdump as <-.
  rewrite Hsteps in *. unfold Py.slice_from. simpl drop.
  destruct (init_pickle_returns
              (write_indices fs (String.append pickle_path ".index") (indices ds))
              tok max_pos dataset_path documents sentence_stack pickle_path
              max_words_length tp2 pad cls sep mask docs Hp Hc Hs Hm Hd)
    as (ds' & tp3 & sh' & Hinit' & Hsh' & Hall' & Hidx').
  exists ds', tp3. split; [done|]. split; [|congruence].
  rewrite Hidx'. simpl. rewrite String.eqb_refl.
  apply resume_indices_same; [done|].
  intros i Hi. rewrite Hidx. apply resume_indices_covers.
  by rewrite Hsh, <- Hsh'.
Qed.

(** X14. Documents written by dump_ids_documents are read back unchanged by
    a load from that file (compressed under [output_path + '.gz'], or plain
    under a path that does not end in "gz"), and the order of the loaded
    dataset has no repetition and covers every document. *)
Theorem dump_ids_documents_round_trip (fs : FileSystem R) (self : t)
    (output_path : string) (is_gzip : bool) (tok : Tokenizer) (max_pos : Z)
    (dataset_path : option string) (documents : list string) (sentence_stack : bool)
    (max_words_length : Z) (tp : tape) (pad cls sep mask : Z) :
  let pickle_path := if is_gzip then String.append output_path ".gz" else output_path in
  reserved_id tok "[PAD]" = Ok pad → reserved_id tok "[CLS]" = Ok cls →
  reserved_id tok "[SEP]" = Ok sep → reserved_id tok "[MASK]" = Ok mask →
  endswith pickle_path "gz" = is_gzip →
  ∃ ds tp',
    __init__ strip (dump_ids_documents fs self output_path is_gzip) tok max_pos
      dataset_path documents sentence_stack (Some pickle_path) max_words_length tp
      = Ok (ds, tp') ∧
    all_documents ds = all_documents self ∧
    NoDup (indices ds) ∧
    ∀ i, (i < length (all_documents self))%nat → i ∈ indices ds.
Proof.
  intros pickle_path Hp Hc Hs Hm _.
  assert (Hd : pickled_documents (dump_ids_documents fs self output_path is_gzip)
                 pickle_path = Some (all_documents self)).
  { unfold dump_ids_documents, pickle_path. destruct is_gzip; simpl;
      by rewrite String.eqb_refl. }
  destruct (init_pickle_returns _ tok max_pos dataset_path documents sentence_stack
              pickle_path max_words_length tp pad cls sep mask _ Hp Hc Hs Hm Hd)
    as (ds & tp' & sh & Hinit & Hsh & Hall & Hidx).
  exists ds, tp'. split; [done|]. split; [done|]. split.
  - by eapply init_indices_NoDup.
  - intros i Hi. rewrite Hidx. apply resume_indices_covers.
    rewrite Hsh. apply elem_of_seq. lia.
Qed.

(** X15. With sentence_stack, and a tokenizer whose convert_tokens_to_ids
    gives one id per token, every document built from text holds at most
    max_pos - 2 tokens (none when max_pos < 2): what is stacked always
    fits between CLS and SEP. *)
Theorem stacked_documents_fit (fs : FileSystem R) (tok : Tokenizer) (max_pos : Z)
    (dataset_path : option string) (documents : list string) (max_words_length : Z)
    (tp tp' : tape) (ds : t) :
  (∀ tokens, length (convert_tokens_to_ids tok tokens) = length tokens) →
  __init__ strip fs tok max_pos dataset_path documents true None max_words_length tp
    = Ok (ds, tp') →
  Forall (λ doc, Z.of_nat (length doc) ≤ Z.max 0 (max_pos - 2)) (all_documents ds).
Proof.
  intros Hconv H. unfold __init__ in H.
  apply rand_bind_ok in H as (pad & t1 & _ & H).
  apply rand_bind_ok in H as (cls & t2 & _ & H).
  apply rand_bind_ok in H as (sep & t3 & _ & H).
  apply rand_bind_ok in H as (mask & t4 & _ & H).
  apply rand_bind_ok in H as ([docs stack] & t5 & Hload & H).
  set (fits := λ st : list (list Z) * list string,
         Forall (λ doc, Z.of_nat (length doc) ≤ Z.max 0 (max_pos - 2)) st.1 ∧
         Z.of_nat (length st.2) ≤ Z.max 0 (max_pos - 2)).
  assert (Hstep : ∀ st text, fits st → fits (_load_text strip tok max_pos true st text)).
  { intros [ds0 st0] text [Hdocs Hstack]. unfold fits in *. simpl in Hdocs, Hstack.
    assert (Hnew : Forall (λ doc, Z.of_nat (length doc) ≤ Z.max 0 (max_pos - 2))
                     (ds0 ++ [convert_tokens_to_ids tok st0])).
    { apply Forall_app. split; [done|]. apply Forall_singleton. by rewrite Hconv. }
    unfold _load_text.
    destruct (String.eqb (strip text) "").
    - destruct (decide (0 < length st0)%nat); cbn [fst snd].
      + split; [exact Hnew|simpl; lia].
      + by split.
    - destruct (Z.ltb_spec (max_pos - 2)
                  (Z.of_nat (length st0) + Z.of_nat (length (tokenize tok (strip text)))));
        cbn [fst snd].
      + split; [exact Hnew|simpl; lia].
      + split; [done|]. rewrite length_app. lia. }
  assert (Hfold : ∀ lines st, fits st →
                  fits (foldl (_load_text strip tok max_pos true) st lines)).
  { induction lines as [|text lines IH]; intros st Hst; [done|]. simpl. auto. }
  assert (Hloaded : fits (docs, stack)).
  { assert (Hinit : fits ([], [])) by (split; [constructor|simpl; lia]).
    destruct (decide (0 < length documents)%nat).
    - apply rand_ret_ok in Hload as [<- _]. by apply Hfold.
    - destruct dataset_path as [path|].
      + apply rand_bind_ok in Hload as (lines & t6 & _ & Hload).
        apply rand_ret_ok in Hload as [<- _]. by apply Hfold.
      + by apply rand_ret_ok in Hload as [<- _]. }
  destruct Hloaded as [Hdocs Hstack]. simpl in *.
  case_decide as Hempty; [by destruct dataset_path|].
  apply rand_ret_ok in H as [<- _]. simpl.
  case_decide; [|done].
  apply Forall_app. split; [done|]. apply Forall_singleton. by rewrite Hconv.
Qed.

End OneSegmentFiles.

(** ** The epoch cache: errors and successive reads *)

Section EpochCacheMore.

Import PreTensorPretrainDataset.

Lemma skip_past_end (n : nat) (f : list batch) :
  (Datatypes.length f < n)%nat → skip n f = Err EOFError.
Proof.
  revert f. induction n as [|n IH]; intros f Hn; [lia|].
  destruct f as [|r f]; [done|]. simpl. apply IH. simpl in Hn. lia.
Qed.

(** X16. Resuming past the end of the cache fails at construction: when
    last_step exceeds the number of records of the file, __init__ raises
    EOFError. *)
Theorem init_skips_past_end (fs : FileSystem batch) (path : string)
    (records : list batch) (L k : Z) :
  0 ≤ L → pickled_records fs path = Some records →
  Z.of_nat (Datatypes.length records) < k →
  __init__ fs (Some path) L k = Err EOFError.
Proof.
  intros HL Hrec Hk. unfold __init__.
  destruct (Z.ltb_spec L 0); [lia|]. rewrite Hrec. simpl.
  destruct (Z.ltb_spec 0 k); [|lia].
  rewrite skip_past_end by lia. done.
Qed.

Lemma getitems_sequential (ts : list (tensor * tensor * tensor * tensor * tensor))
    (L : Z) (items : list Z) :
  (Datatypes.length items ≤ Datatypes.length ts)%nat →
  getitems {| file := batch_of_tuple <$> ts; length := L |} items
  = Ok (take (Datatypes.length items) ts,
        {| file := batch_of_tuple <$> drop (Datatypes.length items) ts; length := L |}).
Proof.
  revert ts. induction items as [|item items IH]; intros ts Hn; simpl.
  - by rewrite drop_0.
  - destruct ts as [|[[[[x0 x1] x2] x3] x4] ts]; [simpl in Hn; lia|].
    simpl. rewrite IH by (simpl in Hn; lia). done.
Qed.

(** X17. Reads replay the cache in file order whatever index is asked for:
    after a construction that skipped k records of a cache of batches of
    size one, any n requests, n no more than what is left, return the
    tuples of the records k, k+1, ..., k+n-1, and leave the cursor after
    them with the declared length unchanged. *)
Theorem getitems_replay_in_order (fs : FileSystem batch) (path : string)
    (ts : list (tensor * tensor * tensor * tensor * tensor)) (L last_step : Z)
    (self : t) (items : list Z) :
  let k := Z.to_nat last_step in
  pickled_records fs path = Some (batch_of_tuple <$> ts) →
  __init__ fs (Some path) L last_step = Ok self →
  (k + Datatypes.length items ≤ Datatypes.length ts)%nat →
  getitems self items
  = Ok (take (Datatypes.length items) (drop k ts),
        {| file := batch_of_tuple <$> drop (k + Datatypes.length items) ts;
           length := L |}).
Proof.
  intros k Hrec Hinit Hn. unfold __init__ in Hinit.
  destruct (L <? 0); [discriminate|]. rewrite Hrec in Hinit. simpl in Hinit.
  assert (Hself : self = {| file := batch_of_tuple <$> drop k ts; length := L |}).
  { destruct (Z.ltb_spec 0 last_step).
    - apply result_bind_ok in Hinit as (f & Hskip & Hinit). injection Hinit as <-.
      apply skip_spec in Hskip as [_ ->]. simpl. by rewrite fmap_drop.
    - injection Hinit as <-. unfold k. replace (Z.to_nat last_step) with 0%nat by lia.
      by rewrite drop_0. }
  rewrite Hself, getitems_sequential by (rewrite length_drop; lia).
  by rewrite drop_drop.
Qed.

End EpochCacheMore.

Section MoreExamples.

Import Fixture.

(** X8 on two segments of one token, the draw keeping the full length. *)
Lemma pretrain_masking_spares_special_tokens_witness :
  ∃ f tr tp',
    PretrainDataset.convert_example_to_features_trace pretrain [197] [199] 0 12
      (tape_of [high]) = Ok (f, tr, tp') ∧
    (∀ i, tr_tokens tr !! i = Some (PretrainDataset.cls_id pretrain) ∨
          tr_tokens tr !! i = Some (PretrainDataset.sep_id pretrain) →
          input_ids f !! i = tr_tokens tr !! i) ∧
    (∀ i, (length (tr_tokens tr) ≤ i)%nat → Z.of_nat i < 12 →
          input_ids f !! i = Some (PretrainDataset.pad_id pretrain)) ∧
    input_ids f !! 0%nat = Some (PretrainDataset.cls_id pretrain).
Proof.
  assert (H : ∃ f tr tp',
    PretrainDataset.convert_example_to_features_trace pretrain [197] [199] 0 12
      (tape_of [high]) = Ok (f, tr, tp')) by (eexists _, _, _; vm_compute; reflexivity).
  destruct H as (f & tr & tp' & H).
  exists f, tr, tp'. split; [exact H|].
  exact (pretrain_masking_spares_special_tokens pretrain [197] [199] 0 12
           (tape_of [high]) tp' f tr H).
Defined.

(** X9 on a document of three tokens. *)
Lemma one_segment_masking_spares_special_tokens_witness :
  ∃ f tr tp',
    OneSegmentDataset.convert_example_to_features_trace one_segment [197; 198; 199] 8
      (tape_of [high]) = Ok (f, tr, tp') ∧
    (∀ i, tr_tokens tr !! i = Some (OneSegmentDataset.cls_id one_segment) ∨
          tr_tokens tr !! i = Some (OneSegmentDataset.sep_id one_segment) →
          input_ids f !! i = tr_tokens tr !! i) ∧
    (∀ i, (length (tr_tokens tr) ≤ i)%nat → Z.of_nat i < 8 →
          input_ids f !! i = Some (OneSegmentDataset.pad_id one_segment)) ∧
    input_ids f !! 0%nat = Some (OneSegmentDataset.cls_id one_segment).
Proof.
  assert (H : ∃ f tr tp',
    OneSegmentDataset.convert_example_to_features_trace one_segment [197; 198; 199] 8
      (tape_of [high]) = Ok (f, tr, tp')) by (eexists _, _, _; vm_compute; reflexivity).
  destruct H as (f & tr & tp' & H).
  exists f, tr, tp'. split; [exact H|].
  exact (one_segment_masking_spares_special_tokens one_segment [197; 198; 199] 8
           (tape_of [high]) tp' f tr H).
Defined.

(** X10 with the smallest max_pos that leaves room for two segments. *)
Lemma pretrain_convert_returns_witness :
  is_ok (PretrainDataset.convert_example_to_features pretrain [197; 198] [199; 200] 0 5
           (tape_of [])) = true.
Proof.
  apply (pretrain_convert_returns pretrain [197; 198] [199; 200] 0 5 (tape_of [])).
  - intros tp. reflexivity.
  - simpl. lia.
Defined.

(** X11 with max_pos = 4 and a second segment: the target length is 1. *)
Lemma pretrain_convert_short_raises_witness :
  PretrainDataset.convert_example_to_features pretrain [197] [199] 0 4 (tape_of [])
  = Err ValueError.
Proof.
  apply (pretrain_convert_short_raises pretrain [197] [199] 0 4 (tape_of [])).
  - simpl. lia.
  - reflexivity.
Defined.

(** X12 with the smallest max_pos. *)
Lemma one_segment_convert_returns_witness :
  is_ok (OneSegmentDataset.convert_example_to_features one_segment [197; 198; 199] 4
           (tape_of [])) = true.
Proof.
  apply (one_segment_convert_returns one_segment [197; 198; 199] 4 (tape_of [])).
  - intros tp. reflexivity.
  - lia.
  - repeat constructor; simpl; lia.
Defined.

(** X13: the order [3; 0; 2; 1] dumped after eight steps, that is two
    epochs, is the order of the next load although its shuffle is another. *)
Lemma resume_at_epoch_boundary_witness :
  ∃ ds' tp3,
    OneSegmentDataset.__init__ strip
      (write_indices pickle_files "docs.index" [3; 0; 2; 1]%nat) Fixture.tokenizer 8 None []
      true (Some "docs"%string) 10 (tape_of []) = Ok (ds', tp3) ∧
    OneSegmentDataset.indices ds' = OneSegmentDataset.indices one_segment_pickled ∧
    OneSegmentDataset.all_documents ds'
      = OneSegmentDataset.all_documents one_segment_pickled.
Proof.
  assert (Hinit : ∃ tp1,
    OneSegmentDataset.__init__ strip pickle_files Fixture.tokenizer 8 None [] true
      (Some "docs"%string) 10 (tape_of [1; 2; 0]) = Ok (one_segment_pickled, tp1))
    by (eexists; vm_compute; reflexivity).
  destruct Hinit as (tp1 & Hinit).
  exact (resume_at_epoch_boundary strip pickle_files
           (write_indices pickle_files "docs.index" [3; 0; 2; 1]%nat)
           Fixture.tokenizer 8 None [] true "docs" 10 (tape_of [1; 2; 0]) tp1 (tape_of [])
           one_segment_pickled 8 Hinit eq_refl eq_refl).
Defined.

(** X14 with a compressed dump of the one-document dataset. *)
Lemma dump_ids_documents_round_trip_witness :
  ∃ ds tp',
    OneSegmentDataset.__init__ strip (dump_ids_documents no_files one_segment "out" true)
      Fixture.tokenizer 8 None [] true (Some "out.gz"%string) 10 (tape_of [])
      = Ok (ds, tp') ∧
    OneSegmentDataset.all_documents ds = OneSegmentDataset.all_documents one_segment ∧
    NoDup (OneSegmentDataset.indices ds) ∧
    ∀ i, (i < length (OneSegmentDataset.all_documents one_segment))%nat →
         i ∈ OneSegmentDataset.indices ds.
Proof.
  exact (dump_ids_documents_round_trip strip no_files one_segment "out" true
           Fixture.tokenizer 8 None [] true 10 (tape_of []) 0 2 3 4
           eq_refl eq_refl eq_refl eq_refl eq_refl).
Defined.

(** X15 on five lines of one token with max_pos = 5. *)
Lemma stacked_documents_fit_witness :
  Forall (λ doc, Z.of_nat (length doc) ≤ Z.max 0 (5 - 2))
    (OneSegmentDataset.all_documents stacked).
Proof.
  assert (Hinit : ∃ tp',
    OneSegmentDataset.__init__ strip no_files Fixture.tokenizer 5 None
      ["a"; "b"; "c"; "d"; "e"]%string true None 10 (tape_of []) = Ok (stacked, tp'))
    by (eexists; vm_compute; reflexivity).
  destruct Hinit as (tp' & Hinit).
  apply (stacked_documents_fit strip no_files Fixture.tokenizer 5 None
           ["a"; "b"; "c"; "d"; "e"]%string 10 (tape_of []) tp' stacked); [|exact Hinit].
  intros tokens. simpl. apply length_fmap.
Defined.

(** X16 on the cache of five records asked to resume after six steps. *)
Lemma init_skips_past_end_witness :
  PreTensorPretrainDataset.__init__ cache (Some "epoch_0.pickle"%string) 5 6
  = Err EOFError.
Proof.
  apply (init_skips_past_end cache "epoch_0.pickle"
           [record 10; record 11; record 12; record 13; record 14] 5 6);
    [lia|reflexivity|simpl; lia].
Defined.

(** X17 on the cache of five records resumed after two steps: the requests
    for the items 0 and 0 return the records 12 and 13. *)
Lemma getitems_replay_in_order_witness :
  getitems resumed [0; 0]
  = Ok ([([10 + 2], [0], [1], [0], [10 + 2]); ([10 + 3], [0], [1], [0], [10 + 3])],
        {| PreTensorPretrainDataset.file := [record 14];
           PreTensorPretrainDataset.length := 5 |}).
Proof.
  exact (getitems_replay_in_order cache "epoch_0.pickle"
           [([10], [0], [1], [0], [10]); ([11], [0], [1], [0], [11]);
            ([12], [0], [1], [0], [12]); ([13], [0], [1], [0], [13]);
            ([14], [0], [1], [0], [14])] 5 2 resumed [0; 0]
           eq_refl eq_refl ltac:(simpl; lia)).
Defined.

End MoreExamples.

(** ** utils.to_bert_ids *)

Section BertIdsFacts.

Import BertIds.

Lemma truncate_tokens_sound {A} (a b : list A) (L : Z) (a' b' : list A) :
  truncate_seq_pair a b L = Ok (a', b') →
  a' `prefix_of` a ∧ b' `prefix_of` b ∧ Z.of_nat (length a' + length b') ≤ L.
Proof.
  funelim (truncate_seq_pair a b L); clear Heqcall.
  - intros [= <- <-]. done.
  - intros Hr. destruct (H _ _ Hr) as (Ha & Hb & Hl).
    split; [|done]. etrans; [exact Ha|]. apply prefix_take.
  - discriminate.
  - intros Hr. destruct (H _ _ Hr) as (Ha & Hb & Hl).
    split; [done|]. split; [|done]. etrans; [exact Hb|]. apply prefix_take.
Qed.

Lemma truncate_tokens_returns {A} (a b : list A) (L : Z) :
  0 ≤ L → is_ok (truncate_seq_pair a b L) = true.
Proof.
  intros HL. funelim (truncate_seq_pair a b L); clear Heqcall;
    [done|auto| |auto].
  simpl in *. lia.
Qed.

Lemma truncate_tokens_negative {A} (a b : list A) (L : Z) :
  L < 0 → truncate_seq_pair a b L = Err IndexError.
Proof.
  intros HL. funelim (truncate_seq_pair a b L); clear Heqcall;
    [lia|auto|done|auto].
Qed.

(** The loop of to_bert_ids is the loop of the datasets: on token ids it
    computes what [Utils.truncate_seq_pair] computes. *)
Lemma truncate_tokens_ids (a b : list Z) (L : Z) :
  truncate_seq_pair a b L = Utils.truncate_seq_pair a b L.
Proof.
  funelim (Utils.truncate_seq_pair a b L); clear Heqcall;
    rewrite truncate_seq_pair_equation_1;
    (destruct (Z_le_dec _ _); [done || (simpl in *; lia)|]); simpl;
    (destruct (lt_dec _ _); [|]); simpl; try done; simpl in *; lia.
Qed.

(** X18. The three lists of to_bert_ids: when it returns, segment_ids and
    input_mask are max_pos long, input_ids is the conversion of max_pos
    tokens, namely [CLS] a' [SEP] and, when b' is left non-empty, b' [SEP]
    (one SEP only), then padding; a' and b' are prefixes of the two token
    lists; input_mask is 1 on the n tokens and 0 on the padding, and
    segment_ids is 1 exactly on b' and its SEP. *)
Theorem to_bert_ids_layout (max_pos : Z) (tok : Tokenizer) (sentence_a : string)
    (sentence_b : option string) (cls_token sep_token pad_token : string)
    (input_ids segment_ids input_mask : list Z) :
  to_bert_ids max_pos tok sentence_a sentence_b cls_token sep_token pad_token
    = Ok (input_ids, segment_ids, input_mask) →
  ∃ (a' b' : list string) (n : nat),
    a' `prefix_of` tokenize tok sentence_a ∧
    b' `prefix_of` from_option (tokenize tok) [] sentence_b ∧
    n = (length a' + 2 + (if decide (b' = []) then 0 else length b' + 1))%nat ∧
    Z.of_nat n ≤ max_pos ∧
    input_ids
      = convert_tokens_to_ids tok
          (cls_token :: a' ++ sep_token ::
             (if decide (b' = []) then [] else b' ++ [sep_token])
             ++ replicate (Z.to_nat max_pos - n) pad_token) ∧
    Z.of_nat (length segment_ids) = max_pos ∧
    Z.of_nat (length input_mask) = max_pos ∧
    input_mask = replicate n 1 ++ replicate (Z.to_nat max_pos - n) 0 ∧
    segment_ids
      = replicate (length a' + 2) 0 ++ replicate (n - (length a' + 2)) 1
        ++ replicate (Z.to_nat max_pos - n) 0.
Proof.
  unfold to_bert_ids. intros H.
  apply result_bind_ok in H as ([a' b'] & Htrunc & H).
  apply truncate_tokens_sound in Htrunc as (Ha & Hb & Hlen).
  injection H as <- <- <-.
  exists a', b'. eexists. split; [done|]. split.
  { by destruct sentence_b. }
  split; [reflexivity|].
  assert (Hmax : Z.of_nat (length a' + 2
                   + (if decide (b' = []) then 0 else length b' + 1)) ≤ max_pos).
  { destruct (decide (b' = [])) as [->|Hne].
    - simpl in Hlen. case_decide; lia.
    - case_decide as Hb0; [lia|]. exfalso. apply Hne.
      rewrite Hb0 in Hb. by apply prefix_nil_inv in Hb. }
  split; [exact Hmax|].
  unfold pad_to.
  assert (Hrep : ∀ (x : Z) (n m : nat), n = S m → replicate n x = x :: replicate m x).
  { by intros x n m ->. }
  destruct (decide (b' = [])) as [->|Hne].
  - rewrite decide_False by (simpl; lia). simpl in Hmax.
    rewrite ?app_nil_r, ?length_app. cbn [length app]. rewrite ?Nat.add_0_r, ?app_nil_r.
    replace (Z.to_nat (max_pos - Z.of_nat (S (length a' + 1))))
      with (Z.to_nat max_pos - (length a' + 2))%nat by lia.
    rewrite Nat.sub_diag. cbn [replicate app].
    rewrite !(Hrep _ (length a' + 2)%nat (length a' + 1)%nat) by lia.
    split; [by rewrite <- (assoc_L (++))|].
    cbn [length]. rewrite ?length_app, ?length_replicate.
    split; [lia|]. split; [lia|]. done.
  - rewrite decide_True by (destruct b'; [done|simpl; lia]).
    rewrite ?length_app. cbn [length app]. rewrite ?length_app. cbn [length].
    replace (Z.to_nat (max_pos - Z.of_nat (S (length a' + 1 + (length b' + 1)))))
      with (Z.to_nat max_pos - (length a' + 2 + (length b' + 1)))%nat by lia.
    replace (length a' + 2 + (length b' + 1) - (length a' + 2))%nat
      with (length b' + 1)%nat by lia.
    rewrite (Hrep 1 (length a' + 2 + (length b' + 1))%nat
               (length a' + 1 + (length b' + 1))%nat) by lia.
    rewrite (Hrep 0 (length a' + 2)%nat (length a' + 1)%nat) by lia.
    split; [by rewrite <- !app_assoc|].
    rewrite ?length_replicate.
    split; [lia|]. split; [lia|]. split; [done|].
    by rewrite <- !app_assoc.
Qed.

(** X19. to_bert_ids returns exactly when max_pos leaves room for the
    special tokens, that is max_pos >= 3 with a second sentence that has
    tokens and max_pos >= 2 without; below that it raises the IndexError of
    pop on an empty list. *)
Theorem to_bert_ids_returns (max_pos : Z) (tok : Tokenizer) (sentence_a : string)
    (sentence_b : option string) (cls_token sep_token pad_token : string) :
  match to_bert_ids max_pos tok sentence_a sentence_b cls_token sep_token pad_token with
  | Ok _ =>
      if decide (from_option (tokenize tok) [] sentence_b ≠ [])
      then 3 ≤ max_pos else 2 ≤ max_pos
  | Err e =>
      e = IndexError ∧
      if decide (from_option (tokenize tok) [] sentence_b ≠ [])
      then max_pos < 3 else max_pos < 2
  end.
Proof.
  unfold to_bert_ids.
  replace (match sentence_b with Some s => tokenize tok s | None => [] end)
    with (from_option (tokenize tok) [] sentence_b) by (by destruct sentence_b).
  set (tokens_b := from_option (tokenize tok) [] sentence_b).
  set (L := if decide (tokens_b ≠ []) then max_pos - 3 else max_pos - 2).
  destruct (Z_lt_le_dec L 0) as [Hneg|Hpos].
  - rewrite truncate_tokens_negative by done. simpl.
    split; [done|]. unfold L in Hneg. case_decide; lia.
  - pose proof (truncate_tokens_returns (tokenize tok sentence_a) tokens_b L Hpos) as Hok.
    destruct (truncate_seq_pair (tokenize tok sentence_a) tokens_b L) as [[a' b']|e];
      [|discriminate].
    simpl. unfold L in Hpos. case_decide; lia.
Qed.

End BertIdsFacts.

Section BertIdsExamples.

Import Fixture BertIds.

(** X18 on two sentences of one token with max_pos = 8. *)
Lemma to_bert_ids_layout_witness :
  ∃ (a' b' : list string) (n : nat),
    a' `prefix_of` tokenize Fixture.tokenizer "a" ∧
    b' `prefix_of` from_option (tokenize Fixture.tokenizer) [] (Some "b"%string) ∧
    n = (length a' + 2 + (if decide (b' = []) then 0 else length b' + 1))%nat ∧
    Z.of_nat n ≤ 8 ∧
    [2; 197; 3; 198; 3; 0; 0; 0]
      = convert_tokens_to_ids Fixture.tokenizer
          ("[CLS]"%string :: a' ++ "[SEP]"%string ::
             (if decide (b' = []) then [] else b' ++ ["[SEP]"%string])
             ++ replicate (Z.to_nat 8 - n) "[PAD]"%string) ∧
    Z.of_nat (length [0; 0; 0; 1; 1; 0; 0; 0]) = 8 ∧
    Z.of_nat (length [1; 1; 1; 1; 1; 0; 0; 0]) = 8 ∧
    [1; 1; 1; 1; 1; 0; 0; 0] = replicate n 1 ++ replicate (Z.to_nat 8 - n) 0 ∧
    [0; 0; 0; 1; 1; 0; 0; 0]
      = replicate (length a' + 2) 0 ++ replicate (n - (length a' + 2)) 1
        ++ replicate (Z.to_nat 8 - n) 0.
Proof.
  apply (to_bert_ids_layout 8 Fixture.tokenizer "a" (Some "b"%string)
           "[CLS]" "[SEP]" "[PAD]").
  vm_compute. reflexivity.
Defined.

End BertIdsExamples.

(** ** tokenization_juman: the vocabulary *)

Section Dicts.

Context {K V : Type} `{EqDecision K}.

Lemma get_dict_set (d : Py.dict K V) (k k' : K) (v : V) :
  Juman.get (Py.dict_set d k v) k' = if decide (k' = k) then Some v else Juman.get d k'.
Proof.
  induction d as [|[k0 v0] d IH]; simpl.
  - done.
  - destruct (decide (k = k0)) as [->|Hne]; simpl.
    + destruct (decide (k' = k0)); done.
    + rewrite IH. destruct (decide (k' = k0)) as [->|]; [|done].
      by rewrite decide_False.
Qed.

Lemma dict_set_keys (d : Py.dict K V) (k : K) (v : V) :
  Py.keys (Py.dict_set d k v)
  = if decide (k ∈ Py.keys d) then Py.keys d else Py.keys d ++ [k].
Proof.
  unfold Py.keys. induction d as [|[k' v'] d IH].
  - case_decide as Hin; [|done]. by apply elem_of_nil in Hin.
  - cbn [Py.dict_set]. rewrite !fmap_cons. cbn [fst].
    destruct (decide (k = k')) as [->|Hne].
    + rewrite fmap_cons. cbn [fst]. by rewrite decide_True by (by left).
    + rewrite fmap_cons. cbn [fst]. rewrite IH.
      destruct (decide (k ∈ d.*1)) as [Hin|Hin].
      * by rewrite decide_True by (by right).
      * rewrite decide_False; [done|]. by intros [?|?]%elem_of_cons.
Qed.

Lemma dict_set_NoDup (d : Py.dict K V) (k : K) (v : V) :
  NoDup (Py.keys d) → NoDup (Py.keys (Py.dict_set d k v)).
Proof.
  intros Hd. rewrite dict_set_keys. case_decide; [done|].
  apply NoDup_app. split; [done|]. split; [|apply NoDup_singleton].
  by intros x Hx ->%list_elem_of_singleton.
Qed.

Lemma get_None (d : Py.dict K V) (k : K) :
  Juman.get d k = None ↔ k ∉ Py.keys d.
Proof.
  unfold Py.keys. induction d as [|[k' v'] d IH]; simpl.
  - split; [intros _; apply not_elem_of_nil|done].
  - rewrite not_elem_of_cons. destruct (decide (k = k')) as [->|Hne].
    + split; [done|]. by intros [? _].
    + rewrite IH. tauto.
Qed.

Lemma get_Some (d : Py.dict K V) (k : K) (v : V) :
  NoDup (Py.keys d) → Juman.get d k = Some v ↔ (k, v) ∈ d.
Proof.
  unfold Py.keys. induction d as [|[k' v'] d IH]; simpl; intros Hd.
  - split; [done|]. intros Hin. by apply elem_of_nil in Hin.
  - apply NoDup_cons in Hd as [Hk' Hd]. rewrite elem_of_cons.
    destruct (decide (k = k')) as [->|Hne].
    + split.
      * intros [= ->]. by left.
      * intros [[= ->]|Hin]; [done|].
        exfalso. apply Hk'. apply list_elem_of_fmap. by exists (k', v).
    + rewrite IH by done. split; [by right|].
      intros [[= ? ?]|?]; done.
Qed.

Lemma convert_by_vocab_length (d : Py.dict K V) (items : list K) (unk_info : V) :
  length (Juman.convert_by_vocab d items unk_info) = length items.
Proof. unfold Juman.convert_by_vocab. by rewrite length_fmap. Qed.

End Dicts.

Section Vocabulary.

Import Juman.

(** The loop of token_vocab_build from the state [(d, index)]. *)
Lemma vocab_loop_spec (reader : list string) (d : Py.dict string Z) (index : Z)
    (w : string) (i : Z) :
  get ((foldl (λ st word, (Py.dict_set st.1 word st.2, st.2 + 1)) (d, index) reader).1) w
    = Some i
  ↔ (∃ k : nat, i = index + Z.of_nat k ∧ reader !! k = Some w ∧ (w ∉ drop (S k) reader))
    ∨ ((w ∉ reader) ∧ get d w = Some i).
Proof.
  revert d index. induction reader as [|x l IH]; intros d index.
  - simpl. split.
    + intros Hd. right. split; [apply not_elem_of_nil|done].
    + intros [(k & _ & Hk & _)|[_ Hd]]; [done|done].
  - cbn [foldl fst snd]. rewrite IH, get_dict_set. split.
    + intros [(k & -> & Hk & Hlast)|[Hl Hd]].
      * left. exists (S k). split; [lia|]. done.
      * destruct (decide (w = x)) as [->|Hne].
        -- injection Hd as <-. left. exists 0%nat. split; [lia|].
           split; [done|]. simpl. by rewrite drop_0.
        -- right. split; [|done]. by apply not_elem_of_cons.
    + intros [(k & -> & Hk & Hlast)|[Hl Hd]].
      * destruct k as [|k].
        -- injection Hk as ->. right. simpl in Hlast. rewrite drop_0 in Hlast.
           split; [done|]. rewrite decide_True by done. f_equal. lia.
        -- left. exists k. split; [lia|]. done.
      * apply not_elem_of_cons in Hl as [Hne Hl]. right. split; [done|].
        by rewrite decide_False.
Qed.

Lemma vocab_loop_NoDup (reader : list string) (d : Py.dict string Z) (index : Z) :
  NoDup (Py.keys d) →
  NoDup (Py.keys
    (foldl (λ st word, (Py.dict_set st.1 word st.2, st.2 + 1)) (d, index) reader).1).
Proof.
  revert d index. induction reader as [|x l IH]; intros d index Hd; [done|].
  cbn [foldl fst snd]. by apply IH, dict_set_NoDup.
Qed.

Lemma vocab_keys_NoDup (reader : list string) :
  NoDup (Py.keys (token_vocab_build reader)).
Proof. apply vocab_loop_NoDup. constructor. Qed.

Lemma vocab_get (reader : list string) (w : string) (i : Z) :
  get (token_vocab_build reader) w = Some i
  ↔ ∃ k : nat, i = Z.of_nat k ∧ reader !! k = Some w ∧ w ∉ drop (S k) reader.
Proof.
  unfold token_vocab_build. rewrite vocab_loop_spec. split.
  - intros [(k & -> & H)|[_ Hd]]; [|done]. exists k. split; [lia|done].
  - intros (k & -> & H). left. exists k. split; [lia|done].
Qed.

(** A word occurs last somewhere when it occurs at all. *)
Lemma last_occurrence (reader : list string) (w : string) :
  w ∈ reader → ∃ k : nat, reader !! k = Some w ∧ w ∉ drop (S k) reader.
Proof.
  induction reader as [|x l IH]; intros Hin; [by apply elem_of_nil in Hin|].
  destruct (decide (w ∈ l)) as [Hl|Hl].
  - destruct (IH Hl) as (k & Hk & Hlast). by exists (S k).
  - apply elem_of_cons in Hin as [->|Hin]; [|done].
    exists 0%nat. split; [done|]. simpl. by rewrite drop_0.
Qed.

Lemma vocab_get_None (reader : list string) (w : string) :
  get (token_vocab_build reader) w = None ↔ w ∉ reader.
Proof.
  split.
  - intros Hnone Hin. destruct (last_occurrence reader w Hin) as (k & Hk & Hlast).
    assert (Hsome : get (token_vocab_build reader) w = Some (Z.of_nat k)).
    { apply vocab_get. by exists k. }
    congruence.
  - intros Hnot. destruct (get (token_vocab_build reader) w) as [i|] eqn:Hget; [|done].
    apply vocab_get in Hget as (k & _ & Hk & _).
    exfalso. apply Hnot. by eapply list_elem_of_lookup_2.
Qed.

(** Two words never share an id. *)
Lemma vocab_injective (reader : list string) (w1 w2 : string) (i : Z) :
  get (token_vocab_build reader) w1 = Some i →
  get (token_vocab_build reader) w2 = Some i → w1 = w2.
Proof.
  intros (k1 & -> & H1 & _)%vocab_get (k2 & Hk & H2 & _)%vocab_get.
  assert (k1 = k2) as -> by lia. congruence.
Qed.

Lemma vocab_values_NoDup (reader : list string) :
  NoDup (token_vocab_build reader).*2.
Proof.
  pose proof (vocab_keys_NoDup reader) as Hkeys.
  assert (Hinj : ∀ kv1 kv2, kv1 ∈ token_vocab_build reader →
                 kv2 ∈ token_vocab_build reader → kv1.2 = kv2.2 → kv1 = kv2).
  { intros [w1 i1] [w2 i2] H1 H2 Heq. simpl in Heq. subst i2.
    apply get_Some in H1; [|done]. apply get_Some in H2; [|done].
    by rewrite (vocab_injective reader w1 w2 i1). }
  revert Hinj. generalize (NoDup_fmap_1 fst _ Hkeys).
  generalize (token_vocab_build reader). intros d Hd Hinj.
  induction Hd as [|kv d Hkv Hd IH]; [constructor|].
  rewrite fmap_cons. apply NoDup_cons. split.
  - intros (kv' & Heq & Hin)%list_elem_of_fmap.
    apply Hkv. rewrite (Hinj kv kv'); [done|by left|by right|done].
  - apply IH. intros kv1 kv2 H1 H2. apply Hinj; by right.
Qed.

(** The loop of __init__ over the items of the vocabulary. *)
Lemma init_loop_spec (control_tokens : list value) (items : list (string * Z))
    (c : Z) (inv : Py.dict Z string) :
  Forall (λ x, ∃ s, x = Str s) control_tokens →
  NoDup (Py.keys inv ++ items.*2) →
  let st := foldl (λ st kv,
                     (if decide (Int kv.2 ∈ control_tokens) then st.1 + 1 else st.1,
                      Py.dict_set st.2 kv.2 kv.1))
                  (c, inv) items in
  st.1 = c ∧ st.2 = inv ++ ((λ kv, (kv.2, kv.1)) <$> items).
Proof.
  intros Hstr. revert c inv.
  induction items as [|[w i] items IH]; intros c inv Hnd; cbn zeta.
  - simpl. by rewrite app_nil_r.
  - cbn [foldl fst snd].
    assert (Hnot : Int i ∉ control_tokens).
    { intros Hin. rewrite Forall_forall in Hstr. by destruct (Hstr _ Hin). }
    rewrite decide_False by done.
    assert (Hset : Py.dict_set inv i w = inv ++ [(i, w)]).
    { rewrite fmap_cons in Hnd. cbn [snd] in Hnd.
      apply NoDup_app in Hnd as (_ & Hdisj & _).
      assert (Hi : i ∉ Py.keys inv).
      { intros Hin. apply (Hdisj i Hin). by left. }
      clear -Hi. unfold Py.keys in Hi. induction inv as [|[k v] inv IH]; [done|].
      simpl. rewrite fmap_cons in Hi. apply not_elem_of_cons in Hi as [Hne Hi].
      cbn [fst] in Hne. rewrite decide_False by done. by rewrite IH. }
    rewrite Hset.
    destruct (IH c (inv ++ [(i, w)])) as [Hc Hinv].
    { unfold Py.keys in *. rewrite fmap_app, fmap_cons, fmap_nil. cbn [fst].
      rewrite fmap_cons in Hnd. cbn [snd] in Hnd.
      by rewrite <- app_assoc. }
    split; [exact Hc|]. rewrite Hinv, fmap_cons. cbn [fst snd].
    by rewrite <- app_assoc.
Qed.

Lemma init_spec_juman (reader : list string) (control_tokens : list value) :
  Forall (λ x, ∃ s, x = Str s) control_tokens →
  let self := FullTokenizer.__init__ reader control_tokens in
  FullTokenizer.vocab self = token_vocab_build reader ∧
  FullTokenizer.control_len self = 0 ∧
  FullTokenizer.inv_vocab self = (λ kv, (kv.2, kv.1)) <$> token_vocab_build reader.
Proof.
  intros Hstr. cbn zeta. unfold FullTokenizer.__init__.
  cbn [FullTokenizer.vocab FullTokenizer.control_len FullTokenizer.inv_vocab].
  destruct (init_loop_spec control_tokens (token_vocab_build reader) 0 [] Hstr)
    as [Hc Hinv].
  { simpl. apply vocab_values_NoDup. }
  split; [done|]. split; [exact Hc|exact Hinv].
Qed.

Lemma inv_vocab_get (reader : list string) (w : string) (i : Z) :
  get (token_vocab_build reader) w = Some i →
  get ((λ kv : string * Z, (kv.2, kv.1)) <$> token_vocab_build reader) i = Some w.
Proof.
  intros Hget. apply get_Some.
  - unfold Py.keys. rewrite <- list_fmap_compose.
    apply vocab_values_NoDup.
  - apply list_elem_of_fmap. exists (w, i). split; [done|].
    apply get_Some; [apply vocab_keys_NoDup|done].
Qed.

End Vocabulary.

(** X20. token_vocab_build numbers the strings that the reader yields by
    their position: a word is mapped to the position of its last occurrence,
    a word that the reader never yields is absent, and two words never
    share an id. *)
Theorem token_vocab_build_spec (reader : list string) (w : string) :
  match Juman.get (Juman.token_vocab_build reader) w with
  | Some i =>
      ∃ k : nat, i = Z.of_nat k ∧ reader !! k = Some w ∧ (w ∉ drop (S k) reader) ∧
        ∀ w', Juman.get (Juman.token_vocab_build reader) w' = Some i → w' = w
  | None => w ∉ reader
  end.
Proof.
  destruct (Juman.get (Juman.token_vocab_build reader) w) as [i|] eqn:Hget.
  - pose proof Hget as (k & -> & Hk & Hlast)%vocab_get.
    exists k. split; [done|]. split; [done|]. split; [done|].
    intros w' Hw'. by eapply vocab_injective.
  - by apply vocab_get_None.
Qed.

(** X21. FullTokenizer.__init__ with control tokens that are strings, as
    CONTROL_TOKENS are: the test [v in control_tokens] compares an index
    with strings, so control_len stays 0, and get_random_token_id is
    randint(1, len(vocab) - 1), which does not exclude the ids of the
    control tokens. *)
Theorem control_len_is_zero (reader : list string) (control_tokens : list Juman.value) :
  Forall (λ x, ∃ s, x = Juman.Str s) control_tokens →
  let self := Juman.FullTokenizer.__init__ reader control_tokens in
  Juman.FullTokenizer.control_len self = 0 ∧
  Juman.FullTokenizer.get_random_token_id self
    = Random.randint 1 (Z.of_nat (Juman.FullTokenizer.__len__ self) - 1).
Proof.
  intros Hstr self.
  destruct (init_spec_juman reader control_tokens Hstr) as (Hvocab & Hc & Hinv).
  fold self in Hvocab, Hc, Hinv. split; [exact Hc|].
  unfold Juman.FullTokenizer.get_random_token_id, juman_get_random_token_id,
    Juman.FullTokenizer.__len__.
  rewrite Hc, Hinv, Hvocab, length_fmap. done.
Qed.

(** X22. Ids and tokens: with control tokens that are strings,
    convert_ids_to_tokens after convert_tokens_to_ids gives back every
    token that the vocabulary holds; a token that it does not hold becomes
    the id 0. *)
Theorem tokens_ids_round_trip (reader : list string) (control_tokens : list Juman.value)
    (tokens : list string) :
  Forall (λ x, ∃ s, x = Juman.Str s) control_tokens →
  let self := Juman.FullTokenizer.__init__ reader control_tokens in
  (Forall (λ token, token ∈ reader) tokens →
   Juman.FullTokenizer.convert_ids_to_tokens self
     (Juman.FullTokenizer.convert_tokens_to_ids self tokens) = tokens) ∧
  (Forall (λ token, token ∉ reader) tokens →
   Juman.FullTokenizer.convert_tokens_to_ids self tokens = replicate (length tokens) 0).
Proof.
  intros Hstr self.
  destruct (init_spec_juman reader control_tokens Hstr) as (Hvocab & _ & Hinv).
  fold self in Hvocab, Hinv.
  unfold Juman.FullTokenizer.convert_ids_to_tokens,
    Juman.FullTokenizer.convert_tokens_to_ids, Juman.convert_by_vocab.
  rewrite Hvocab, Hinv. split.
  - induction 1 as [|token tokens Hin _ IH]; [done|].
    rewrite !fmap_cons, IH. f_equal.
    destruct (Juman.get (Juman.token_vocab_build reader) token) as [i|] eqn:Hget.
    + by rewrite (inv_vocab_get reader token i Hget).
    + by apply vocab_get_None in Hget.
  - induction 1 as [|token tokens Hin _ IH]; [done|].
    rewrite fmap_cons, IH. simpl. f_equal.
    by rewrite (proj2 (vocab_get_None reader token) Hin).
Qed.

(** X23. The vocabulary keeps the line terminators: token_vocab_build
    stores each string as the reader yields it, so when every line ends
    with a line feed, a token that does not end with one (JumanTokenizer
    strips its tokens) is never found and gets the id 0; the reserved
    tokens of the datasets all resolve to 0. *)
Theorem unstripped_vocabulary_misses (reader : list string)
    (control_tokens : list Juman.value) (analyze : string → list string)
    (tokens : list string) (name : string) :
  Forall (λ line, endswith line newline = true) reader →
  Forall (λ token, endswith token newline = false) tokens →
  endswith name newline = false →
  let self := Juman.FullTokenizer.__init__ reader control_tokens in
  Juman.FullTokenizer.convert_tokens_to_ids self tokens = replicate (length tokens) 0 ∧
  reserved_id (juman_tokenizer analyze self) name = Ok 0.
Proof.
  intros Hlines Htokens Hname self.
  assert (Hmiss : ∀ token, endswith token newline = false →
                  Juman.get (Juman.FullTokenizer.vocab self) token = None).
  { intros token Htoken. apply vocab_get_None. intros Hin.
    rewrite Forall_forall in Hlines. specialize (Hlines _ Hin). congruence. }
  split.
  - unfold Juman.FullTokenizer.convert_tokens_to_ids, Juman.convert_by_vocab.
    induction Htokens as [|token tokens Htoken _ IH]; [done|].
    rewrite fmap_cons, IH, (Hmiss token Htoken). done.
  - unfold reserved_id, juman_tokenizer. cbn [convert_tokens_to_ids].
    unfold Juman.FullTokenizer.convert_tokens_to_ids, Juman.convert_by_vocab.
    rewrite fmap_cons, (Hmiss name Hname). done.
Qed.

(** X24. A Juman FullTokenizer under the datasets: convert_tokens_to_ids
    gives one id per token, the lookup of a reserved token never raises (a
    missing one silently becomes 0), and get_random_token_id returns
    exactly when the vocabulary holds at least two words. *)
Theorem juman_tokenizer_total (reader : list string) (control_tokens : list Juman.value)
    (analyze : string → list string) (tokens : list string) (name : string) (tp : tape) :
  Forall (λ x, ∃ s, x = Juman.Str s) control_tokens →
  let self := Juman.FullTokenizer.__init__ reader control_tokens in
  let tok := juman_tokenizer analyze self in
  length (convert_tokens_to_ids tok tokens) = length tokens ∧
  is_ok (reserved_id tok name) = true ∧
  is_ok (get_random_token_id tok tp)
    = bool_decide (2 ≤ Juman.FullTokenizer.__len__ self)%nat.
Proof.
  intros Hstr self tok.
  destruct (init_spec_juman reader control_tokens Hstr) as (Hvocab & Hc & Hinv).
  fold self in Hvocab, Hc, Hinv.
  split; [apply convert_by_vocab_length|]. split.
  - unfold reserved_id, tok, juman_tokenizer. cbn [convert_tokens_to_ids].
    unfold Juman.FullTokenizer.convert_tokens_to_ids, Juman.convert_by_vocab.
    by rewrite fmap_cons.
  - unfold tok, juman_tokenizer. cbn [get_random_token_id].
    unfold Juman.FullTokenizer.get_random_token_id, juman_get_random_token_id,
      Juman.FullTokenizer.__len__, Random.randint.
    rewrite Hc, Hinv, Hvocab, length_fmap.
    destruct (Z.ltb_spec (Z.of_nat (length (Juman.token_vocab_build reader)) - 1) (0 + 1)).
    + rewrite bool_decide_eq_false_2 by lia. done.
    + rewrite bool_decide_eq_true_2 by lia. done.
Qed.

Section VocabularyExamples.

(** X21 on the default control tokens and a file of seven lines. *)
Lemma control_len_is_zero_witness :
  let self := Juman.FullTokenizer.__init__ vocabulary_lines Juman.CONTROL_TOKENS in
  Juman.FullTokenizer.control_len self = 0 ∧
  Juman.FullTokenizer.get_random_token_id self
    = Random.randint 1 (Z.of_nat (Juman.FullTokenizer.__len__ self) - 1).
Proof.
  apply (control_len_is_zero vocabulary_lines Juman.CONTROL_TOKENS).
  repeat constructor; eexists; reflexivity.
Defined.

(** X22 on the words "b" and "a" with their terminators as the file has
    them, and on two words that the file does not have. *)
Lemma tokens_ids_round_trip_witness :
  let self := Juman.FullTokenizer.__init__ vocabulary_lines Juman.CONTROL_TOKENS in
  Juman.FullTokenizer.convert_ids_to_tokens self
    (Juman.FullTokenizer.convert_tokens_to_ids self
       [String.append "b" newline; String.append "a" newline])
    = [String.append "b" newline; String.append "a" newline] ∧
  Juman.FullTokenizer.convert_tokens_to_ids self ["c"; "d"]%string
    = replicate (length ["c"; "d"]%string) 0.
Proof.
  assert (Hstr : Forall (λ x, ∃ s, x = Juman.Str s) Juman.CONTROL_TOKENS)
    by (repeat constructor; eexists; reflexivity).
  split.
  - apply (proj1 (tokens_ids_round_trip vocabulary_lines Juman.CONTROL_TOKENS
                    [String.append "b" newline; String.append "a" newline] Hstr)).
    repeat constructor; vm_compute; auto 10 using elem_of_list_here, elem_of_list_further.
  - apply (proj2 (tokens_ids_round_trip vocabulary_lines Juman.CONTROL_TOKENS
                    ["c"; "d"]%string Hstr)).
    repeat constructor; vm_compute; intros Hin;
      repeat (apply elem_of_cons in Hin as [Hin|Hin]; [discriminate|]);
      by apply elem_of_nil in Hin.
Defined.

(** X23 on the same file: the tokens "a" and "b" and the reserved token
    [CLS] all get the id 0. *)
Lemma unstripped_vocabulary_misses_witness :
  let self := Juman.FullTokenizer.__init__ vocabulary_lines Juman.CONTROL_TOKENS in
  Juman.FullTokenizer.convert_tokens_to_ids self ["a"; "b"]%string
    = replicate (length ["a"; "b"]%string) 0 ∧
  reserved_id (juman_tokenizer (λ text, [text]) self) "[CLS]" = Ok 0.
Proof.
  apply (unstripped_vocabulary_misses vocabulary_lines Juman.CONTROL_TOKENS
           (λ text, [text]) ["a"; "b"]%string "[CLS]").
  - repeat constructor.
  - repeat constructor.
  - reflexivity.
Defined.

(** X24 on the same file. *)
Lemma juman_tokenizer_total_witness :
  let self := Juman.FullTokenizer.__init__ vocabulary_lines Juman.CONTROL_TOKENS in
  let tok := juman_tokenizer (λ text, [text]) self in
  length (convert_tokens_to_ids tok ["a"; "b"]%string) = length ["a"; "b"]%string ∧
  is_ok (reserved_id tok "[CLS]") = true ∧
  is_ok (get_random_token_id tok (Fixture.tape_of []))
    = bool_decide (2 ≤ Juman.FullTokenizer.__len__ self)%nat.
Proof.
  apply (juman_tokenizer_total vocabulary_lines Juman.CONTROL_TOKENS (λ text, [text])
           ["a"; "b"]%string "[CLS]" (Fixture.tape_of [])).
  repeat constructor; eexists; reflexivity.
Defined.

End VocabularyExamples.

(** ** __getitem__ on a dataset built from text *)

Section PretrainGetitem.

Import PretrainDataset.

Context {R : Type}.
Variable strip : string → string.
Variable fs : FileSystem R.

Lemma get_corpus_line_fields (self self' : t) (item : Z) (t1 t2 : list Z) :
  get_corpus_line self item = Ok (t1, t2, self') →
  tokenizer self' = tokenizer self ∧ max_pos self' = max_pos self.
Proof.
  unfold get_corpus_line. intros H.
  destruct (negb _); [discriminate|].
  destruct (on_memory self); [|discriminate].
  apply result_bind_ok in H as (s & _ & H).
  apply result_bind_ok in H as (doc & _ & H).
  apply result_bind_ok in H as (x1 & _ & H).
  apply result_bind_ok in H as (x2 & _ & H).
  by injection H as <- <- <-.
Qed.

Lemma init_fields (tok : Tokenizer) (max_pos0 : Z) (dataset_path : option string)
    (documents : list string) (on_mem : bool) (ds : t) :
  __init__ strip fs tok max_pos0 dataset_path documents on_mem = Ok ds →
  tokenizer ds = tok ∧ max_pos ds = max_pos0.
Proof.
  unfold __init__. intros H.
  apply result_bind_ok in H as ([] & _ & H).
  apply result_bind_ok in H as (pad & _ & H).
  apply result_bind_ok in H as (cls & _ & H).
  apply result_bind_ok in H as (sep & _ & H).
  apply result_bind_ok in H as (mask & _ & H).
  case_decide as Hmode.
  - apply result_bind_ok in H as (lines & _ & H).
    apply result_bind_ok in H as ([loader doc] & _ & H).
    apply result_bind_ok in H as (loader' & _ & H).
    case_decide; [by destruct dataset_path|].
    by injection H as <-.
  - destruct dataset_path as [path|]; [|discriminate].
    apply result_bind_ok in H as (lines & _ & H).
    apply result_bind_ok in H as (n & _ & H).
    by injection H as <-.
Qed.

Lemma random_sent_returns (tok : Tokenizer) (max_pos0 : Z)
    (dataset_path : option string) (documents : list string) (ds : t) (index : Z)
    (tp : tape) :
  __init__ strip fs tok max_pos0 dataset_path documents true = Ok ds →
  0 ≤ index ≤ __len__ ds →
  returns (λ sent, tokenizer sent.2 = tok ∧ max_pos sent.2 = max_pos0)
    (random_sent ds index) tp.
Proof.
  intros Hinit Hindex.
  destruct (get_corpus_line_served strip fs _ _ _ _ _ _ Hinit Hindex)
    as (s & doc & t1 & t2 & ds' & Hs & Hdoc & Ht1 & Ht2 & Hget & Hcur & Hsame & Hmem).
  destruct (init_documents_nonempty strip fs _ _ _ _ _ _ Hinit) as [Hdocs Hne].
  destruct (get_corpus_line_fields _ _ _ _ _ Hget) as [Htok Hmax].
  destruct (init_fields _ _ _ _ _ _ Hinit) as [Htok0 Hmax0].
  unfold returns, random_sent, mbind, rand_bind, lift. rewrite Hget.
  destruct (random_ok tp) as (r & tp1 & Hr). rewrite Hr.
  destruct (Random.gt_0_5 r).
  - eexists _, _. unfold mret, rand_ret. split; [done|]. simpl. split; congruence.
  - destruct (random_line_loop_returns ds' 9 tp1) as (line & tp2 & doc' & Hline & _).
    { done. } { by rewrite Hsame. } { by rewrite Hsame. }
    unfold get_random_line. rewrite Hline.
    eexists _, _. unfold mret, rand_ret. split; [done|]. simpl. split; congruence.
Qed.

End PretrainGetitem.

(** X25. PretrainDataset.__getitem__ on a dataset built in memory returns
    features for every index from 0 to len(dataset), whatever the random
    draws, when max_pos >= 5 and the tokenizer's get_random_token_id does
    not raise. *)
Theorem pretrain_getitem_returns {R : Type} (strip : string → string)
    (fs : FileSystem R) (tok : Tokenizer) (max_pos : Z) (dataset_path : option string)
    (documents : list string) (ds : PretrainDataset.t) (sample_counter item : Z)
    (tp : tape) :
  PretrainDataset.__init__ strip fs tok max_pos dataset_path documents true = Ok ds →
  (∀ tp, is_ok (get_random_token_id tok tp) = true) →
  5 ≤ max_pos →
  0 ≤ item ≤ PretrainDataset.__len__ ds →
  is_ok (PretrainItems.__getitem__ ds sample_counter item tp) = true.
Proof.
  intros Hinit Hrandom Hmax Hitem.
  destruct (init_spec strip fs _ _ _ _ _ _ Hinit) as (Hmem & _).
  unfold PretrainItems.__getitem__. rewrite Hmem.
  apply (returns_is_ok (λ _, True)).
  apply (returns_bind (λ _, True)); [by apply returns_ret|].
  intros counter tp1 _.
  apply (returns_bind (λ sent, PretrainDataset.tokenizer sent.2 = tok ∧
                               PretrainDataset.max_pos sent.2 = max_pos)).
  { by eapply random_sent_returns. }
  intros [[[t1 t2] label] self'] tp2 [Htok Hmax']. cbn [snd] in Htok, Hmax'.
  apply (returns_bind (λ _, True)); [|by intros; apply returns_ret].
  apply pretrain_convert_total.
  - by rewrite Htok.
  - rewrite Hmax'. case_decide; lia.
Qed.

Section OneSegmentGetitem.

Import OneSegmentDataset.

Context {R : Type}.
Variable strip : string → string.
Variable fs : FileSystem R.

Lemma init_text_fields (tok : Tokenizer) (max_pos0 : Z) (dataset_path : option string)
    (documents : list string) (stack : bool) (max_words_length0 : Z) (tp tp' : tape)
    (ds : t) :
  __init__ strip fs tok max_pos0 dataset_path documents stack None max_words_length0 tp
    = Ok (ds, tp') →
  tokenizer ds = tok ∧ max_pos ds = max_pos0 ∧
  indices ds = seq 0 (length (all_documents ds)).
Proof.
  unfold __init__. intros H.
  apply rand_bind_ok in H as (pad & t1 & _ & H).
  apply rand_bind_ok in H as (cls & t2 & _ & H).
  apply rand_bind_ok in H as (sep & t3 & _ & H).
  apply rand_bind_ok in H as (mask & t4 & _ & H).
  apply rand_bind_ok in H as ([docs st] & t5 & _ & H).
  case_decide as Hempty; [by destruct dataset_path|].
  apply rand_ret_ok in H as [<- _]. done.
Qed.

End OneSegmentGetitem.

(** X26. OneSegmentDataset.__getitem__ on a dataset built from text returns
    features for every index from -len(dataset) to len(dataset) - 1,
    whatever the random draws, when max_pos >= 4, no document holds the id
    of CLS or SEP and the tokenizer's get_random_token_id does not raise;
    outside that range it raises IndexError. *)
Theorem one_segment_getitem_returns {R : Type} (strip : string → string)
    (fs : FileSystem R) (tok : Tokenizer) (max_pos : Z) (dataset_path : option string)
    (documents : list string) (sentence_stack : bool) (max_words_length : Z)
    (tp0 tp1 : tape) (ds : OneSegmentDataset.t) (item : Z) (tp : tape) :
  OneSegmentDataset.__init__ strip fs tok max_pos dataset_path documents
    sentence_stack None max_words_length tp0 = Ok (ds, tp1) →
  (∀ tp, is_ok (get_random_token_id tok tp) = true) →
  4 ≤ max_pos →
  Forall (Forall (λ x, x ≠ OneSegmentDataset.cls_id ds ∧ x ≠ OneSegmentDataset.sep_id ds))
    (OneSegmentDataset.all_documents ds) →
  let n := Z.of_nat (OneSegmentDataset.__len__ ds) in
  (- n ≤ item < n → is_ok (OneSegmentDataset.__getitem__ ds item tp) = true) ∧
  (item < - n ∨ n ≤ item → OneSegmentDataset.__getitem__ ds item tp = Err IndexError).
Proof.
  intros Hinit Hrandom Hmax Hdocs n.
  destruct (init_text_fields strip fs _ _ _ _ _ _ _ _ _ Hinit)
    as (Htok & Hmax' & Hidx).
  unfold OneSegmentDataset.__len__ in n.
  assert (Hn : n = Z.of_nat (length (OneSegmentDataset.all_documents ds))).
  { unfold n. by rewrite Hidx, length_seq. }
  unfold OneSegmentDataset.__getitem__. split.
  - intros Hitem.
    set (j := if item <? 0 then item + n else item).
    assert (Hj : 0 ≤ j < n) by (unfold j; destruct (Z.ltb_spec item 0); lia).
    assert (Hget : Py.getitem (OneSegmentDataset.indices ds) item = Ok (Z.to_nat j)).
    { unfold Py.getitem. fold n j.
      destruct (Z.ltb_spec j 0); [lia|].
      rewrite Hidx, lookup_seq_lt by lia. done. }
    destruct (getitem_in_range (OneSegmentDataset.all_documents ds)
                (Z.of_nat (Z.to_nat j))) as (doc & Hdoc & Hlook); [lia|].
    apply (returns_is_ok (λ _, True)).
    apply (returns_bind (λ index, index = Z.to_nat j)).
    { exists (Z.to_nat j), tp. unfold lift. by rewrite Hget. }
    intros index tp2 ->.
    apply (returns_bind (λ tokens_a, tokens_a = doc)).
    { exists doc, tp2. unfold lift. by rewrite Hdoc. }
    intros tokens_a tp3 ->.
    apply one_segment_convert_total.
    + by rewrite Htok.
    + by rewrite Hmax'.
    + rewrite Forall_forall in Hdocs. apply Hdocs.
      by eapply list_elem_of_lookup_2.
  - intros Hitem. unfold mbind, rand_bind, lift.
    assert (Hget : Py.getitem (OneSegmentDataset.indices ds) item = Err IndexError).
    { unfold Py.getitem. fold n.
      destruct (Z.ltb_spec item 0).
      - destruct (Z.ltb_spec (item + n) 0); [done|]. lia.
      - destruct (Z.ltb_spec item 0); [lia|].
        rewrite lookup_ge_None_2; [done|]. fold n in Hn. lia. }
    by rewrite Hget.
Qed.

Section GetitemExamples.

Import Fixture.

(** X25 on the corpus of two documents of two lines, for the index 1. *)
Lemma pretrain_getitem_returns_witness :
  is_ok (PretrainItems.__getitem__ pretrain 0 1 (tape_of [high])) = true.
Proof.
  apply (pretrain_getitem_returns strip no_files Fixture.tokenizer 12 None corpus
           pretrain 0 1 (tape_of [high])).
  - vm_compute. reflexivity.
  - intros tp. reflexivity.
  - lia.
  - vm_compute. split; discriminate.
Defined.

(** X26 on the four documents of one line, for the indices -1 and 4. *)
Lemma one_segment_getitem_returns_witness :
  is_ok (OneSegmentDataset.__getitem__ one_segment_lines (-1) (tape_of [high])) = true ∧
  OneSegmentDataset.__getitem__ one_segment_lines 4 (tape_of [high]) = Err IndexError.
Proof.
  assert (Hinit : ∃ tp1,
    OneSegmentDataset.__init__ strip no_files Fixture.tokenizer 8 None corpus false None
      10 (tape_of []) = Ok (one_segment_lines, tp1))
    by (eexists; vm_compute; reflexivity).
  destruct Hinit as (tp1 & Hinit).
  assert (Hdocs : Forall (Forall (λ x, x ≠ OneSegmentDataset.cls_id one_segment_lines ∧
                                       x ≠ OneSegmentDataset.sep_id one_segment_lines))
                    (OneSegmentDataset.all_documents one_segment_lines))
    by (repeat constructor; discriminate).
  assert (Hrandom : ∀ tp, is_ok (get_random_token_id Fixture.tokenizer tp) = true)
    by (intros tp; reflexivity).
  assert (Hmax : 4 ≤ 8) by lia.
  destruct (one_segment_getitem_returns strip no_files Fixture.tokenizer 8 None corpus
              false 10 (tape_of []) tp1 one_segment_lines (-1) (tape_of [high])
              Hinit Hrandom Hmax Hdocs) as [Hin _].
  destruct (one_segment_getitem_returns strip no_files Fixture.tokenizer 8 None corpus
              false 10 (tape_of []) tp1 one_segment_lines 4 (tape_of [high])
              Hinit Hrandom Hmax Hdocs) as [_ Hout].
  split.
  - apply Hin. vm_compute. split; [discriminate|reflexivity].
  - apply Hout. right. vm_compute. discriminate.
Defined.

End GetitemExamples.
